(** * CRM request handlers and Accounts view: a shallow embedding

    The source file holds two units: the Accounts view of the browser UI
    ([CRMAccounts], with its [handleSaveAccount]) and the Express request
    handlers of the REST API, which talk to the database through the
    Prisma client.

    Modelling choices.
    - A JavaScript object (request body, form data, database row) is a
      finite map from property names to values, [gmap string value].  A
      property holding [undefined] is modelled as an absent key: this is
      what both [JSON.stringify] and Prisma make of it.  Columns that are
      [null] in a row are absent keys too.
    - Strings are [string]; the text is taken to be ASCII, so that
      [toUpperCase] acts on the letters a-z and the class [\s] is tab,
      line feed, vertical tab, form feed, carriage return and space.
    - Numbers that the handlers compute with (page, limit, counts) are
      integers, modelled by [Z]; this is exact below 2^53.
    - A handler is a function from the request, the environment (clock and
      the identifier the store generates next) and the store to a result
      and a new store.  Exceptions are explicit ([Throw]); [catch] is the
      handler's [try { ... } catch], and [handler] tells whether a
      response was sent or the exception left the handler.
    - The Prisma client is modelled by an in-memory store: one list of rows
      per model, in insertion order, with the behaviour the client
      documents: [update] and [delete] of a record that does not exist
      throw, [findUnique] and [findFirst] return [null], a negative [skip]
      is refused.  The schema (which data a model accepts, the column
      defaults) and the engine's [Date] parser are not part of the source
      and are parameters ([Platform]).  Relation loading ([include]) is
      left out: the relations are declared in the schema.
    - Writes are flat: the data of a create or an update become columns
      of one row.  What the schema's relations add to this is outside the
      model: an object under a relation field of the data, which the
      client turns into writes to other tables, and a delete that the
      database refuses or cascades because other records refer to the
      record.  So is the reading of [_] and [%] in a search term as
      wildcards.  The properties that these would touch are stated for
      bodies without nested objects ([scalar_body]), for deletes that
      were answered 200, and for search terms without such characters.
    - Console logging is not modelled. *)

From Stdlib Require Import ZArith Ascii String List.
From stdpp Require Import gmap strings list fin_maps sorting pretty.

Local Open Scope string_scope.
Local Open Scope Z_scope.

(** ** JavaScript values *)

Inductive value : Type :=
  | VUndef
  | VNull
  | VBool (b : bool)
  | VNum (n : Z)
  | VStr (s : string)
  | VDate (t : option Z)          (* a Date; [None] is the Invalid Date *)
  | VObj (fs : fields)            (* a nested object literal *)
with fields : Type :=
  | FNil
  | FCons (k : string) (v : value) (rest : fields).

Abbreviation Obj := (gmap string value).

(** Thrown exceptions: a [TypeError] of the engine, or an error of the
    Prisma client, with its message. *)
Inductive error : Type :=
  | TypeError (msg : string)
  | PrismaError (msg : string).

Definition error_message (e : error) : string :=
  match e with TypeError m => m | PrismaError m => m end.

Inductive outcome (A : Type) : Type :=
  | Ret (a : A)
  | Throw (e : error).
Arguments Ret {A} a.
Arguments Throw {A} e.

#[global] Instance outcome_ret : MRet outcome := fun A a => Ret a.
#[global] Instance outcome_bind : MBind outcome := fun A B k m =>
  match m with Ret a => k a | Throw e => Throw e end.

(** [o.k]: a missing property reads as [undefined]. *)
Definition get (o : Obj) (k : string) : value := default VUndef (o !! k).

(** [{ ...o, k: v }]: a property set to [undefined] is an absent key. *)
Definition set (k : string) (v : value) (o : Obj) : Obj :=
  match v with VUndef => delete k o | _ => <[k := v]> o end.

(** ToBoolean. *)
Definition truthy (v : value) : bool :=
  match v with
  | VUndef | VNull => false
  | VBool b => b
  | VNum n => negb (n =? 0)
  | VStr s => negb (String.eqb s "")
  | VDate _ | VObj _ => true
  end.

(** [a || b] *)
Definition js_or (a b : value) : value := if truthy a then a else b.

(** ** Strings *)

Definition is_space (c : ascii) : bool :=
  let n := nat_of_ascii c in
  ((9 <=? n) && (n <=? 13))%nat || (n =? 32)%nat.

Definition upper_char (c : ascii) : ascii :=
  let n := nat_of_ascii c in
  if ((97 <=? n) && (n <=? 122))%nat then ascii_of_nat (n - 32) else c.

Definition lower_char (c : ascii) : ascii :=
  let n := nat_of_ascii c in
  if ((65 <=? n) && (n <=? 90))%nat then ascii_of_nat (n + 32) else c.

Fixpoint map_string (f : ascii -> ascii) (s : string) : string :=
  match s with
  | EmptyString => EmptyString
  | String c r => String (f c) (map_string f r)
  end.

(** [s.toUpperCase()], [s.toLowerCase()] *)
Definition toUpperCase (s : string) : string := map_string upper_char s.
Definition toLowerCase (s : string) : string := map_string lower_char s.

Fixpoint drop_spaces (s : string) : string :=
  match s with
  | EmptyString => EmptyString
  | String c r => if is_space c then drop_spaces r else s
  end.

(** [s.replace(/\s+/g, "_")]: every maximal run of white space becomes one
    underscore.  [in_run] tells that the previous character was white
    space, whose underscore is already written. *)
Fixpoint replace_ws_go (in_run : bool) (s : string) : string :=
  match s with
  | EmptyString => EmptyString
  | String c r =>
      if is_space c
      then (if in_run then replace_ws_go true r
            else String "_" (replace_ws_go true r))
      else String c (replace_ws_go false r)
  end.
Definition replace_ws_runs (s : string) : string := replace_ws_go false s.

(** [s.replace(a, b)] with a one-character string pattern [a]: the first
    occurrence only. *)
Fixpoint replace_first (a b : ascii) (s : string) : string :=
  match s with
  | EmptyString => EmptyString
  | String c r =>
      if Ascii.eqb c a then String b r else String c (replace_first a b r)
  end.

(** [s.replace(/a/g, b)] for a one-character pattern: every occurrence. *)
Fixpoint replace_all (a b : ascii) (s : string) : string :=
  match s with
  | EmptyString => EmptyString
  | String c r =>
      String (if Ascii.eqb c a then b else c) (replace_all a b r)
  end.

(** [s.includes(c)] for a one-character string. *)
Fixpoint includes (c : ascii) (s : string) : bool :=
  match s with
  | EmptyString => false
  | String d r => Ascii.eqb d c || includes c r
  end.

(** [s.split(c)] for a one-character separator; never the empty array. *)
Fixpoint split (sep : ascii) (s : string) : list string :=
  match s with
  | EmptyString => [EmptyString]
  | String c r =>
      if Ascii.eqb c sep then EmptyString :: split sep r
      else match split sep r with
           | w :: ws => String c w :: ws
           | [] => [String c EmptyString]
           end
  end.

(** [parts.join(" ")] *)
Fixpoint join (sep : string) (parts : list string) : string :=
  match parts with
  | [] => EmptyString
  | [w] => w
  | w :: ws => w ++ sep ++ join sep ws
  end.

(** Case-insensitive [contains] of the store's string filters. *)
Fixpoint prefixb (p s : string) : bool :=
  match p, s with
  | EmptyString, _ => true
  | String a p', String b s' => Ascii.eqb a b && prefixb p' s'
  | String _ _, EmptyString => false
  end.

Fixpoint substringb (p s : string) : bool :=
  prefixb p s ||
  match s with
  | EmptyString => false
  | String _ s' => substringb p s'
  end.

Definition contains_insensitive (needle hay : string) : bool :=
  substringb (toLowerCase needle) (toLowerCase hay).

(** ** Numbers from query strings *)

(** The value of a digit in the given radix, if it is one. *)
Definition digit_val (radix : Z) (c : ascii) : option Z :=
  let n := Z.of_nat (nat_of_ascii c) in
  let d := if (48 <=? n) && (n <=? 57) then Some (n - 48)
           else if (97 <=? n) && (n <=? 122) then Some (n - 87)
           else if (65 <=? n) && (n <=? 90) then Some (n - 55)
           else None in
  match d with
  | Some v => if v <? radix then Some v else None
  | None => None
  end.

(** The longest prefix of digits; [None] when there is no digit. *)
Fixpoint parse_digits (radix : Z) (acc : option Z) (s : string) : option Z :=
  match s with
  | EmptyString => acc
  | String c r =>
      match digit_val radix c with
      | Some d => parse_digits radix (Some (default 0 acc * radix + d)) r
      | None => acc
      end
  end.

(** [parseInt(q)] for a query parameter [q], absent ([undefined]) or a
    string.  [None] is [NaN]. *)
Definition parseInt (q : option string) : option Z :=
  match q with
  | None => None
  | Some s =>
      let s := drop_spaces s in
      let '(sign, s) :=
        match s with
        | String "-" r => (-1, r)
        | String "+" r => (1, r)
        | _ => (1, s)
        end in
      let '(radix, s) :=
        match s with
        | String "0" (String "x" r) => (16, r)
        | String "0" (String "X" r) => (16, r)
        | _ => (10, s)
        end in
      Z.mul sign <$> parse_digits radix None s
  end.

(** [n || d] for a number [n]: [NaN] and [0] are falsy. *)
Definition num_or (n : option Z) (d : Z) : Z :=
  match n with
  | Some n => if n =? 0 then d else n
  | None => d
  end.

(** [Math.ceil(a / b)] for integers [a] and [b], [b] not zero. *)
Definition ceil_div (a b : Z) : Z := - ((- a) / b).

(** ** The platform: what the source takes from outside *)

Inductive Model : Type :=
  contact | account | activityLog | activeDeal | lead | userProfile.

#[global] Instance Model_eq_dec : EqDecision Model.
Proof. solve_decision. Defined.

Record Platform : Type := {
  (** [new Date(s).getTime()]; [None] is [NaN] *)
  date_parse : string -> option Z;
  (** does the schema of the model accept this [data] of a create or
      update *)
  accepts : Model -> Obj -> bool;
  (** the column defaults of the model *)
  defaults : Model -> Obj;
}.

(** The environment of one request: the clock, and the identifier the
    store generates for a row created now. *)
Record Env : Type := { now : Z; fresh_id : string }.

(** ** The store behind the Prisma client *)

Definition Store : Type := Model -> list Obj.

Definition upd (m : Model) (rows : list Obj) (st : Store) : Store :=
  fun m' => if decide (m' = m) then rows else st m'.

Definition M (A : Type) : Type := Store -> outcome A * Store.

#[global] Instance M_ret : MRet M := fun A a st => (Ret a, st).
#[global] Instance M_bind : MBind M := fun A B k m st =>
  match m st with
  | (Ret a, st') => k a st'
  | (Throw e, st') => (Throw e, st')
  end.

(** A computation of the engine inside a handler. *)
Definition lift {A} (o : outcome A) : M A := fun st => (o, st).

(** [try { body } catch (error) { h error }] *)
Definition catch {A} (body : M A) (h : error -> M A) : M A := fun st =>
  match body st with
  | (Throw e, st') => h e st'
  | r => r
  end.

Definition has_id (id : string) (r : Obj) : bool :=
  match get r "id" with
  | VStr s => String.eqb s id
  | _ => false
  end.

(** The time of a column, for [orderBy]; [None] is a [null]. *)
Definition time_of (k : string) (r : Obj) : option Z :=
  match get r k with
  | VDate t => t
  | _ => None
  end.

(** [a] may stand before [b] in descending order; a [null] comes first,
    as the database has it. *)
Definition desc_le (a b : option Z) : bool :=
  match a, b with
  | None, _ => true
  | Some _, None => false
  | Some x, Some y => y <=? x
  end.

Definition desc_by (k : string) (r1 r2 : Obj) : Prop :=
  desc_le (time_of k r1) (time_of k r2) = true.

#[global] Instance desc_by_dec k : RelDecision (desc_by k).
Proof. intros r1 r2. unfold desc_by. apply _. Defined.

(** [prisma.m.findMany({ where, skip, take, orderBy: { k: "desc" } })].
    A negative [skip] is refused; a negative [take] counts from the end. *)
Definition findMany (m : Model) (where_ : Obj -> bool) (skip take_ : Z)
    (k : string) : M (list Obj) := fun st =>
  if skip <? 0
  then (Throw (PrismaError "Invalid value for skip argument"), st)
  else
    let sorted := merge_sort (desc_by k) (List.filter where_ (st m)) in
    let page :=
      if 0 <=? take_
      then take (Z.to_nat take_) (drop (Z.to_nat skip) sorted)
      else rev (take (Z.to_nat (- take_))
                     (drop (Z.to_nat skip) (rev sorted))) in
    (Ret page, st).

(** [prisma.m.count({ where })] *)
Definition count (m : Model) (where_ : Obj -> bool) : M Z := fun st =>
  (Ret (Z.of_nat (length (List.filter where_ (st m)))), st).

(** [prisma.m.findUnique({ where: { id } })]; [None] is [null]. *)
Definition findUnique (m : Model) (id : string) : M (option Obj) := fun st =>
  (Ret (List.find (has_id id) (st m)), st).

(** [prisma.m.findFirst()] *)
Definition findFirst (m : Model) : M (option Obj) := fun st =>
  (Ret (head (st m)), st).

(** [prisma.m.create({ data })]: the row is the data over the generated
    columns over the column defaults.  A flat write: every property of the
    data is a column of the new row. *)
Definition new_row (P : Platform) (env : Env) (m : Model) (data : Obj) : Obj :=
  data ∪ (<["id" := VStr (fresh_id env)]>
          (<["createdAt" := VDate (Some (now env))]>
           (<["updatedAt" := VDate (Some (now env))]> (defaults P m)))).

Definition id_taken (row : Obj) (rows : list Obj) : bool :=
  match get row "id" with
  | VStr i => existsb (has_id i) rows
  | _ => false
  end.

Definition create (P : Platform) (env : Env) (m : Model) (data : Obj)
    : M Obj := fun st =>
  if negb (accepts P m data)
  then (Throw (PrismaError "Invalid invocation"), st)
  else
    let row := new_row P env m data in
    if id_taken row (st m)
    then (Throw (PrismaError "Unique constraint failed"), st)
    else (Ret row, upd m (st m ++ [row]) st).

(** [prisma.m.update({ where: { id }, data })]: a flat write to the rows
    with the id.  The unique check on an id that the data rename is not
    modelled. *)
Definition update (P : Platform) (env : Env) (m : Model) (id : string)
    (data : Obj) : M Obj := fun st =>
  match List.find (has_id id) (st m) with
  | None => (Throw (PrismaError "Record to update not found"), st)
  | Some old =>
      if negb (accepts P m data)
      then (Throw (PrismaError "Invalid invocation"), st)
      else
        let row := data ∪ <["updatedAt" := VDate (Some (now env))]> old in
        (Ret row,
         upd m (List.map (fun r => if has_id id r then row else r) (st m)) st)
  end.

(** [prisma.m.delete({ where: { id } })]: the rows with the id leave the
    table.  Records of other tables that refer to them are not looked
    at. *)
Definition delete_ (m : Model) (id : string) : M Obj := fun st =>
  match List.find (has_id id) (st m) with
  | None => (Throw (PrismaError "Record to delete does not exist"), st)
  | Some old =>
      (Ret old, upd m (List.filter (fun r => negb (has_id id r)) (st m)) st)
  end.

(** ** Requests and responses *)

Record Request : Type := {
  params_id : string;              (* [req.params.id] *)
  query : gmap string string;      (* [req.query] *)
  body : Obj;                      (* [req.body] *)
}.

Record Pagination : Type := {
  pg_page : Z; pg_limit : Z; pg_total : Z; pg_totalPages : Z;
}.

Inductive payload : Type :=
  | NoData
  | One (o : Obj)
  | Many (l : list Obj).

(** The status code with the JSON envelope
    [{ success, data?, pagination?, message?, error?, details? }]. *)
Record Response : Type := {
  status : Z;
  success : bool;
  data : payload;
  pagination : option Pagination;
  message : option string;
  error_ : option string;
  details : option string;
}.

(** What becomes of a request: a response is sent, or the exception
    leaves the handler. *)
Inductive result : Type :=
  | Responded (r : Response)
  | Crashed (e : error).

Definition handler (h : M Response) : Store -> result * Store := fun st =>
  match h st with
  | (Ret r, st') => (Responded r, st')
  | (Throw e, st') => (Crashed e, st')
  end.

(** [res.json({ success: true, data })] *)
Definition json_data (d : payload) : Response :=
  {| status := 200; success := true; data := d; pagination := None;
     message := None; error_ := None; details := None |}.

(** [res.json({ success: true, data, pagination })] *)
Definition json_page (l : list Obj) (p : Pagination) : Response :=
  {| status := 200; success := true; data := Many l; pagination := Some p;
     message := None; error_ := None; details := None |}.

(** [res.status(code).json({ success: true, data, message })] *)
Definition json_done (code : Z) (o : Obj) (msg : string) : Response :=
  {| status := code; success := true; data := One o; pagination := None;
     message := Some msg; error_ := None; details := None |}.

(** [res.json({ success: true, message })] *)
Definition json_message (msg : string) : Response :=
  {| status := 200; success := true; data := NoData; pagination := None;
     message := Some msg; error_ := None; details := None |}.

(** [res.status(404).json({ success: false, message })] *)
Definition not_found (msg : string) : Response :=
  {| status := 404; success := false; data := NoData; pagination := None;
     message := Some msg; error_ := None; details := None |}.

(** [res.status(500).json({ success: false, error })] *)
Definition failed (err : string) : Response :=
  {| status := 500; success := false; data := NoData; pagination := None;
     message := None; error_ := Some err; details := None |}.

(** [res.status(500).json({ success: false, error, details })] *)
Definition failed_with (err : string) (e : error) : Response :=
  {| status := 500; success := false; data := NoData; pagination := None;
     message := None; error_ := Some err;
     details := Some (error_message e) |}.

(** ** Enum normalizer

    The handlers write the transforms inline; they come in two kinds each. *)

(** [s.replace(/\s+/g, "_").toUpperCase()] *)
Definition toStorage (s : string) : string := toUpperCase (replace_ws_runs s).
(** [s.replace(" ", "_").toUpperCase()] *)
Definition toStorage_first (s : string) : string :=
  toUpperCase (replace_first " " "_" s).
(** [s.replace(/_/g, " ")] *)
Definition toDisplay (s : string) : string := replace_all "_" " " s.
(** [s.replace("_", " ")] *)
Definition toDisplay_first (s : string) : string := replace_first "_" " " s.

(** [v.f()] for a string method [f]. *)
Definition call (f : string -> string) (v : value) : outcome value :=
  match v with
  | VStr s => Ret (VStr (f s))
  | VUndef | VNull => Throw (TypeError "Cannot read properties of undefined")
  | _ => Throw (TypeError "is not a function")
  end.

(** [v ? v.f() : undefined] *)
Definition when_truthy (f : string -> string) (v : value) : outcome value :=
  if truthy v then call f v else Ret VUndef.

(** [v?.f()] *)
Definition opt_call (f : string -> string) (v : value) : outcome value :=
  match v with
  | VUndef | VNull => Ret VUndef
  | _ => call f v
  end.

(** [v ? String(v) : undefined], for the values a JSON body holds. *)
Definition when_truthy_String (v : value) : value :=
  if truthy v then
    match v with
    | VNum n => VStr (pretty n)
    | VBool _ => VStr "true"
    | VObj _ => VStr "[object Object]"
    | _ => v
    end
  else VUndef.

(** Pagination parameters of the list handlers. *)
Definition page_of (req : Request) : Z := num_or (parseInt (query req !! "page")) 1.
Definition limit_of (req : Request) : Z := num_or (parseInt (query req !! "limit")) 10.

Definition pagination_of (page limit total : Z) : Pagination :=
  {| pg_page := page; pg_limit := limit; pg_total := total;
     pg_totalPages := ceil_div total limit |}.

(** [{ k: { contains: search, mode: "insensitive" } }] *)
Definition field_contains (k search : string) (r : Obj) : bool :=
  match get r k with
  | VStr v => contains_insensitive search v
  | _ => false
  end.

(** [search ? { OR: [ ...ks ] } : {}]: some field contains the term, the
    case set aside.  The term is taken literally. *)
Definition where_of (search : option string) (ks : list string) (r : Obj) : bool :=
  match search with
  | Some s => if String.eqb s "" then true
              else existsb (fun k => field_contains k s r) ks
  | None => true
  end.

(** ** Contacts *)

Definition show_contact (c : Obj) : outcome Obj :=
  source ← opt_call toDisplay (get c "source");
  status_ ← opt_call toDisplay (get c "status");
  mret (set "status" status_ (set "source" source c)).

Definition getContacts (req : Request) : Store -> result * Store :=
  handler (catch
    (let page := page_of req in
     let limit := limit_of req in
     let search := query req !! "search" in
     let skip := (page - 1) * limit in
     let where_ := where_of search ["firstName"; "lastName"; "emailAddress"] in
     contacts ← findMany contact where_ skip limit "createdAt";
     total ← count contact where_;
     shown ← lift (mapM show_contact contacts);
     mret (json_page shown (pagination_of page limit total)))
    (fun _ => mret (failed "Failed to fetch contacts"))).

Definition getContact (req : Request) : Store -> result * Store :=
  handler (catch
    (found ← findUnique contact (params_id req);
     match found with
     | None => mret (not_found "Contact not found")
     | Some c =>
         shown ← lift (show_contact c);
         mret (json_data (One shown))
     end)
    (fun _ => mret (failed "Failed to fetch contact"))).

(** [data.name ? data.name.split(' ') : []] *)
Definition name_parts (data : Obj) : outcome (list string) :=
  if truthy (get data "name") then
    match get data "name" with
    | VStr s => Ret (split " " s)
    | _ => Throw (TypeError "data.name.split is not a function")
    end
  else Ret [].

(** [data.firstName || nameParts[0] || ''] *)
Definition first_name (data : Obj) (nameParts : list string) : value :=
  js_or (js_or (get data "firstName")
               (match nameParts with w :: _ => VStr w | [] => VUndef end))
        (VStr "").

(** [data.lastName || nameParts.slice(1).join(' ') || ''] *)
Definition last_name (data : Obj) (nameParts : list string) : value :=
  js_or (js_or (get data "lastName") (VStr (join " " (tail nameParts))))
        (VStr "").

(** The [contactData] that [createContact] prepares from the body. *)
Definition contactData (data : Obj) : outcome Obj :=
  nameParts ← name_parts data;
  let firstName := first_name data nameParts in
  let lastName := last_name data nameParts in
  source ← when_truthy toStorage (get data "source");
  status_ ← when_truthy toStorage (get data "status");
  mret
    (set "updatedBy" (VStr "system")
    (set "createdBy" (VStr "system")
    (set "status" status_
    (set "owner" (get data "owner")
    (set "source" source
    (set "timeZone" (get data "timeZone")
    (set "country" (get data "country")
    (set "state" (get data "state")
    (set "city" (get data "city")
    (set "mobilePhone" (js_or (get data "mobilePhone") (get data "phone"))
    (set "deskPhone" (get data "deskPhone")
    (set "emailAddress" (js_or (get data "emailAddress") (get data "email"))
    (set "associatedAccount" (get data "associatedAccount")
    (set "title" (get data "title")
    (set "lastName" lastName
    (set "firstName" firstName ∅)))))))))))))))).

Definition createContact (P : Platform) (env : Env) (req : Request)
    : Store -> result * Store :=
  handler (catch
    (data ← lift (contactData (body req));
     c ← create P env contact data;
     shown ← lift (show_contact c);
     mret (json_done 201 shown "Contact created successfully"))
    (fun e => mret (failed_with "Failed to create contact" e))).

Definition updateContact (P : Platform) (env : Env) (req : Request)
    : Store -> result * Store :=
  handler (catch
    (let data := body req in
     source ← lift (when_truthy toStorage (get data "source"));
     status_ ← lift (when_truthy toStorage (get data "status"));
     c ← update P env contact (params_id req)
           (set "updatedBy" (VStr "system")
           (set "status" status_
           (set "source" source data)));
     shown ← lift (show_contact c);
     mret (json_done 200 shown "Contact updated successfully"))
    (fun _ => mret (failed "Failed to update contact"))).

Definition deleteContact (req : Request) : Store -> result * Store :=
  handler (catch
    (_ ← delete_ contact (params_id req);
     mret (json_message "Contact deleted successfully"))
    (fun _ => mret (failed "Failed to delete contact"))).

(** ** Accounts *)

Definition show_account (a : Obj) : outcome Obj :=
  accountRating ← when_truthy toDisplay (get a "accountRating");
  status_ ← when_truthy toDisplay_first (get a "status");
  geo ← when_truthy toDisplay_first (get a "geo");
  mret (set "geo" geo (set "status" status_ (set "accountRating" accountRating a))).

Definition getAccounts (req : Request) : Store -> result * Store :=
  handler (catch
    (let page := page_of req in
     let limit := limit_of req in
     let search := query req !! "search" in
     let skip := (page - 1) * limit in
     let where_ := where_of search ["accountName"; "industry"] in
     accounts ← findMany account where_ skip limit "createdAt";
     total ← count account where_;
     shown ← lift (mapM show_account accounts);
     mret (json_page shown (pagination_of page limit total)))
    (fun _ => mret (failed "Failed to fetch accounts"))).

Definition getAccount (req : Request) : Store -> result * Store :=
  handler (catch
    (found ← findUnique account (params_id req);
     match found with
     | None => mret (not_found "Account not found")
     | Some a =>
         shown ← lift (show_account a);
         mret (json_data (One shown))
     end)
    (fun _ => mret (failed "Failed to fetch account"))).

(** The [data] that [createAccount] passes to the store. *)
Definition accountData (data : Obj) : outcome Obj :=
  accountRating ← when_truthy toStorage (get data "accountRating");
  status_ ← when_truthy toStorage_first (get data "status");
  geo ← when_truthy toStorage_first (get data "geo");
  mret
    (set "updatedBy" (VStr "system")
    (set "createdBy" (VStr "system")
    (set "geo" geo
    (set "status" status_
    (set "accountRating" accountRating data))))).

Definition createAccount (P : Platform) (env : Env) (req : Request)
    : Store -> result * Store :=
  handler (catch
    (data ← lift (accountData (body req));
     a ← create P env account data;
     shown ← lift (show_account a);
     mret (json_done 201 shown "Account created successfully"))
    (fun _ => mret (failed "Failed to create account"))).

Definition updateAccount (P : Platform) (env : Env) (req : Request)
    : Store -> result * Store :=
  handler (catch
    (let data := body req in
     accountRating ← lift (when_truthy toStorage (get data "accountRating"));
     status_ ← lift (when_truthy toStorage_first (get data "status"));
     geo ← lift (when_truthy toStorage_first (get data "geo"));
     a ← update P env account (params_id req)
           (set "updatedBy" (VStr "system")
           (set "geo" geo
           (set "status" status_
           (set "accountRating" accountRating data))));
     shown ← lift (show_account a);
     mret (json_done 200 shown "Account updated successfully"))
    (fun _ => mret (failed "Failed to update account"))).

Definition deleteAccount (req : Request) : Store -> result * Store :=
  handler (catch
    (_ ← delete_ account (params_id req);
     mret (json_message "Account deleted successfully"))
    (fun _ => mret (failed "Failed to delete account"))).

(** ** Activities *)

Definition show_activity (a : Obj) : outcome Obj :=
  activityType ← call toDisplay_first (get a "activityType");
  outcomeDisposition ← when_truthy toDisplay (get a "outcomeDisposition");
  mret (set "outcomeDisposition" outcomeDisposition
         (set "activityType" activityType a)).

Definition getActivities (req : Request) : Store -> result * Store :=
  handler (catch
    (let page := page_of req in
     let limit := limit_of req in
     let skip := (page - 1) * limit in
     activities ← findMany activityLog (fun _ => true) skip limit "dateTime";
     total ← count activityLog (fun _ => true);
     shown ← lift (mapM show_activity activities);
     mret (json_page shown (pagination_of page limit total)))
    (fun _ => mret (failed "Failed to fetch activities"))).

Definition getActivity (req : Request) : Store -> result * Store :=
  handler (catch
    (found ← findUnique activityLog (params_id req);
     match found with
     | None => mret (not_found "Activity not found")
     | Some a =>
         shown ← lift (show_activity a);
         mret (json_data (One shown))
     end)
    (fun _ => mret (failed "Failed to fetch activity"))).

(** The [data] that [createActivity] passes to the store. *)
Definition activityData (data : Obj) : outcome Obj :=
  activityType ← call toStorage_first (get data "activityType");
  outcomeDisposition ← when_truthy toStorage (get data "outcomeDisposition");
  mret
    (set "updatedBy" (VStr "system")
    (set "createdBy" (VStr "system")
    (set "outcomeDisposition" outcomeDisposition
    (set "activityType" activityType data)))).

Definition createActivity (P : Platform) (env : Env) (req : Request)
    : Store -> result * Store :=
  handler (catch
    (data ← lift (activityData (body req));
     a ← create P env activityLog data;
     shown ← lift (show_activity a);
     mret (json_done 201 shown "Activity created successfully"))
    (fun _ => mret (failed "Failed to create activity"))).

Definition updateActivity (P : Platform) (env : Env) (req : Request)
    : Store -> result * Store :=
  handler (catch
    (let data := body req in
     activityType ← lift (when_truthy toStorage_first (get data "activityType"));
     outcomeDisposition ←
       lift (when_truthy toStorage (get data "outcomeDisposition"));
     a ← update P env activityLog (params_id req)
           (set "updatedBy" (VStr "system")
           (set "outcomeDisposition" outcomeDisposition
           (set "activityType" activityType data)));
     shown ← lift (show_activity a);
     mret (json_done 200 shown "Activity updated successfully"))
    (fun _ => mret (failed "Failed to update activity"))).

Definition deleteActivity (req : Request) : Store -> result * Store :=
  handler (catch
    (_ ← delete_ activityLog (params_id req);
     mret (json_message "Activity deleted successfully"))
    (fun _ => mret (failed "Failed to delete activity"))).

(** ** Deals *)

Definition show_deal (d : Obj) : outcome Obj :=
  businessLine ← when_truthy toDisplay (get d "businessLine");
  geo ← when_truthy toDisplay_first (get d "geo");
  entity ← when_truthy toDisplay_first (get d "entity");
  stage ← when_truthy toDisplay (get d "stage");
  mret (set "stage" stage (set "entity" entity (set "geo" geo
         (set "businessLine" businessLine d)))).

Definition getDeals (req : Request) : Store -> result * Store :=
  handler (catch
    (let page := page_of req in
     let limit := limit_of req in
     let skip := (page - 1) * limit in
     deals ← findMany activeDeal (fun _ => true) skip limit "createdAt";
     total ← count activeDeal (fun _ => true);
     shown ← lift (mapM show_deal deals);
     mret (json_page shown (pagination_of page limit total)))
    (fun _ => mret (failed "Failed to fetch deals"))).

Definition getDeal (req : Request) : Store -> result * Store :=
  handler (catch
    (found ← findUnique activeDeal (params_id req);
     match found with
     | None => mret (not_found "Deal not found")
     | Some d =>
         shown ← lift (show_deal d);
         mret (json_data (One shown))
     end)
    (fun _ => mret (failed "Failed to fetch deal"))).

(** The date conversion of [createDeal].  A string with a [T] is parsed as
    it is, any other string with [T12:00:00.000Z] appended; a value that is
    neither a string nor a [Date] leaves [closingDate] undefined, and so
    does a date whose time is [NaN]. *)
Definition closing_date (P : Platform) (data : Obj) : value :=
  let v := get data "closingDate" in
  if truthy v then
    let closingDate :=
      match v with
      | VStr s =>
          if includes "T" s then VDate (date_parse P s)
          else VDate (date_parse P (s ++ "T12:00:00.000Z"))
      | VDate t => VDate t
      | _ => VUndef
      end in
    match closingDate with
    | VDate None => VUndef
    | _ => closingDate
    end
  else VUndef.

(** The [dealData] that [createDeal] prepares from the body. *)
Definition dealData (P : Platform) (data : Obj) : outcome Obj :=
  let closingDate := closing_date P data in
  businessLine ← when_truthy toStorage (get data "businessLine");
  geo ← when_truthy toStorage (get data "geo");
  entity ← when_truthy toStorage (get data "entity");
  stage ← when_truthy toStorage (get data "stage");
  mret
    (set "updatedBy" (VStr "system")
    (set "createdBy" (VStr "system")
    (set "stage" stage
    (set "entity" entity
    (set "geo" geo
    (set "nextStep" (get data "nextStep")
    (set "description" (get data "description")
    (set "approvedBy" (get data "approvedBy")
    (set "dealValue" (when_truthy_String (get data "dealValue"))
    (set "probability" (when_truthy_String (get data "probability"))
    (set "closingDate" closingDate
    (set "associatedContact" (get data "associatedContact")
    (set "associatedAccount" (get data "associatedAccount")
    (set "businessLine" businessLine
    (set "dealName" (get data "dealName")
    (set "dealOwner" (js_or (get data "dealOwner") (get data "owner"))
         ∅)))))))))))))))).

Definition createDeal (P : Platform) (env : Env) (req : Request)
    : Store -> result * Store :=
  handler (catch
    (data ← lift (dealData P (body req));
     d ← create P env activeDeal data;
     shown ← lift (show_deal d);
     mret (json_done 201 shown "Deal created successfully"))
    (fun e => mret (failed_with "Failed to create deal" e))).

Definition updateDeal (P : Platform) (env : Env) (req : Request)
    : Store -> result * Store :=
  handler (catch
    (let data := body req in
     businessLine ← lift (when_truthy toStorage (get data "businessLine"));
     geo ← lift (when_truthy toStorage_first (get data "geo"));
     entity ← lift (when_truthy toStorage (get data "entity"));
     stage ← lift (when_truthy toStorage (get data "stage"));
     d ← update P env activeDeal (params_id req)
           (set "updatedBy" (VStr "system")
           (set "stage" stage
           (set "entity" entity
           (set "geo" geo
           (set "businessLine" businessLine data)))));
     shown ← lift (show_deal d);
     mret (json_done 200 shown "Deal updated successfully"))
    (fun _ => mret (failed "Failed to update deal"))).

Definition deleteDeal (req : Request) : Store -> result * Store :=
  handler (catch
    (_ ← delete_ activeDeal (params_id req);
     mret (json_message "Deal deleted successfully"))
    (fun _ => mret (failed "Failed to delete deal"))).

(** ** Leads *)

Definition show_lead (l : Obj) : outcome Obj :=
  leadSource ← when_truthy toDisplay (get l "leadSource");
  status_ ← when_truthy toDisplay_first (get l "status");
  rating ← when_truthy toDisplay_first (get l "rating");
  mret (set "rating" rating (set "status" status_
         (set "leadSource" leadSource l))).

Definition getLeads (req : Request) : Store -> result * Store :=
  handler (catch
    (let page := page_of req in
     let limit := limit_of req in
     let skip := (page - 1) * limit in
     leads ← findMany lead (fun _ => true) skip limit "createdAt";
     total ← count lead (fun _ => true);
     shown ← lift (mapM show_lead leads);
     mret (json_page shown (pagination_of page limit total)))
    (fun _ => mret (failed "Failed to fetch leads"))).

Definition getLead (req : Request) : Store -> result * Store :=
  handler (catch
    (found ← findUnique lead (params_id req);
     match found with
     | None => mret (not_found "Lead not found")
     | Some l =>
         shown ← lift (show_lead l);
         mret (json_data (One shown))
     end)
    (fun _ => mret (failed "Failed to fetch lead"))).

(** The [leadData] that [createLead] prepares from the body. *)
Definition leadData (data : Obj) : outcome Obj :=
  nameParts ← name_parts data;
  let firstName := first_name data nameParts in
  let lastName := last_name data nameParts in
  leadSource ← when_truthy toStorage
                 (js_or (get data "leadSource") (get data "source"));
  status_ ← when_truthy toStorage (get data "status");
  rating ← when_truthy toStorage (get data "rating");
  mret
    (set "updatedBy" (VStr "system")
    (set "createdBy" (VStr "system")
    (set "owner" (get data "owner")
    (set "rating" rating
    (set "status" status_
    (set "leadSource" leadSource
    (set "email" (get data "email")
    (set "phone" (get data "phone")
    (set "title" (get data "title")
    (set "company" (get data "company")
    (set "lastName" lastName
    (set "firstName" firstName ∅)))))))))))).

Definition createLead (P : Platform) (env : Env) (req : Request)
    : Store -> result * Store :=
  handler (catch
    (data ← lift (leadData (body req));
     l ← create P env lead data;
     shown ← lift (show_lead l);
     mret (json_done 201 shown "Lead created successfully"))
    (fun _ => mret (failed "Failed to create lead"))).

Definition updateLead (P : Platform) (env : Env) (req : Request)
    : Store -> result * Store :=
  handler (catch
    (let data := body req in
     leadSource ← lift (when_truthy toStorage (get data "leadSource"));
     status_ ← lift (when_truthy toStorage_first (get data "status"));
     rating ← lift (when_truthy toStorage_first (get data "rating"));
     l ← update P env lead (params_id req)
           (set "updatedBy" (VStr "system")
           (set "rating" rating
           (set "status" status_
           (set "leadSource" leadSource data))));
     shown ← lift (show_lead l);
     mret (json_done 200 shown "Lead updated successfully"))
    (fun _ => mret (failed "Failed to update lead"))).

Definition deleteLead (req : Request) : Store -> result * Store :=
  handler (catch
    (_ ← delete_ lead (params_id req);
     mret (json_message "Lead deleted successfully"))
    (fun _ => mret (failed "Failed to delete lead"))).

(** ** Reports *)

Definition everything (_ : Obj) : bool := true.

Definition generateReport (env : Env) (req : Request) : Store -> result * Store :=
  handler (catch
    (let data := body req in
     contacts ← count contact everything;
     accounts ← count account everything;
     deals ← count activeDeal everything;
     activities ← count activityLog everything;
     leads ← count lead everything;
     let reportData : Obj :=
       set "generatedBy" (VStr "system")
       (set "generatedAt" (VDate (Some (now env)))
       (set "metrics"
          (VObj (FCons "totalContacts" (VNum contacts)
                (FCons "totalAccounts" (VNum accounts)
                (FCons "totalDeals" (VNum deals)
                (FCons "totalActivities" (VNum activities)
                (FCons "totalLeads" (VNum leads) FNil))))))
       (set "businessLine" (get data "businessLine")
       (set "geo" (get data "geo")
       (set "salesRep" (get data "salesRep")
       (set "period" (get data "period")
       (set "reportType" (get data "reportType")
       (set "id" (VStr ("report_" ++ pretty (now env))) ∅)))))))) in
     mret (json_done 200 reportData "Report generated successfully"))
    (fun _ => mret (failed "Failed to generate report"))).

(** ** User profiles *)

Definition show_profile (u : Obj) : outcome Obj :=
  role ← opt_call toDisplay (get u "role");
  mret (set "notifications"
          (VObj (FCons "emailNotifications" (get u "emailNotifications")
                (FCons "smsNotifications" (get u "smsNotifications")
                (FCons "pushNotifications" (get u "pushNotifications") FNil))))
         (set "role" role u)).

Definition getUserProfile (req : Request) : Store -> result * Store :=
  handler (catch
    (found ← findUnique userProfile (params_id req);
     match found with
     | None => mret (not_found "User profile not found")
     | Some u =>
         shown ← lift (show_profile u);
         mret (json_data (One shown))
     end)
    (fun _ => mret (failed "Failed to fetch user profile"))).

(** The data of the profile that [getCurrentUserProfile] creates. *)
Definition default_profile : Obj :=
  set "language" (VStr "en")
  (set "timezone" (VStr "EST")
  (set "phone" (VStr "+1-555-0100")
  (set "role" (VStr "SALES_MANAGER")
  (set "department" (VStr "Sales")
  (set "title" (VStr "Sales Manager")
  (set "email" (VStr "john.doe@yitro.com")
  (set "lastName" (VStr "Doe")
  (set "firstName" (VStr "John") ∅)))))))).

Definition getCurrentUserProfile (P : Platform) (env : Env) (req : Request)
    : Store -> result * Store :=
  handler (catch
    (found ← findFirst userProfile;
     u ← match found with
         | Some u => mret u
         | None => create P env userProfile default_profile
         end;
     shown ← lift (show_profile u);
     mret (json_data (One shown)))
    (fun _ => mret (failed "Failed to fetch user profile"))).

(** ** The Accounts view *)

Module UI.

(** The state of the component that [handleSaveAccount] reads and sets. *)
Record State : Type := {
  showNewAccountDialog : bool;
  editingAccount : option Obj;
  formData : Obj;
}.

(** What the component does to its surroundings, in order. *)
Inductive effect : Type :=
  | Alert (msg : string)
  | AddAccount (newAccountData : Obj)
  | UpdateAccount (id : value) (changes : Obj).

(** The two store methods of the CRM context used here; the context is not
    part of the source, and all that matters is whether a call throws. *)
Record Context : Type := {
  addAccount_throws : Obj -> bool;
  updateAccount_throws : value -> Obj -> bool;
}.

Definition newAccountData (formData : Obj) : Obj :=
  set "updatedBy" (VStr "current-user")
  (set "createdBy" (VStr "current-user")
  (set "status" (js_or (get formData "status") (VStr "PROSPECT"))
  (set "accountOwner" (js_or (get formData "accountOwner") (VStr "Current User"))
  (set "website" (js_or (get formData "website") (VStr ""))
  (set "country" (js_or (get formData "country") (VStr ""))
  (set "state" (js_or (get formData "state") (VStr ""))
  (set "city" (js_or (get formData "city") (VStr ""))
  (set "numberOfEmployees" (js_or (get formData "numberOfEmployees") (VStr "1-10"))
  (set "revenue" (js_or (get formData "revenue") (VStr "$0"))
  (set "accountRating" (js_or (get formData "accountRating") (VStr "BRONZE"))
  (set "industry" (js_or (get formData "industry") (VStr ""))
  (set "accountName" (js_or (get formData "accountName") (VStr "")) ∅)))))))))))).

Definition closed : State :=
  {| showNewAccountDialog := false; editingAccount := None; formData := ∅ |}.

(** The optional fields of the form, with the value a new account gets
    when the field is not filled in. *)
Definition optional_defaults : list (string * string) :=
  [("accountRating", "BRONZE"); ("revenue", "$0");
   ("numberOfEmployees", "1-10"); ("city", ""); ("state", "");
   ("country", ""); ("website", ""); ("accountOwner", "Current User");
   ("status", "PROSPECT")].

Definition handleSaveAccount (ctx : Context) (s : State) : list effect * State :=
  if negb (truthy (get (formData s) "accountName"))
     || negb (truthy (get (formData s) "industry"))
  then ([Alert "Account Name and Industry are required!"], s)
  else
    match editingAccount s with
    | Some acc =>
        if updateAccount_throws ctx (get acc "id") (formData s)
        then ([UpdateAccount (get acc "id") (formData s);
               Alert "Error saving account. Please try again."], s)
        else ([UpdateAccount (get acc "id") (formData s);
               Alert "Account updated successfully!"], closed)
    | None =>
        let payload := newAccountData (formData s) in
        if addAccount_throws ctx payload
        then ([AddAccount payload;
               Alert "Error saving account. Please try again."], s)
        else ([AddAccount payload;
               Alert "Account created successfully!"], closed)
    end.

(** For the examples: a context whose calls return, a form with the two
    required fields, and a form without industry. *)
Definition quiet : Context :=
  {| addAccount_throws := fun _ => false;
     updateAccount_throws := fun _ _ => false |}.

Definition acme_form : State :=
  {| showNewAccountDialog := true; editingAccount := None;
     formData := list_to_map [("accountName", VStr "Acme");
                              ("industry", VStr "Technology")] |}.

Definition blank_form : State :=
  {| showNewAccountDialog := true; editingAccount := None;
     formData := list_to_map [("accountName", VStr "Acme")] |}.

End UI.

(** ** Entities, their handlers and their enum fields *)

(** The five entities with the full set of endpoints, named as their
    routes are. *)
Inductive Entity : Type := contacts | accounts | activities | deals | leads.

Definition model_of (e : Entity) : Model :=
  match e with
  | contacts => contact
  | accounts => account
  | activities => activityLog
  | deals => activeDeal
  | leads => lead
  end.

Definition create_handler (e : Entity) (P : Platform) (env : Env)
    (req : Request) : Store -> result * Store :=
  match e with
  | contacts => createContact P env req
  | accounts => createAccount P env req
  | activities => createActivity P env req
  | deals => createDeal P env req
  | leads => createLead P env req
  end.

Definition get_handler (e : Entity) (req : Request) : Store -> result * Store :=
  match e with
  | contacts => getContact req
  | accounts => getAccount req
  | activities => getActivity req
  | deals => getDeal req
  | leads => getLead req
  end.

Definition delete_handler (e : Entity) (req : Request) : Store -> result * Store :=
  match e with
  | contacts => deleteContact req
  | accounts => deleteAccount req
  | activities => deleteActivity req
  | deals => deleteDeal req
  | leads => deleteLead req
  end.

Definition list_handler (e : Entity) (req : Request) : Store -> result * Store :=
  match e with
  | contacts => getContacts req
  | accounts => getAccounts req
  | activities => getActivities req
  | deals => getDeals req
  | leads => getLeads req
  end.

(** The column a list handler orders by, descending. *)
Definition order_key (e : Entity) : string :=
  match e with
  | activities => "dateTime"
  | _ => "createdAt"
  end.

(** The filter of a list handler: only contacts and accounts look at the
    [search] parameter. *)
Definition matching (e : Entity) (req : Request) : Obj -> bool :=
  match e with
  | contacts =>
      where_of (query req !! "search") ["firstName"; "lastName"; "emailAddress"]
  | accounts => where_of (query req !! "search") ["accountName"; "industry"]
  | _ => fun _ => true
  end.

(** The display form of a row, as the read handlers of the entity send
    it. *)
Definition show_of (e : Entity) : Obj -> outcome Obj :=
  match e with
  | contacts => show_contact
  | accounts => show_account
  | activities => show_activity
  | deals => show_deal
  | leads => show_lead
  end.

(** The enum fields of these entities. *)
Inductive EnumField : Type :=
  | contact_source | contact_status
  | account_accountRating | account_status | account_geo
  | activity_activityType | activity_outcomeDisposition
  | deal_businessLine | deal_geo | deal_entity | deal_stage
  | lead_leadSource | lead_status | lead_rating.

Definition field_entity (f : EnumField) : Entity :=
  match f with
  | contact_source | contact_status => contacts
  | account_accountRating | account_status | account_geo => accounts
  | activity_activityType | activity_outcomeDisposition => activities
  | deal_businessLine | deal_geo | deal_entity | deal_stage => deals
  | lead_leadSource | lead_status | lead_rating => leads
  end.

Definition field_key (f : EnumField) : string :=
  match f with
  | contact_source => "source"
  | contact_status | account_status | lead_status => "status"
  | account_accountRating => "accountRating"
  | account_geo | deal_geo => "geo"
  | activity_activityType => "activityType"
  | activity_outcomeDisposition => "outcomeDisposition"
  | deal_businessLine => "businessLine"
  | deal_entity => "entity"
  | deal_stage => "stage"
  | lead_leadSource => "leadSource"
  | lead_rating => "rating"
  end.

(** The transform that the create handler applies to the field. *)
Definition create_toStorage (f : EnumField) : string -> string :=
  match f with
  | account_status | account_geo | activity_activityType => toStorage_first
  | _ => toStorage
  end.

(** The transform that the read handlers apply to the field. *)
Definition read_toDisplay (f : EnumField) : string -> string :=
  match f with
  | account_status | account_geo | activity_activityType
  | deal_geo | deal_entity | lead_status | lead_rating => toDisplay_first
  | _ => toDisplay
  end.

(** ** Predicates of the stated properties *)

(** A character of a word in canonical or display form: no white space,
    no underscore, and not a lower-case letter. *)
Definition plain (c : ascii) : bool :=
  negb (is_space c) && negb (Ascii.eqb c "_") && Ascii.eqb (upper_char c) c.

(** Words of plain characters, separated by [sep], with at most [n]
    separators. *)
Fixpoint words_ok (sep : ascii) (n : nat) (s : string) : bool :=
  match s with
  | EmptyString => true
  | String c r =>
      if Ascii.eqb c sep
      then match n with S n' => words_ok sep n' r | O => false end
      else plain c && words_ok sep n r
  end.

(** Display form that is all upper case, with at most a single space. *)
Definition well_formed_display (d : string) : bool :=
  negb (String.eqb d "") && words_ok " " 1 d.

(** Canonical form that is all upper case, with at most a single
    underscore. *)
Definition canonical (x : string) : bool :=
  negb (String.eqb x "") && words_ok "_" 1 x.

(** A value on which [v ? v.f() : undefined] does not throw: a string,
    or a falsy value. *)
Definition str_or_falsy (v : value) : bool :=
  match v with
  | VStr _ => true
  | _ => negb (truthy v)
  end.

(** [set] never stores [undefined]: an object built by [set] from the
    empty object reads [undefined] exactly at its absent keys. *)
Definition tidy (o : Obj) : Prop := forall k, o !! k ≠ Some VUndef.

Definition returns {A} (o : outcome A) : bool :=
  match o with Ret _ => true | Throw _ => false end.

(** Every row of the entity in the store has a display form: its enum
    columns hold strings, or nothing where the handler allows for it. *)
Definition showable (e : Entity) (st : Store) : bool :=
  forallb (fun row => returns (show_of e row)) (st (model_of e)).

(** The text that [createDeal] hands to the [Date] parser for the
    closing-date string [s]. *)
Definition closing_date_text (s : string) : string :=
  if includes "T" s then s else s ++ "T12:00:00.000Z".

(** The first space-separated token of [s]: what stands before the first
    space. *)
Fixpoint first_token (s : string) : string :=
  match s with
  | EmptyString => EmptyString
  | String c r => if Ascii.eqb c " " then EmptyString
                  else String c (first_token r)
  end.

(** The remaining tokens of [s], joined by spaces again: what stands after
    the first space. *)
Fixpoint rest_tokens (s : string) : string :=
  match s with
  | EmptyString => EmptyString
  | String c r => if Ascii.eqb c " " then r else rest_tokens r
  end.

(** The combined name of a body: its [name] when that is a string. *)
Definition name_text (data : Obj) : string :=
  match get data "name" with
  | VStr s => s
  | _ => EmptyString
  end.

(** The counts of all rows, as a report shows them. *)
Definition metrics_of (st : Store) : value :=
  VObj (FCons "totalContacts" (VNum (Z.of_nat (length (st contact))))
       (FCons "totalAccounts" (VNum (Z.of_nat (length (st account))))
       (FCons "totalDeals" (VNum (Z.of_nat (length (st activeDeal))))
       (FCons "totalActivities" (VNum (Z.of_nat (length (st activityLog))))
       (FCons "totalLeads" (VNum (Z.of_nat (length (st lead)))) FNil))))).

(** ** Observing a run *)

(** The store after a handler has run. *)
Definition after (run : Store -> result * Store) (st : Store) : Store :=
  snd (run st).

(** The values of some properties of an object. *)
Definition fields_of (ks : list string) (o : Obj) : list value :=
  List.map (get o) ks.

(** The rows of a model in the store, by these properties. *)
Definition stored (m : Model) (ks : list string) (st : Store)
    : list (list value) :=
  List.map (fields_of ks) (st m).

(** The status of what a handler sent, and these properties of its data. *)
Definition sent (ks : list string) (res : result)
    : option (Z * list (list value)) :=
  match res with
  | Responded r =>
      Some (status r,
            match data r with
            | NoData => []
            | One o => [fields_of ks o]
            | Many l => List.map (fields_of ks) l
            end)
  | Crashed _ => None
  end.

(** ** A platform, stores and requests for the examples *)

(** Exactly [n] decimal digits. *)
Fixpoint read_digits (n : nat) (acc : Z) (s : string) : option (Z * string) :=
  match n with
  | O => Some (acc, s)
  | S n' =>
      match s with
      | String c r =>
          match digit_val 10 c with
          | Some d => read_digits n' (acc * 10 + d) r
          | None => None
          end
      | EmptyString => None
      end
  end.

Definition expect (c : ascii) (s : string) : option string :=
  match s with
  | String d r => if Ascii.eqb c d then Some r else None
  | EmptyString => None
  end.

(** Days from 1970-01-01 to the given day of the proleptic Gregorian
    calendar. *)
Definition days_from_civil (y m d : Z) : Z :=
  let y := if m <=? 2 then y - 1 else y in
  let era := y / 400 in
  let yoe := y - era * 400 in
  let doy := (153 * (if 2 <? m then m - 3 else m + 9) + 2) / 5 + d - 1 in
  let doe := yoe * 365 + yoe / 4 - yoe / 100 + doy in
  era * 146097 + doe - 719468.

(** A parser of the one format [YYYY-MM-DDTHH:mm:ss.sssZ], standing for
    the engine's [Date] parser in the examples. *)
Definition iso_date_parse (s : string) : option Z :=
  '(y, s) ← read_digits 4 0 s;
  s ← expect "-" s;
  '(mo, s) ← read_digits 2 0 s;
  s ← expect "-" s;
  '(d, s) ← read_digits 2 0 s;
  s ← expect "T" s;
  '(h, s) ← read_digits 2 0 s;
  s ← expect ":" s;
  '(mi, s) ← read_digits 2 0 s;
  s ← expect ":" s;
  '(sec, s) ← read_digits 2 0 s;
  s ← expect "." s;
  '(ms, s) ← read_digits 3 0 s;
  s ← expect "Z" s;
  if String.eqb s ""
     && (1 <=? mo) && (mo <=? 12) && (1 <=? d) && (d <=? 31)
     && (h <? 24) && (mi <? 60) && (sec <? 60)
  then Some ((((days_from_civil y mo d * 24 + h) * 60 + mi) * 60 + sec) * 1000 + ms)
  else None.

Definition example_platform : Platform :=
  {| date_parse := iso_date_parse;
     accepts := fun _ _ => true;
     defaults := fun _ => ∅ |}.

Definition empty_store : Store := fun _ => [].

Definition example_env : Env := {| now := 1700000000000; fresh_id := "c1" |}.

(** A request with the given route parameter, query and body. *)
Definition request (id : string) (q : list (string * string))
    (b : list (string * value)) : Request :=
  {| params_id := id; query := list_to_map q; body := list_to_map b |}.

(** The body of a request to create Jane Doe with the given status. *)
Definition jane (status_ : string) : Request :=
  request "" [] [("name", VStr "Jane Doe"); ("status", VStr status_)].

(** A request to create a deal with the given closing date. *)
Definition deal_request (closing : string) : Request :=
  request "" [] [("dealName", VStr "Renewal"); ("closingDate", VStr closing);
                 ("stage", VStr "Proposal Submitted")].

(** Two logged activities: the one logged first is dated later. *)
Definition activity_row (id : string) (created dated : Z) : Obj :=
  list_to_map [("id", VStr id); ("activityType", VStr "CALL");
               ("createdAt", VDate (Some created));
               ("dateTime", VDate (Some dated))].

Definition activity_store : Store :=
  upd activityLog [activity_row "a1" 1 20; activity_row "a2" 2 10] empty_store.

(** The second page of a list, one row a page. *)
Definition second_page : Request :=
  request "" [("page", "2"); ("limit", "1")] [].

(** A request to create an account that is not to be called. *)
Definition acme : Request :=
  request "" [] [("accountName", VStr "Acme"); ("industry", VStr "Technology");
                 ("status", VStr "Do Not Call"); ("geo", VStr "North  America")].

(** A request to log a follow-up call. *)
Definition follow_up : Request :=
  request "" [] [("activityType", VStr "Follow Up Call")].

(** Requests to create a lead and to set its status again. *)
Definition new_lead : Request :=
  request "" [] [("name", VStr "Ann Lee"); ("status", VStr "Do Not Call");
                 ("rating", VStr "Very Hot Lead")].

Definition same_lead_again : Request :=
  request "c1" [] [("status", VStr "Do Not Call");
                   ("rating", VStr "Very Hot Lead")].

(** A list request whose page is not a number and whose limit is absent. *)
Definition bad_page : Request := request "" [("page", "abc")] [].

(** ** The other handlers and helpers of the source *)

(** [mapEnumValue(value, enumMapping)]: the first key of the mapping whose
    value is [value], or [value] itself.  The mapping is given by its
    entries in the order of [Object.keys]; the keys of an object are
    distinct. *)
Definition strict_eq_str (s : string) (v : value) : bool :=
  match v with
  | VStr s' => String.eqb s s'
  | _ => false
  end.

Definition mapEnumValue (v : value) (enumMapping : list (string * string))
    : value :=
  if negb (truthy v) then VUndef
  else
    js_or (match List.find (fun kv => strict_eq_str (snd kv) v) enumMapping with
           | Some kv => VStr (fst kv)
           | None => VUndef
           end) v.

(** [enumMapping[key]] *)
Fixpoint mapping_get (enumMapping : list (string * string)) (key : string)
    : value :=
  match enumMapping with
  | [] => VUndef
  | kv :: rest =>
      if String.eqb (fst kv) key then VStr (snd kv) else mapping_get rest key
  end.

(** [fs.k] for the properties of a nested object. *)
Fixpoint field_get (fs : fields) (k : string) : value :=
  match fs with
  | FNil => VUndef
  | FCons k' v rest => if String.eqb k' k then v else field_get rest k
  end.

(** [v?.k]: a primitive has no such property. *)
Definition opt_member (v : value) (k : string) : value :=
  match v with
  | VObj fs => field_get fs k
  | _ => VUndef
  end.

(** The [data] that both profile updates pass to the store. *)
Definition profileData (data : Obj) : outcome Obj :=
  role ← when_truthy toStorage (get data "role");
  mret
    (set "pushNotifications"
       (opt_member (get data "notifications") "pushNotifications")
    (set "smsNotifications"
       (opt_member (get data "notifications") "smsNotifications")
    (set "emailNotifications"
       (opt_member (get data "notifications") "emailNotifications")
    (set "role" role data)))).

Definition updateUserProfile (P : Platform) (env : Env) (req : Request)
    : Store -> result * Store :=
  handler (catch
    (let userId := params_id req in
     data ← lift (profileData (body req));
     u ← update P env userProfile userId data;
     shown ← lift (show_profile u);
     mret (json_done 200 shown "Profile updated successfully"))
    (fun _ => mret (failed "Failed to update user profile"))).

(** [where: { id: userProfile.id }]: the id of a row is a string. *)
Definition row_id (u : Obj) : outcome string :=
  match get u "id" with
  | VStr i => Ret i
  | _ => Throw (PrismaError "Invalid invocation")
  end.

Definition updateCurrentUserProfile (P : Platform) (env : Env) (req : Request)
    : Store -> result * Store :=
  handler (catch
    (found ← findFirst userProfile;
     match found with
     | None => mret (not_found "User profile not found")
     | Some userProfile_ =>
         i ← lift (row_id userProfile_);
         data ← lift (profileData (body req));
         u ← update P env userProfile i data;
         shown ← lift (show_profile u);
         mret (json_done 200 shown "Profile updated successfully")
     end)
    (fun _ => mret (failed "Failed to update user profile"))).

Definition downloadReport (req : Request) : Store -> result * Store :=
  handler (catch
    (mret (json_message "Report download feature coming soon"))
    (fun _ => mret (failed "Failed to download report"))).

Definition update_handler (e : Entity) (P : Platform) (env : Env)
    (req : Request) : Store -> result * Store :=
  match e with
  | contacts => updateContact P env req
  | accounts => updateAccount P env req
  | activities => updateActivity P env req
  | deals => updateDeal P env req
  | leads => updateLead P env req
  end.

(** The [data] that the update handler of the entity passes to the store:
    the body, with the enum fields in storage form and the stamp. *)
Definition update_data (e : Entity) (data : Obj) : outcome Obj :=
  match e with
  | contacts =>
      source ← when_truthy toStorage (get data "source");
      status_ ← when_truthy toStorage (get data "status");
      mret (set "updatedBy" (VStr "system")
           (set "status" status_
           (set "source" source data)))
  | accounts =>
      accountRating ← when_truthy toStorage (get data "accountRating");
      status_ ← when_truthy toStorage_first (get data "status");
      geo ← when_truthy toStorage_first (get data "geo");
      mret (set "updatedBy" (VStr "system")
           (set "geo" geo
           (set "status" status_
           (set "accountRating" accountRating data))))
  | activities =>
      activityType ← when_truthy toStorage_first (get data "activityType");
      outcomeDisposition ←
        when_truthy toStorage (get data "outcomeDisposition");
      mret (set "updatedBy" (VStr "system")
           (set "outcomeDisposition" outcomeDisposition
           (set "activityType" activityType data)))
  | deals =>
      businessLine ← when_truthy toStorage (get data "businessLine");
      geo ← when_truthy toStorage_first (get data "geo");
      entity ← when_truthy toStorage (get data "entity");
      stage ← when_truthy toStorage (get data "stage");
      mret (set "updatedBy" (VStr "system")
           (set "stage" stage
           (set "entity" entity
           (set "geo" geo
           (set "businessLine" businessLine data)))))
  | leads =>
      leadSource ← when_truthy toStorage (get data "leadSource");
      status_ ← when_truthy toStorage_first (get data "status");
      rating ← when_truthy toStorage_first (get data "rating");
      mret (set "updatedBy" (VStr "system")
           (set "rating" rating
           (set "status" status_
           (set "leadSource" leadSource data))))
  end.

(** The enum fields of the entity, which its write handlers transform. *)
Definition enum_keys (e : Entity) : list string :=
  match e with
  | contacts => ["source"; "status"]
  | accounts => ["accountRating"; "status"; "geo"]
  | activities => ["activityType"; "outcomeDisposition"]
  | deals => ["businessLine"; "geo"; "entity"; "stage"]
  | leads => ["leadSource"; "status"; "rating"]
  end.

(** The generic failure of the update handler of the entity. *)
Definition update_failure (e : Entity) : Response :=
  match e with
  | contacts => failed "Failed to update contact"
  | accounts => failed "Failed to update account"
  | activities => failed "Failed to update activity"
  | deals => failed "Failed to update deal"
  | leads => failed "Failed to update lead"
  end.

(** The message of the update handler of the entity on success. *)
Definition update_message (e : Entity) : string :=
  match e with
  | contacts => "Contact updated successfully"
  | accounts => "Account updated successfully"
  | activities => "Activity updated successfully"
  | deals => "Deal updated successfully"
  | leads => "Lead updated successfully"
  end.

(** The generic failure of the list handler of the entity. *)
Definition list_failure (e : Entity) : Response :=
  match e with
  | contacts => failed "Failed to fetch contacts"
  | accounts => failed "Failed to fetch accounts"
  | activities => failed "Failed to fetch activities"
  | deals => failed "Failed to fetch deals"
  | leads => failed "Failed to fetch leads"
  end.

(** Some character of the string satisfies [p]. *)
Fixpoint any_char (p : ascii -> bool) (s : string) : bool :=
  match s with
  | EmptyString => false
  | String c r => p c || any_char p r
  end.

(** A lower-case letter a-z. *)
Definition is_lower (c : ascii) : bool :=
  let n := nat_of_ascii c in ((97 <=? n) && (n <=? 122))%nat.

(** The row that an update writes in place of [old]. *)
Definition updated_row (env : Env) (data old : Obj) : Obj :=
  data ∪ <["updatedAt" := VDate (Some (now env))]> old.

(** The table after the rows with the id were replaced by [row]. *)
Definition replaced (i : string) (row : Obj) (rows : list Obj) : list Obj :=
  List.map (fun r => if has_id i r then row else r) rows.

(** The transform that the update handler applies to the field. *)
Definition update_toStorage (f : EnumField) : string -> string :=
  match f with
  | account_status | account_geo | activity_activityType
  | deal_geo | lead_status | lead_rating => toStorage_first
  | _ => toStorage
  end.

(** The rest of the Accounts view. *)
Module View.

Definition getTypeColor (status_ : string) : string :=
  let s := toLowerCase status_ in
  if String.eqb s "suspect"
  then "bg-yellow-100 text-yellow-800 dark:bg-yellow-900/30 dark:text-yellow-400"
  else if String.eqb s "prospect"
  then "bg-blue-100 text-blue-800 dark:bg-blue-900/30 dark:text-blue-400"
  else if String.eqb s "active_deal"
  then "bg-green-100 text-green-800 dark:bg-green-900/30 dark:text-green-400"
  else if String.eqb s "do_not_call"
  then "bg-red-100 text-red-800 dark:bg-red-900/30 dark:text-red-400"
  else "bg-gray-100 text-gray-800 dark:bg-gray-900/30 dark:text-gray-400".

Definition getRatingColor (rating : string) : string :=
  let s := toLowerCase rating in
  if String.eqb s "platinum"
  then "bg-purple-100 text-purple-800 dark:bg-purple-900/30 dark:text-purple-400"
  else if String.eqb s "gold"
  then "bg-yellow-100 text-yellow-800 dark:bg-yellow-900/30 dark:text-yellow-400"
  else if String.eqb s "silver"
  then "bg-gray-100 text-gray-800 dark:bg-gray-900/30 dark:text-gray-400"
  else if String.eqb s "bronze"
  then "bg-orange-100 text-orange-800 dark:bg-orange-900/30 dark:text-orange-400"
  else "bg-gray-100 text-gray-800 dark:bg-gray-900/30 dark:text-gray-400".

(** [filterType === "all" ||
     (account.status && account.status.toLowerCase() === filterType)],
    as [filter] takes it: its truth value. *)
Definition matchesFilter (filterType : string) (account_ : Obj) : outcome bool :=
  if String.eqb filterType "all" then Ret true
  else if truthy (get account_ "status") then
    match get account_ "status" with
    | VStr s => Ret (String.eqb (toLowerCase s) filterType)
    | _ => Throw (TypeError "account.status.toLowerCase is not a function")
    end
  else Ret false.

(** [accounts.filter(callback)] *)
Fixpoint filterM (p : Obj -> outcome bool) (l : list Obj) : outcome (list Obj) :=
  match l with
  | [] => Ret []
  | a :: rest =>
      keep ← p a;
      kept ← filterM p rest;
      Ret (if (keep : bool) then a :: kept else kept)
  end.

Definition filteredAccounts (filterType : string) (accounts_ : list Obj)
    : outcome (list Obj) :=
  filterM (matchesFilter filterType) accounts_.

(** The class of the status badge of a row:
    [getTypeColor(account.status || "PROSPECT")]. *)
Definition typeBadge (account_ : Obj) : outcome string :=
  match js_or (get account_ "status") (VStr "PROSPECT") with
  | VStr s => Ret (getTypeColor s)
  | _ => Throw (TypeError "status.toLowerCase is not a function")
  end.

Definition handleEditAccount (account_ : Obj) (s : UI.State) : UI.State :=
  {| UI.showNewAccountDialog := true;
     UI.editingAccount := Some account_;
     UI.formData := account_ |}.

Definition resetForm (s : UI.State) : UI.State := UI.closed.

End View.

(** The [data] that the create handler of the entity passes to the
    store. *)
Definition create_data (e : Entity) (P : Platform) (data : Obj) : outcome Obj :=
  match e with
  | contacts => contactData data
  | accounts => accountData data
  | activities => activityData data
  | deals => dealData P data
  | leads => leadData data
  end.

(** The store with the lead of [new_lead]. *)
Definition lead_store : Store :=
  after (createLead example_platform example_env new_lead) empty_store.

(** The columns that [createContact], [createDeal] and [createLead] write:
    their data are built from these keys alone. *)
Definition contact_columns : list string :=
  ["firstName"; "lastName"; "title"; "associatedAccount"; "emailAddress";
   "deskPhone"; "mobilePhone"; "city"; "state"; "country"; "timeZone";
   "source"; "owner"; "status"; "createdBy"; "updatedBy"].

Definition deal_columns : list string :=
  ["dealOwner"; "dealName"; "businessLine"; "associatedAccount";
   "associatedContact"; "closingDate"; "probability"; "dealValue";
   "approvedBy"; "description"; "nextStep"; "geo"; "entity"; "stage";
   "createdBy"; "updatedBy"].

Definition lead_columns : list string :=
  ["firstName"; "lastName"; "company"; "title"; "phone"; "email";
   "leadSource"; "status"; "rating"; "owner"; "createdBy"; "updatedBy"].

(** No two rows of a table have the same id. *)
Fixpoint ids_distinct (rows : list Obj) : bool :=
  match rows with
  | [] => true
  | r :: rest => negb (id_taken r rest) && ids_distinct rest
  end.

(** ** Bodies without nested objects

    The client turns an object under a relation field of the data into
    writes to other tables, as the schema says; the store above writes the
    data as the columns of one row, which is what the client does with
    data whose properties are no objects.  The handlers take the
    properties of the data from the body, so a body without nested
    objects gives such data. *)

(** The value is no object. *)
Definition is_scalar (v : value) : bool :=
  match v with VObj _ => false | _ => true end.

(** No property of the object is an object. *)
Definition scalar_body (o : Obj) : bool :=
  forallb (fun kv => is_scalar (snd kv)) (map_to_list o).

(** A string, [undefined] or [null]: what [v?.replace(...)] accepts. *)
Definition str_or_nullish (v : value) : bool :=
  match v with
  | VStr _ | VUndef | VNull => true
  | _ => false
  end.

(** The columns of a create handler that picks them from the body;
    [createAccount] and [createActivity] spread the body instead. *)
Definition listed_columns (e : Entity) : option (list string) :=
  match e with
  | contacts => Some contact_columns
  | deals => Some deal_columns
  | leads => Some lead_columns
  | accounts | activities => None
  end.

(** The characters that the database gives a meaning of their own in the
    pattern of a [contains] filter: [_], [%] and the backslash. *)
Definition is_wildcard (c : ascii) : bool :=
  Ascii.eqb c "_" || Ascii.eqb c "%" || Ascii.eqb c "\".

(** A store with one profile whose e-mail notifications are on, and a
    request to update it that names the flag at top level. *)
Definition profile_store : Store :=
  upd userProfile
    [list_to_map [("id", VStr "u1"); ("role", VStr "SALES_MANAGER");
                  ("emailNotifications", VBool true)]] empty_store.

Definition flag_at_top_level : Request :=
  request "u1" [] [("emailNotifications", VBool false);
                   ("role", VStr "Sales Rep")].

(** * Properties *)

(** ** Objects *)

Lemma get_set (k k' : string) (v : value) (o : Obj) :
  get (set k v o) k' = if decide (k = k') then v else get o k'.
Proof.
  unfold get, set.
  destruct v; case_decide; subst;
    rewrite ?lookup_delete_eq, ?lookup_insert_eq,
            ?lookup_delete_ne, ?lookup_insert_ne by done; done.
Qed.

Lemma get_set_eq (k : string) (v : value) (o : Obj) : get (set k v o) k = v.
Proof. rewrite get_set. by case_decide. Qed.

Lemma get_set_ne (k k' : string) (v : value) (o : Obj) :
  k ≠ k' -> get (set k v o) k' = get o k'.
Proof. intros. rewrite get_set. by case_decide. Qed.

Lemma get_union_l (k : string) (v : value) (o1 o2 : Obj) :
  get o1 k = v -> v ≠ VUndef -> get (o1 ∪ o2) k = v.
Proof.
  unfold get. intros H Hv. destruct (o1 !! k) as [w|] eqn:E; simpl in H.
  - by rewrite (lookup_union_Some_l _ _ _ _ E).
  - congruence.
Qed.

(** ** Strings *)

Lemma plain_inv c :
  plain c = true ->
  is_space c = false /\ Ascii.eqb c "_" = false /\ upper_char c = c.
Proof.
  unfold plain. rewrite !andb_true_iff, !negb_true_iff, Ascii.eqb_eq. tauto.
Qed.

Lemma plain_not_space c : plain c = true -> Ascii.eqb c " " = false.
Proof.
  intros H. destruct (Ascii.eqb_spec c " ") as [->|]; [|done].
  by vm_compute in H.
Qed.

(** A word without separator is left alone by every transform. *)
Lemma word_fixed sep s :
  words_ok sep 0 s = true -> (sep = " " \/ sep = "_")%char ->
  forall b, replace_ws_go b s = s /\ replace_first " " "_" s = s
    /\ toUpperCase s = s /\ replace_all "_" " " s = s
    /\ replace_first "_" " " s = s.
Proof.
  intros H Hsep. induction s as [|c r IH]; intros b; [done|].
  simpl in H. destruct (Ascii.eqb c sep) eqn:Ec; [done|].
  apply andb_true_iff in H as [Hc Hr].
  destruct (plain_inv _ Hc) as (Hs & Hu & Hup).
  pose proof (plain_not_space _ Hc) as Hsp.
  specialize (IH Hr). destruct (IH false) as (I1 & I2 & I3 & I4 & I5).
  unfold toUpperCase in *. simpl. rewrite Hs, Hsp, Hu, Hup.
  by rewrite I1, I2, I3, I4, I5.
Qed.
(** Display form with at most one space survives storage and display. *)
Lemma display_roundtrip d :
  words_ok " " 1 d = true ->
  toDisplay (toStorage d) = d /\ toDisplay_first (toStorage d) = d
  /\ toDisplay (toStorage_first d) = d
  /\ toDisplay_first (toStorage_first d) = d.
Proof.
  unfold toDisplay, toDisplay_first, toStorage, toStorage_first,
    replace_ws_runs, toUpperCase.
  induction d as [|c r IH]; [done|]. simpl.
  destruct (Ascii.eqb_spec c " ") as [->|Hc].
  - intros Hr. simpl.
    destruct (word_fixed " " r Hr (or_introl eq_refl) true)
      as (I1 & I2 & I3 & I4 & I5).
    unfold toUpperCase in I3. by rewrite I1, I3, I4.
  - intros H. apply andb_true_iff in H as [Hp Hr].
    destruct (plain_inv _ Hp) as (Hs & Hu & Hup).
    destruct (IH Hr) as (J1 & J2 & J3 & J4).
    rewrite Hs. simpl.
    rewrite Hup, Hu. by rewrite J1, J2, J3, J4.
Qed.

(** Canonical form with at most one underscore survives display and
    storage. *)
Lemma canonical_roundtrip x :
  words_ok "_" 1 x = true ->
  toStorage (toDisplay x) = x /\ toStorage (toDisplay_first x) = x
  /\ toStorage_first (toDisplay x) = x
  /\ toStorage_first (toDisplay_first x) = x.
Proof.
  unfold toDisplay, toDisplay_first, toStorage, toStorage_first,
    replace_ws_runs, toUpperCase.
  induction x as [|c r IH]; [done|]. simpl.
  destruct (Ascii.eqb_spec c "_") as [->|Hc].
  - intros Hr. simpl.
    destruct (word_fixed "_" r Hr (or_intror eq_refl) true)
      as (I1 & I2 & I3 & I4 & I5).
    unfold toUpperCase in I3. by rewrite ?I4, ?I1, ?I2, ?I3.
  - intros H. apply andb_true_iff in H as [Hp Hr].
    destruct (plain_inv _ Hp) as (Hs & Hu & Hup).
    pose proof (plain_not_space _ Hp) as Hsp.
    destruct (IH Hr) as (J1 & J2 & J3 & J4).
    simpl. rewrite Hs, Hsp. simpl. rewrite Hup. by rewrite J1, J2, J3, J4.
Qed.

(** ** Handlers: running and inverting them *)

Lemma handler_catch_inv (body : M Response) (R : error -> Response) st r st' :
  handler (catch body (fun e => mret (R e))) st = (Responded r, st') ->
  body st = (Ret r, st') \/ exists e, body st = (Throw e, st') /\ r = R e.
Proof.
  unfold handler, catch. destruct (body st) as [[a|e] s]; cbn.
  - intros [= <- <-]. by left.
  - intros [= <- <-]. right. by exists e.
Qed.

Lemma handler_catch_ret (body : M Response) h st r st' :
  body st = (Ret r, st') -> handler (catch body h) st = (Responded r, st').
Proof. unfold handler, catch. by intros ->. Qed.

Lemma handler_catch_throw (body : M Response) (R : error -> Response) st e st' :
  body st = (Throw e, st') ->
  handler (catch body (fun e => mret (R e))) st = (Responded (R e), st').
Proof. unfold handler, catch. by intros ->. Qed.

(** A handler that catches everything sends a response. *)
Lemma handler_catch_responds (body : M Response) (R : error -> Response) st :
  exists r, fst (handler (catch body (fun e => mret (R e))) st) = Responded r
    /\ (fst (body st) = Ret r \/ exists e, r = R e).
Proof.
  unfold handler, catch. destruct (body st) as [[a|e] s]; cbn; eauto.
Qed.

Lemma when_truthy_str f s :
  s ≠ "" -> when_truthy f (VStr s) = Ret (VStr (f s)).
Proof.
  intros H. unfold when_truthy. simpl.
  by destruct (String.eqb_spec s "").
Qed.

Lemma nonempty_String_eqb s : negb (String.eqb s "") = true -> s ≠ "".
Proof. destruct (String.eqb_spec s ""); [done|auto]. Qed.

(** What a create handler has done when it answers 201. *)
Lemma created_inv P env m prep (show : Obj -> outcome Obj) msg
    (R : error -> Response) st r st' :
  handler (catch
    (data ← lift prep;
     c ← create P env m data;
     shown ← lift (show c);
     mret (json_done 201 shown msg))
    (fun e => mret (R e))) st = (Responded r, st') ->
  status r = 201 -> (forall e, status (R e) = 500) ->
  exists data shown,
    prep = Ret data /\ accepts P m data = true
    /\ id_taken (new_row P env m data) (st m) = false
    /\ st' = upd m (st m ++ [new_row P env m data])%list st
    /\ show (new_row P env m data) = Ret shown
    /\ r = json_done 201 shown msg.
Proof.
  intros H Hst HR. apply handler_catch_inv in H as [H|(e & _ & ->)].
  2: { rewrite HR in Hst. done. }
  unfold mbind, M_bind, mret, M_ret, lift, create in H.
  destruct prep as [data|]; [|done].
  destruct (accepts P m data) eqn:Ha; cbn in H; [|done].
  destruct (id_taken _ _) eqn:Hid; cbn in H; [done|].
  destruct (show _) as [shown|] eqn:Hs; cbn in H; [|done].
  injection H as <- <-. by exists data, shown.
Qed.

Lemma find_app_last i (rows : list Obj) (c : Obj) :
  existsb (has_id i) rows = false -> has_id i c = true ->
  List.find (has_id i) (rows ++ [c])%list = Some c.
Proof.
  induction rows as [|r rows IH]; simpl; intros H Hc.
  - by rewrite Hc.
  - apply orb_false_iff in H as [-> H]. auto.
Qed.

(** Reading a row by id right after it was appended. *)
Lemma fetched (m : Model) (show : Obj -> outcome Obj) msg h
    (rows : list Obj) (c : Obj) (i : string) (shown : Obj) (st : Store) :
  st m = (rows ++ [c])%list -> existsb (has_id i) rows = false ->
  has_id i c = true -> show c = Ret shown ->
  handler (catch
    (found ← findUnique m i;
     match found with
     | None => mret (not_found msg)
     | Some c =>
         shown ← lift (show c);
         mret (json_data (One shown))
     end) h) st = (Responded (json_data (One shown)), st).
Proof.
  intros Hm Hrows Hc Hs. apply handler_catch_ret.
  unfold mbind, M_bind, mret, M_ret, lift, findUnique.
  rewrite Hm, (find_app_last _ _ _ Hrows Hc). by rewrite Hs.
Qed.

Lemma upd_same m rows st : upd m rows st m = rows.
Proof. unfold upd. by case_decide. Qed.

Lemma js_or_str s v : s ≠ "" -> js_or (VStr s) v = VStr s.
Proof.
  intros H. unfold js_or. simpl. by destruct (String.eqb_spec s "").
Qed.

Lemma stored_nonempty d :
  d ≠ "" -> toStorage d ≠ "" /\ toStorage_first d ≠ "".
Proof.
  destruct d as [|c r]; [done|]. intros _.
  unfold toStorage, toStorage_first, replace_ws_runs, toUpperCase. simpl.
  destruct (is_space c), (Ascii.eqb c " "); simpl; by split.
Qed.

Lemma id_taken_false (row : Obj) rows i :
  get row "id" = VStr i -> id_taken row rows = false ->
  existsb (has_id i) rows = false.
Proof. unfold id_taken. by intros ->. Qed.

Lemma has_id_true (row : Obj) i : get row "id" = VStr i -> has_id i row = true.
Proof. unfold has_id. intros ->. apply String.eqb_refl. Qed.

Lemma Ret_inj {A} (a b : A) : Ret a = Ret b -> a = b.
Proof. by intros [= ->]. Qed.

(** Peel the binds of a computation that is known to return. *)
Ltac returned H :=
  unfold mbind, outcome_bind, mret, outcome_ret in H;
  repeat match type of H with
  | match ?o with Ret _ => _ | Throw _ => _ end = Ret _ =>
      let E := fresh "E" in destruct o eqn:E; [|discriminate H]
  end;
  try apply Ret_inj in H.

Ltac get_simpl :=
  repeat first [rewrite get_set_eq | rewrite get_set_ne by discriminate].


Ltac get_simpl_in H :=
  repeat first [rewrite get_set_eq in H
               | rewrite get_set_ne in H by discriminate].

(** ** Enum fields from create to read *)

(** What becomes of an enum field between a create that answers 201 and a
    read of the created record by its id: the field is stored in the form
    the create handler gives it, and both handlers send it in the form the
    read transform gives to the stored value. *)
Lemma created_field (f : EnumField) P env req st r row i d req' :
  d ≠ "" ->
  get (body req) (field_key f) = VStr d ->
  fst (create_handler (field_entity f) P env req st) = Responded r ->
  status r = 201 -> data r = One row -> get row "id" = VStr i ->
  params_id req' = i ->
  (exists c,
     after (create_handler (field_entity f) P env req) st
       (model_of (field_entity f))
       = (st (model_of (field_entity f)) ++ [c])%list
     /\ get c (field_key f) = VStr (create_toStorage f d))
  /\ get row (field_key f) = VStr (read_toDisplay f (create_toStorage f d))
  /\ fst (get_handler (field_entity f) req'
            (after (create_handler (field_entity f) P env req) st))
     = Responded (json_data (One row)).
Proof.
  intros Hne Hb Hc Hst Hdata Hid Hreq'. unfold after.
  destruct (create_handler (field_entity f) P env req st)
    as [res st'] eqn:Hrun.
  simpl in Hc |- *. subst res. rename Hrun into Hc.
  destruct (stored_nonempty d Hne) as [N1 N2].
  destruct f; simpl in Hb, Hc |- *;
    unfold createContact, createAccount, createActivity, createDeal,
      createLead in Hc;
    (apply created_inv in Hc
       as (dat & shown & Hprep & _ & Htaken & -> & Hshow & ->);
       [|done|done]);
    simpl in Hdata; injection Hdata as <-;
    unfold contactData, accountData, activityData, dealData, leadData
      in Hprep;
    rewrite Hb in Hprep;
    rewrite ?js_or_str, ?when_truthy_str in Hprep by done;
    cbn [call] in Hprep; returned Hprep;
    match goal with
    | |- context [get _ ?k = VStr (?t d)] =>
        match type of Hshow with
        | _ ?c = Ret _ =>
            assert (get c k = VStr (t d)) as Hk
              by (apply get_union_l; [subst dat; get_simpl; reflexivity|done])
        end
    end.
  all: pose proof Hshow as Hshown;
       unfold show_contact, show_account, show_activity, show_deal,
         show_lead in Hshow;
       rewrite Hk in Hshow;
       rewrite ?when_truthy_str in Hshow by done;
       cbn [call opt_call] in Hshow; returned Hshow;
       rewrite <- Hshow in Hid; get_simpl_in Hid;
       rewrite upd_same;
       (split; [eexists; split; [reflexivity|exact Hk]|]);
       (split; [rewrite <- Hshow; by get_simpl|]);
       unfold getContact, getAccount, getActivity, getDeal, getLead;
       rewrite Hreq';
       erewrite fetched;
         [reflexivity
         |apply upd_same
         |by eapply id_taken_false
         |by apply has_id_true
         |done].
Qed.

(** On well-formed display values and canonical strings the transforms of
    every field undo each other. *)
Lemma field_transforms_inverse (f : EnumField) :
  (forall d, words_ok " " 1 d = true ->
             read_toDisplay f (create_toStorage f d) = d)
  /\ (forall x, words_ok "_" 1 x = true ->
                create_toStorage f (read_toDisplay f x) = x).
Proof.
  split.
  - intros d Hd. destruct (display_roundtrip d Hd) as (R1 & R2 & R3 & R4).
    by destruct f.
  - intros x Hx. destruct (canonical_roundtrip x Hx) as (R1 & R2 & R3 & R4).
    by destruct f.
Qed.

(** C1 (as amended).  For every enum field of the five entities: a record
    created with the field in display form that is not empty, all upper
    case, without underscore and with at most one single space, and then
    read by its id, shows the field as it was submitted; and the storage
    transform undoes the display transform on canonical strings that are
    not empty, all upper case, free of white space and with at most one
    underscore. *)
Theorem enum_field_roundtrip (f : EnumField) :
  (forall P env req st r row i d req',
     well_formed_display d = true ->
     get (body req) (field_key f) = VStr d ->
     fst (create_handler (field_entity f) P env req st) = Responded r ->
     status r = 201 -> data r = One row -> get row "id" = VStr i ->
     params_id req' = i ->
     exists r' row',
       fst (get_handler (field_entity f) req'
              (after (create_handler (field_entity f) P env req) st))
         = Responded r'
       /\ status r' = 200 /\ data r' = One row'
       /\ get row' (field_key f) = VStr d)
  /\ (forall x, canonical x = true -> create_toStorage f (read_toDisplay f x) = x).
Proof.
  split.
  - intros P env req st r row i d req' Hwf Hb Hc Hst Hdata Hid Hreq'.
    apply andb_true_iff in Hwf as [Hne Hw]. apply nonempty_String_eqb in Hne.
    destruct (created_field f P env req st r row i d req'
                Hne Hb Hc Hst Hdata Hid Hreq') as (_ & Hrow & Hget).
    exists (json_data (One row)), row.
    rewrite Hrow, (proj1 (field_transforms_inverse f) d Hw). done.
  - intros x Hx. apply andb_true_iff in Hx as [_ Hx].
    by apply field_transforms_inverse.
Qed.

Lemma enum_field_roundtrip_witness :
  well_formed_display "ACTIVE DEAL" = true
  /\ (exists r' row',
        fst (get_handler (field_entity contact_status) (request "c1" [] [])
          (after (create_handler (field_entity contact_status)
                    example_platform example_env (jane "ACTIVE DEAL"))
                 empty_store)) = Responded r'
        /\ status r' = 200 /\ data r' = One row'
        /\ get row' (field_key contact_status) = VStr "ACTIVE DEAL")
  /\ toStorage (toDisplay "ACTIVE_DEAL") = "ACTIVE_DEAL".
Proof.
  split; [reflexivity|]. split.
  - eapply (proj1 (enum_field_roundtrip contact_status));
      [reflexivity | reflexivity | vm_compute; reflexivity | by vm_compute
      | vm_compute; reflexivity | by vm_compute | reflexivity].
  - exact (proj2 (enum_field_roundtrip contact_status) "ACTIVE_DEAL" eq_refl).
Defined.
(** A single-word display value in mixed case does not come back: the
    stored form is upper case and reading does not restore the case. *)
Lemma single_word_display_not_preserved :
  well_formed_display "Active" = false
  /\ sent ["id"; "status"]
       (fst (createContact example_platform example_env (jane "Active")
               empty_store))
     = Some (201, [[VStr "c1"; VStr "ACTIVE"]])
  /\ sent ["id"; "status"]
       (fst (getContact (request "c1" [] [])
               (after (createContact example_platform example_env
                         (jane "Active")) empty_store)))
     = Some (200, [[VStr "c1"; VStr "ACTIVE"]])
  /\ VStr "ACTIVE" ≠ VStr "Active".
Proof. by vm_compute. Qed.

(** ** Deleting *)

Lemma delete_missing (m : Model) id (st : Store) :
  List.find (has_id id) (st m) = None ->
  exists e, delete_ m id st = (Throw e, st).
Proof. unfold delete_. intros ->. eauto. Qed.

(** C2 (as amended).  For every id that identifies no record, each delete
    handler answers with status 500 and [success: false], with its generic
    failure message, and leaves the store as it was; and whatever the id,
    a delete handler never answers 404. *)
Theorem delete_missing_is_generic_failure (e : Entity) (req : Request) (st : Store) :
  (List.find (has_id (params_id req)) (st (model_of e)) = None ->
   exists r, delete_handler e req st = (Responded r, st)
     /\ status r = 500 /\ success r = false /\ is_Some (error_ r))
  /\ (forall r, fst (delete_handler e req st) = Responded r ->
        status r = 200 \/ status r = 500).
Proof.
  split.
  - intros Hnone.
    destruct (delete_missing _ _ _ Hnone) as [err Hdel].
    destruct e; simpl in *; eexists;
      (split; [eapply handler_catch_throw; unfold mbind, M_bind;
               by rewrite Hdel|]); simpl; eauto.
  - intros r.
    destruct e; simpl;
      unfold deleteContact, deleteAccount, deleteActivity, deleteDeal,
        deleteLead;
      match goal with
      | |- fst (handler (catch ?b (fun _ => mret ?R)) st) = _ -> _ =>
          destruct (handler_catch_responds b (fun _ => R) st)
            as (r0 & -> & [Hr|[_ ->]])
      end;
      intros [= <-]; auto;
      unfold mbind, M_bind, mret, M_ret in Hr;
      destruct (delete_ _ _ st) as [[o|err] s]; simpl in Hr;
      try discriminate; injection Hr as <-; auto.
Qed.

Lemma delete_missing_is_generic_failure_witness :
  exists r, delete_handler contacts (request "nope" [] []) empty_store
              = (Responded r, empty_store)
    /\ status r = 500 /\ success r = false /\ is_Some (error_ r).
Proof.
  exact (proj1 (delete_missing_is_generic_failure contacts
                  (request "nope" [] []) empty_store) eq_refl).
Defined.

(** Deleting an id that is not in the store is answered with 500, not
    with 404. *)
Lemma delete_missing_not_404 :
  List.find (has_id "nope") (empty_store contact) = None
  /\ exists r, fst (deleteContact (request "nope" [] []) empty_store)
               = Responded r
       /\ status r = 500 /\ status r ≠ 404 /\ success r = false.
Proof.
  split; [reflexivity|]. eexists. split; [reflexivity|]. by vm_compute.
Qed.

(** ** Closing dates of deals *)

Lemma when_truthy_returns f v :
  str_or_falsy v = true -> exists w, when_truthy f v = Ret w.
Proof.
  unfold when_truthy, str_or_falsy.
  destruct (truthy v) eqn:Ht; [|eauto].
  destruct v; simpl; intros H; eauto; try discriminate.
Qed.

Lemma closing_date_of_string P (data : Obj) s :
  get data "closingDate" = VStr s -> s ≠ "" ->
  closing_date P data
  = match date_parse P (closing_date_text s) with
    | Some t => VDate (Some t)
    | None => VUndef
    end.
Proof.
  intros Hs Hne. unfold closing_date, closing_date_text. rewrite Hs. simpl.
  destruct (String.eqb_spec s ""); [done|]. simpl.
  destruct (includes "T" s); by destruct (date_parse P _).
Qed.

Lemma closing_date_empty P (data : Obj) :
  get data "closingDate" = VStr "" -> closing_date P data = VUndef.
Proof. unfold closing_date. by intros ->. Qed.

Lemma get_union_r (k : string) (o1 o2 : Obj) :
  get o1 k = VUndef -> o1 !! k = None -> get (o1 ∪ o2) k = get o2 k.
Proof.
  unfold get. intros _ H. by rewrite lookup_union_r.
Qed.

Lemma tidy_empty : tidy ∅.
Proof. intros k. by rewrite lookup_empty. Qed.

Lemma tidy_set k v o : tidy o -> tidy (set k v o).
Proof.
  intros H k'. unfold set.
  destruct v; destruct (decide (k = k')) as [->|];
    rewrite ?lookup_delete_eq, ?lookup_insert_eq,
      ?lookup_delete_ne, ?lookup_insert_ne by done; done || apply H.
Qed.

Create HintDb tidy.
#[local] Hint Resolve tidy_empty tidy_set : tidy.

Lemma tidy_get_undef (o : Obj) k : tidy o -> get o k = VUndef -> o !! k = None.
Proof.
  intros H. unfold get. destruct (o !! k) as [v|] eqn:E; [|done].
  simpl. intros ->. by destruct (H k).
Qed.


Lemma get_new_row P env m (data : Obj) k :
  tidy data -> k ≠ "id" -> k ≠ "createdAt" -> k ≠ "updatedAt" ->
  get (new_row P env m data) k
  = match get data k with VUndef => get (defaults P m) k | v => v end.
Proof.
  intros Ht H1 H2 H3. unfold new_row.
  destruct (get data k) eqn:E;
    try (apply get_union_l; [done|congruence]).
  rewrite get_union_r by auto using tidy_get_undef.
  unfold get. by rewrite !lookup_insert_ne.
Qed.

Lemma get_new_row_id P env m (data : Obj) :
  tidy data -> get data "id" = VUndef ->
  get (new_row P env m data) "id" = VStr (fresh_id env).
Proof.
  intros Ht E. unfold new_row.
  rewrite get_union_r by auto using tidy_get_undef.
  unfold get. by rewrite lookup_insert_eq.
Qed.

Lemma when_truthy_result f v w :
  when_truthy f v = Ret w -> str_or_falsy w = true.
Proof.
  unfold when_truthy. destruct (truthy v); [|by intros [= <-]].
  destruct v; simpl; intros [= <-]; done.
Qed.

Lemma str_or_falsy_new_row P env m (data : Obj) k :
  tidy data -> k ≠ "id" -> k ≠ "createdAt" -> k ≠ "updatedAt" ->
  str_or_falsy (get data k) = true ->
  str_or_falsy (get (defaults P m) k) = true ->
  str_or_falsy (get (new_row P env m data) k) = true.
Proof.
  intros. rewrite get_new_row by done. by destruct (get data k).
Qed.

(** C3.  A create-deal request whose closing-date string the handler
    cannot parse to a valid date is answered with 201 and the deal is
    stored without closing date; a string that parses, be it date-only
    (completed with a time) or a full timestamp, is stored as that date.
    The request is one the store accepts: the enum fields of the body are
    strings or missing, the schema accepts the data and declares no default
    for the closing date, and the generated id is unused. *)
Theorem createDeal_closing_date P env req st s :
  get (body req) "closingDate" = VStr s ->
  forallb (fun k => str_or_falsy (get (body req) k))
    ["businessLine"; "geo"; "entity"; "stage"] = true ->
  forallb (fun k => str_or_falsy (get (defaults P activeDeal) k))
    ["businessLine"; "geo"; "entity"; "stage"] = true ->
  get (defaults P activeDeal) "closingDate" = VUndef ->
  (forall data, dealData P (body req) = Ret data ->
                accepts P activeDeal data = true) ->
  existsb (has_id (fresh_id env)) (st activeDeal) = false ->
  exists r shown c,
    fst (createDeal P env req st) = Responded r
    /\ status r = 201 /\ success r = true /\ data r = One shown
    /\ after (createDeal P env req) st activeDeal = (st activeDeal ++ [c])%list
    /\ get shown "closingDate" = get c "closingDate"
    /\ (date_parse P (closing_date_text s) = None ->
        get c "closingDate" = VUndef)
    /\ (forall t, s ≠ "" -> date_parse P (closing_date_text s) = Some t ->
        get c "closingDate" = VDate (Some t)).
Proof.
  intros Hs Hbody Hdef Hnodef Hacc Hfresh.
  simpl in Hbody, Hdef.
  repeat (apply andb_true_iff in Hbody as [? Hbody]).
  repeat (apply andb_true_iff in Hdef as [? Hdef]).
  destruct (when_truthy_returns toStorage (get (body req) "businessLine"))
    as [w1 E1]; [done|].
  destruct (when_truthy_returns toStorage (get (body req) "geo"))
    as [w2 E2]; [done|].
  destruct (when_truthy_returns toStorage (get (body req) "entity"))
    as [w3 E3]; [done|].
  destruct (when_truthy_returns toStorage (get (body req) "stage"))
    as [w4 E4]; [done|].
  pose proof (when_truthy_result _ _ _ E1).
  pose proof (when_truthy_result _ _ _ E2).
  pose proof (when_truthy_result _ _ _ E3).
  pose proof (when_truthy_result _ _ _ E4).
  destruct (dealData P (body req)) as [dat|] eqn:Hprep.
  2: { unfold dealData in Hprep. rewrite E1, E2, E3, E4 in Hprep. done. }
  pose proof Hprep as Hdat. unfold dealData in Hdat.
  rewrite E1, E2, E3, E4 in Hdat.
  unfold mbind, outcome_bind, mret, outcome_ret in Hdat.
  apply Ret_inj in Hdat.
  assert (tidy dat) as Htidy by (subst dat; auto 20 with tidy).
  set (c := new_row P env activeDeal dat).
  assert (get c "id" = VStr (fresh_id env)) as Hid.
  { apply get_new_row_id; [done|]. subst dat. by get_simpl. }
  assert (exists shown, show_deal c = Ret shown) as [shown Hshow].
  { unfold show_deal.
    destruct (when_truthy_returns toDisplay (get c "businessLine")) as [v1 ->].
    { apply str_or_falsy_new_row; try done. subst dat. by get_simpl. }
    destruct (when_truthy_returns toDisplay_first (get c "geo")) as [v2 ->].
    { apply str_or_falsy_new_row; try done. subst dat. by get_simpl. }
    destruct (when_truthy_returns toDisplay_first (get c "entity")) as [v3 ->].
    { apply str_or_falsy_new_row; try done. subst dat. by get_simpl. }
    destruct (when_truthy_returns toDisplay (get c "stage")) as [v4 ->].
    { apply str_or_falsy_new_row; try done. subst dat. by get_simpl. }
    cbn. eauto. }
  assert (createDeal P env req st
          = (Responded (json_done 201 shown "Deal created successfully"),
             upd activeDeal (st activeDeal ++ [c]) st)) as Hrun.
  { unfold createDeal. apply handler_catch_ret.
    unfold mbind, M_bind, mret, M_ret, lift, create.
    rewrite Hprep, (Hacc dat eq_refl). simpl.
    fold c. unfold id_taken. rewrite Hid, Hfresh. by rewrite Hshow. }
  exists (json_done 201 shown "Deal created successfully"), shown, c.
  unfold after. rewrite Hrun. simpl. rewrite upd_same.
  do 5 (split; [done|]).
  assert (get dat "closingDate" = closing_date P (body req)) as Hcd.
  { subst dat. by get_simpl. }
  split; [|split].
  - unfold show_deal in Hshow. returned Hshow. subst shown. by get_simpl.
  - intros Hnone. unfold c. rewrite get_new_row by done. rewrite Hcd.
    destruct (String.eqb_spec s "") as [->|Hne].
    + by rewrite closing_date_empty.
    + rewrite (closing_date_of_string P _ s Hs Hne), Hnone. done.
  - intros t Hne Hsome. unfold c. rewrite get_new_row by done. rewrite Hcd.
    by rewrite (closing_date_of_string P _ s Hs Hne), Hsome.
Qed.

Lemma createDeal_closing_date_witness :
  date_parse example_platform (closing_date_text "2024-13-45") = None
  /\ date_parse example_platform (closing_date_text "2024-03-15")
     = Some 1710504000000
  /\ (exists r shown c,
        fst (createDeal example_platform example_env
               (deal_request "2024-13-45") empty_store) = Responded r
        /\ status r = 201 /\ success r = true /\ data r = One shown
        /\ after (createDeal example_platform example_env
                    (deal_request "2024-13-45")) empty_store activeDeal = [c]
        /\ get c "closingDate" = VUndef)
  /\ (exists r shown c,
        fst (createDeal example_platform example_env
               (deal_request "2024-03-15") empty_store) = Responded r
        /\ status r = 201 /\ success r = true /\ data r = One shown
        /\ after (createDeal example_platform example_env
                    (deal_request "2024-03-15")) empty_store activeDeal = [c]
        /\ get c "closingDate" = VDate (Some 1710504000000)).
Proof.
  split; [reflexivity|]. split; [reflexivity|]. split.
  - destruct (createDeal_closing_date example_platform example_env
                (deal_request "2024-13-45") empty_store "2024-13-45"
                eq_refl eq_refl eq_refl eq_refl (fun _ _ => eq_refl) eq_refl)
      as (r & shown & c & H1 & H2 & H3 & H4 & H5 & H6 & H7 & H8).
    exists r, shown, c. repeat split; try assumption.
    apply H7. reflexivity.
  - destruct (createDeal_closing_date example_platform example_env
                (deal_request "2024-03-15") empty_store "2024-03-15"
                eq_refl eq_refl eq_refl eq_refl (fun _ _ => eq_refl) eq_refl)
      as (r & shown & c & H1 & H2 & H3 & H4 & H5 & H6 & H7 & H8).
    exists r, shown, c. repeat split; try assumption.
    apply H8; [discriminate|reflexivity].
Defined.

(** ** Names of contacts and leads *)

Lemma split_nonempty sep s : split sep s ≠ [].
Proof.
  destruct s as [|c r]; simpl; [done|].
  destruct (Ascii.eqb c sep); [done|]. by destruct (split sep r).
Qed.

Lemma join_split c s : join (String c EmptyString) (split c s) = s.
Proof.
  induction s as [|d r IH]; [done|]. simpl.
  destruct (Ascii.eqb_spec d c) as [->|Hd].
  - pose proof (split_nonempty c r).
    destruct (split c r) as [|w ws] eqn:E; [done|].
    simpl in IH |- *. by rewrite IH.
  - destruct (split c r) as [|w ws] eqn:E; [by destruct (split_nonempty c r)|].
    destruct ws as [|w' ws]; simpl in IH |- *; by rewrite <- IH.
Qed.

(** [split] yields the first token, and joining the others gives back what
    follows the first space. *)
Lemma split_tokens s :
  exists ws, split " " s = first_token s :: ws
             /\ join " " ws = rest_tokens s.
Proof.
  induction s as [|c r (ws & IH1 & IH2)]; simpl.
  - by exists [].
  - destruct (Ascii.eqb_spec c " ") as [->|Hc].
    + exists (split " " r). split; [done|]. apply join_split.
    + rewrite IH1. by exists ws.
Qed.

(** A name with a space is its first token, a space, and the rest; a name
    without space is its first token. *)
Lemma tokens_of_name s :
  includes " " (first_token s) = false
  /\ (if includes " " s
      then s = first_token s ++ " " ++ rest_tokens s
      else first_token s = s /\ rest_tokens s = "").
Proof.
  induction s as [|c r [IH1 IH2]]; [done|]. simpl.
  destruct (Ascii.eqb_spec c " ") as [->|Hc]; simpl; [done|].
  apply Ascii.eqb_neq in Hc. rewrite Hc, IH1. split; [done|].
  destruct (includes " " r); simpl.
  - rewrite IH2 at 1. reflexivity.
  - destruct IH2 as [-> ->]. done.
Qed.

Lemma js_or_defined a s : js_or a (VStr s) ≠ VUndef.
Proof. unfold js_or. destruct (truthy a) eqn:E; [|done]. by destruct a. Qed.

Lemma js_or_or_empty a w :
  js_or (js_or a (VStr w)) (VStr "") = js_or a (VStr w).
Proof.
  unfold js_or. destruct (truthy a) eqn:E; [by rewrite E|].
  simpl. destruct (String.eqb_spec w ""); simpl; congruence.
Qed.

Lemma js_or_undef_empty a :
  js_or (js_or a VUndef) (VStr "") = js_or a (VStr "").
Proof. unfold js_or. destruct (truthy a) eqn:E; [by rewrite E|done]. Qed.

Lemma name_parts_fields (data : Obj) parts :
  name_parts data = Ret parts ->
  first_name data parts
  = js_or (get data "firstName") (VStr (first_token (name_text data)))
  /\ last_name data parts
     = js_or (get data "lastName") (VStr (rest_tokens (name_text data))).
Proof.
  unfold name_parts, first_name, last_name, name_text.
  destruct (truthy (get data "name")) eqn:Ht.
  - destruct (get data "name") as [| | | |s| |] eqn:E; try done.
    intros [= <-]. destruct (split_tokens s) as (ws & -> & Hj).
    simpl. rewrite Hj. by rewrite !js_or_or_empty.
  - intros [= <-]. simpl.
    assert (match get data "name" with VStr s => s | _ => "" end = "") as ->.
    { destruct (get data "name") as [| | | |s| |]; try done.
      simpl in Ht. by destruct (String.eqb_spec s ""). }
    by rewrite js_or_undef_empty, js_or_or_empty.
Qed.

Lemma name_parts_returns (data : Obj) :
  str_or_falsy (get data "name") = true -> exists l, name_parts data = Ret l.
Proof.
  unfold name_parts, str_or_falsy.
  destruct (truthy (get data "name")) eqn:Ht; [|eauto].
  destruct (get data "name"); simpl; intros H; eauto; try discriminate.
Qed.

Lemma opt_call_returns f v :
  str_or_nullish v = true -> exists w, opt_call f v = Ret w.
Proof. destruct v; simpl; intros H; eauto; discriminate. Qed.

Lemma str_or_nullish_falsy v : str_or_nullish v = true -> str_or_falsy v = true.
Proof. by destruct v. Qed.

Lemma when_truthy_nullish f v w :
  when_truthy f v = Ret w -> str_or_nullish w = true.
Proof.
  unfold when_truthy. destruct (truthy v); [|by intros [= <-]].
  destruct v; simpl; intros [= <-]; done.
Qed.

Lemma str_or_falsy_js_or a b :
  str_or_falsy a = true -> str_or_falsy b = true ->
  str_or_falsy (js_or a b) = true.
Proof. unfold js_or. by destruct (truthy a). Qed.

Lemma str_or_nullish_new_row P env m (data : Obj) k :
  tidy data -> k ≠ "id" -> k ≠ "createdAt" -> k ≠ "updatedAt" ->
  str_or_nullish (get data k) = true ->
  str_or_nullish (get (defaults P m) k) = true ->
  str_or_nullish (get (new_row P env m data) k) = true.
Proof.
  intros. rewrite get_new_row by done. by destruct (get data k).
Qed.

(** A create handler answers 201 and stores the row when its data can be
    prepared, the store accepts them, the id is free and the row can be
    shown. *)
Lemma create_runs P env m prep (show : Obj -> outcome Obj) msg h
    (st : Store) dat shown :
  prep = Ret dat -> accepts P m dat = true ->
  id_taken (new_row P env m dat) (st m) = false ->
  show (new_row P env m dat) = Ret shown ->
  handler (catch
    (data ← lift prep;
     c ← create P env m data;
     shown ← lift (show c);
     mret (json_done 201 shown msg)) h) st
  = (Responded (json_done 201 shown msg),
     upd m (st m ++ [new_row P env m dat])%list st).
Proof.
  intros -> Hacc Hid Hshow. apply handler_catch_ret.
  unfold mbind, M_bind, mret, M_ret, lift, create.
  rewrite Hacc. cbn [negb]. cbv beta iota zeta. rewrite Hid.
  cbv beta iota. by rewrite Hshow.
Qed.

(** C4.  [createContact] and [createLead] store the name fields.  When
    the handler answers 201, the stored record has as [firstName] the
    explicit [firstName] of the body when there is one, and otherwise the
    first space-separated token of [name]; and as [lastName] the explicit
    [lastName] when there is one, and otherwise the remaining tokens of
    [name], joined by spaces.  And the handler does answer 201 when the
    name and the enum fields of the body are strings or missing, the
    schema accepts the data and defaults the enum columns to strings or
    nothing, and the generated id is unused. *)
Theorem create_name_fields (e : Entity) P env req st :
  e = contacts \/ e = leads ->
  (forall r,
     fst (create_handler e P env req st) = Responded r -> status r = 201 ->
     exists c,
       after (create_handler e P env req) st (model_of e)
         = (st (model_of e) ++ [c])%list
       /\ get c "firstName"
          = js_or (get (body req) "firstName")
                  (VStr (first_token (name_text (body req))))
       /\ get c "lastName"
          = js_or (get (body req) "lastName")
                  (VStr (rest_tokens (name_text (body req)))))
  /\ (forallb (fun k => str_or_falsy (get (body req) k))
        ("name" :: "source" :: enum_keys e) = true ->
      forallb (fun k => str_or_nullish (get (defaults P (model_of e)) k))
        (enum_keys e) = true ->
      (forall data, create_data e P (body req) = Ret data ->
                    accepts P (model_of e) data = true) ->
      existsb (has_id (fresh_id env)) (st (model_of e)) = false ->
      exists r,
        fst (create_handler e P env req st) = Responded r
        /\ status r = 201 /\ success r = true).
Proof.
  intros He. split.
  - intros r Hrun Hst. unfold after.
    destruct (create_handler e P env req st) as [res st'] eqn:Hc.
    simpl in Hrun |- *. subst res.
    destruct He as [-> | ->]; simpl in Hc |- *;
      unfold createContact, createLead in Hc;
      (apply created_inv in Hc
         as (dat & shown & Hprep & _ & _ & -> & _ & _); [|done|done]);
      rewrite upd_same; eexists; (split; [reflexivity|]);
      unfold contactData, leadData in Hprep; returned Hprep;
      match goal with
      | E : name_parts _ = Ret _ |- _ =>
          destruct (name_parts_fields _ _ E) as [<- <-]
      end;
      unfold new_row;
      (split; (apply get_union_l; [subst dat; by get_simpl|])).
    all: try apply js_or_defined.
  - intros Hbody Hdef Hacc Hfresh.
    destruct He as [-> | ->]; simpl in Hbody, Hdef, Hacc, Hfresh |- *;
      repeat (apply andb_true_iff in Hbody as [? Hbody]);
      repeat (apply andb_true_iff in Hdef as [? Hdef]).
    + destruct (name_parts_returns (body req)) as [l El]; [done|].
      destruct (when_truthy_returns toStorage (get (body req) "source"))
        as [w1 E1]; [done|].
      destruct (when_truthy_returns toStorage (get (body req) "status"))
        as [w2 E2]; [done|].
      pose proof (when_truthy_nullish _ _ _ E1).
      pose proof (when_truthy_nullish _ _ _ E2).
      destruct (contactData (body req)) as [dat|] eqn:Hprep.
      2: { unfold contactData in Hprep. rewrite El, E1, E2 in Hprep. done. }
      pose proof Hprep as Hdat. unfold contactData in Hdat.
      rewrite El, E1, E2 in Hdat.
      unfold mbind, outcome_bind, mret, outcome_ret in Hdat.
      apply Ret_inj in Hdat.
      assert (tidy dat) as Htidy by (subst dat; auto 30 with tidy).
      set (c := new_row P env contact dat).
      assert (get c "id" = VStr (fresh_id env)) as Hid.
      { apply get_new_row_id; [done|]. subst dat. by get_simpl. }
      assert (exists shown, show_contact c = Ret shown) as [shown Hshow].
      { unfold show_contact.
        destruct (opt_call_returns toDisplay (get c "source")) as [v1 ->].
        { apply str_or_nullish_new_row; try done. subst dat. by get_simpl. }
        destruct (opt_call_returns toDisplay (get c "status")) as [v2 ->].
        { apply str_or_nullish_new_row; try done. subst dat. by get_simpl. }
        cbn. eauto. }
      eexists. unfold createContact.
      erewrite create_runs;
        [|exact Hprep|by apply Hacc
         |unfold id_taken; fold c; by rewrite Hid|exact Hshow].
      done.
    + destruct (name_parts_returns (body req)) as [l El]; [done|].
      destruct (when_truthy_returns toStorage
                  (js_or (get (body req) "leadSource")
                         (get (body req) "source")))
        as [w1 E1]; [by apply str_or_falsy_js_or|].
      destruct (when_truthy_returns toStorage (get (body req) "status"))
        as [w2 E2]; [done|].
      destruct (when_truthy_returns toStorage (get (body req) "rating"))
        as [w3 E3]; [done|].
      pose proof (when_truthy_nullish _ _ _ E1).
      pose proof (when_truthy_nullish _ _ _ E2).
      pose proof (when_truthy_nullish _ _ _ E3).
      destruct (leadData (body req)) as [dat|] eqn:Hprep.
      2: { unfold leadData in Hprep. rewrite El, E1, E2, E3 in Hprep. done. }
      pose proof Hprep as Hdat. unfold leadData in Hdat.
      rewrite El, E1, E2, E3 in Hdat.
      unfold mbind, outcome_bind, mret, outcome_ret in Hdat.
      apply Ret_inj in Hdat.
      assert (tidy dat) as Htidy by (subst dat; auto 30 with tidy).
      set (c := new_row P env lead dat).
      assert (get c "id" = VStr (fresh_id env)) as Hid.
      { apply get_new_row_id; [done|]. subst dat. by get_simpl. }
      assert (exists shown, show_lead c = Ret shown) as [shown Hshow].
      { unfold show_lead.
        destruct (when_truthy_returns toDisplay (get c "leadSource"))
          as [v1 ->].
        { apply str_or_nullish_falsy, str_or_nullish_new_row; try done.
          subst dat. by get_simpl. }
        destruct (when_truthy_returns toDisplay_first (get c "status"))
          as [v2 ->].
        { apply str_or_nullish_falsy, str_or_nullish_new_row; try done.
          subst dat. by get_simpl. }
        destruct (when_truthy_returns toDisplay_first (get c "rating"))
          as [v3 ->].
        { apply str_or_nullish_falsy, str_or_nullish_new_row; try done.
          subst dat. by get_simpl. }
        cbn. eauto. }
      eexists. unfold createLead.
      erewrite create_runs;
        [|exact Hprep|by apply Hacc
         |unfold id_taken; fold c; by rewrite Hid|exact Hshow].
      done.
Qed.

Lemma create_name_fields_witness :
  (exists r c,
     fst (create_handler contacts example_platform example_env
            (jane "ACTIVE") empty_store) = Responded r
     /\ status r = 201
     /\ after (create_handler contacts example_platform example_env
                 (jane "ACTIVE")) empty_store (model_of contacts) = [c]
     /\ get c "firstName" = VStr "Jane" /\ get c "lastName" = VStr "Doe")
  /\ (exists r c,
        fst (create_handler leads example_platform example_env
               new_lead empty_store) = Responded r
        /\ status r = 201
        /\ after (create_handler leads example_platform example_env
                    new_lead) empty_store (model_of leads) = [c]
        /\ get c "firstName" = VStr "Ann" /\ get c "lastName" = VStr "Lee").
Proof.
  split.
  - destruct (proj2 (create_name_fields contacts example_platform
                       example_env (jane "ACTIVE") empty_store
                       (or_introl eq_refl)))
      as (r & Hr & Hs & _);
      [reflexivity | reflexivity | reflexivity | reflexivity |].
    destruct (proj1 (create_name_fields contacts example_platform
                       example_env (jane "ACTIVE") empty_store
                       (or_introl eq_refl)) r Hr Hs)
      as (c & H1 & H2 & H3).
    exists r, c. split; [exact Hr|]. split; [exact Hs|].
    split; [exact H1|]. split; [exact H2|exact H3].
  - destruct (proj2 (create_name_fields leads example_platform
                       example_env new_lead empty_store
                       (or_intror eq_refl)))
      as (r & Hr & Hs & _);
      [reflexivity | reflexivity | reflexivity | reflexivity |].
    destruct (proj1 (create_name_fields leads example_platform
                       example_env new_lead empty_store
                       (or_intror eq_refl)) r Hr Hs)
      as (c & H1 & H2 & H3).
    exists r, c. split; [exact Hr|]. split; [exact Hs|].
    split; [exact H1|]. split; [exact H2|exact H3].
Defined.

(** ** Listing *)

Lemma desc_by_total k : Total (desc_by k).
Proof.
  intros r1 r2. unfold desc_by, desc_le.
  destruct (time_of k r1) as [x|], (time_of k r2) as [y|]; auto.
  destruct (Z.leb_spec y x), (Z.leb_spec x y); auto; lia.
Qed.

Lemma desc_by_trans k : Transitive (desc_by k).
Proof.
  intros r1 r2 r3. unfold desc_by, desc_le.
  destruct (time_of k r1) as [x|], (time_of k r2) as [y|],
    (time_of k r3) as [z|]; try done.
  rewrite !Z.leb_le. lia.
Qed.

Lemma ceil_div_spec (t n : Z) :
  0 < n -> (ceil_div t n - 1) * n < t <= ceil_div t n * n.
Proof.
  intros Hn. unfold ceil_div.
  pose proof (Z.div_mod (- t) n ltac:(lia)).
  pose proof (Z.mod_pos_bound (- t) n Hn). nia.
Qed.

Lemma mapM_outcome {A B} (f : A -> outcome B) (l : list A) :
  (forall x, In x l -> exists y, f x = Ret y) ->
  exists ys, mapM f l = Ret ys /\ Forall2 (fun x y => f x = Ret y) l ys.
Proof.
  induction l as [|x l IH]; intros H.
  - exists []. by split.
  - destruct (H x (or_introl eq_refl)) as [y Hy].
    destruct IH as (ys & Hys & HF); [intros; apply H; by right|].
    exists (y :: ys). split; [|by constructor].
    cbn [mapM]. rewrite Hy. unfold mbind at 1, outcome_bind at 1.
    rewrite Hys. reflexivity.
Qed.

Lemma In_take {A} (n : nat) (l : list A) x : In x (take n l) -> In x l.
Proof. rewrite <- !list_elem_of_In. apply subseteq_take. Qed.

Lemma In_drop {A} (n : nat) (l : list A) x : In x (drop n l) -> In x l.
Proof. rewrite <- !list_elem_of_In. apply subseteq_drop. Qed.

(** The page a list handler sends, for a page number and a page size
    that are positive. *)
Lemma listed (m : Model) where_ k (show : Obj -> outcome Obj) (p n : Z) h
    (st : Store) :
  1 <= p -> 1 <= n ->
  (forall row, In row (st m) -> exists o, show row = Ret o) ->
  exists shown,
    handler (catch
      (rows ← findMany m where_ ((p - 1) * n) n k;
       total ← count m where_;
       shown ← lift (mapM show rows);
       mret (json_page shown (pagination_of p n total))) h) st
    = (Responded
         (json_page shown
            (pagination_of p n
               (Z.of_nat (length (List.filter where_ (st m)))))), st)
    /\ Forall2 (fun row o => show row = Ret o)
         (take (Z.to_nat n)
            (drop (Z.to_nat ((p - 1) * n))
               (merge_sort (desc_by k) (List.filter where_ (st m)))))
         shown.
Proof.
  intros Hp Hn Hshow.
  destruct (mapM_outcome show
              (take (Z.to_nat n)
                 (drop (Z.to_nat ((p - 1) * n))
                    (merge_sort (desc_by k) (List.filter where_ (st m))))))
    as (shown & Hm & HF).
  { intros row Hin. apply Hshow.
    apply In_take, In_drop in Hin.
    apply list_elem_of_In in Hin.
    rewrite merge_sort_Permutation in Hin.
    apply list_elem_of_In in Hin. by apply filter_In in Hin as [? _]. }
  exists shown. split; [|done].
  apply handler_catch_ret.
  unfold mbind, M_bind, mret, M_ret, lift, findMany, count.
  destruct (Z.ltb_spec ((p - 1) * n) 0); [nia|].
  destruct (Z.leb_spec 0 n); [|lia]. by rewrite Hm.
Qed.

Ltac list_case L :=
  let shown := fresh "shown" in
  let Hrun := fresh "Hrun" in
  let HF := fresh "HF" in
  destruct L as (shown & Hrun & HF);
  match type of HF with
  | Forall2 _ (take _ (drop _ ?o)) _ => eexists _, o, shown, _
  end;
  split; [exact Hrun|];
  split; [reflexivity|];
  split; [reflexivity|];
  split; [apply merge_sort_Permutation|];
  split; [apply StronglySorted_merge_sort;
            [apply desc_by_trans|apply desc_by_total]|];
  split; [exact HF|];
  split;
    [ rewrite <- (Forall2_length _ _ _ HF), length_take; lia
    | split; [reflexivity|];
      split; [reflexivity|];
      split; [reflexivity|];
      split; [reflexivity|];
      apply ceil_div_spec; lia ].

(** C5 (as amended).  For every list request whose page [p] and limit [n]
    are positive, on a store whose rows can be shown: the handler answers
    200 and leaves the store alone; the page is the display form of at most
    [n] rows, namely those that follow the first [(p - 1) * n] of the
    matching rows in descending order of the handler's column, which is the
    creation time for contacts, accounts, deals and leads and the activity's
    [dateTime] for activities; and the pagination object has
    [totalPages = ceil (total / n)], where [total] counts the rows that
    match the search filter (of contacts and accounts; the other lists have
    none). *)
Theorem list_page (e : Entity) (req : Request) (st : Store) :
  1 <= page_of req -> 1 <= limit_of req -> showable e st = true ->
  exists r ordered shown pg,
    list_handler e req st = (Responded r, st)
    /\ status r = 200 /\ data r = Many shown
    /\ ordered ≡ₚ List.filter (matching e req) (st (model_of e))
    /\ StronglySorted (desc_by (order_key e)) ordered
    /\ Forall2 (fun row o => show_of e row = Ret o)
         (take (Z.to_nat (limit_of req))
            (drop (Z.to_nat ((page_of req - 1) * limit_of req)) ordered))
         shown
    /\ Z.of_nat (length shown) <= limit_of req
    /\ pagination r = Some pg
    /\ pg_page pg = page_of req /\ pg_limit pg = limit_of req
    /\ pg_total pg
       = Z.of_nat (length (List.filter (matching e req) (st (model_of e))))
    /\ (pg_totalPages pg - 1) * limit_of req < pg_total pg
       <= pg_totalPages pg * limit_of req.
Proof.
  intros Hp Hn Hall.
  assert (forall row, In row (st (model_of e)) ->
                      exists o, show_of e row = Ret o) as Hshow.
  { intros row Hin. unfold showable in Hall.
    rewrite forallb_forall in Hall. specialize (Hall row Hin).
    destruct (show_of e row); [eauto|done]. }
  clear Hall. destruct e; simpl in Hshow |- *.
  - list_case (listed contact
      (where_of (query req !! "search") ["firstName"; "lastName"; "emailAddress"])
      "createdAt" show_contact _ _
      (fun _ => mret (failed "Failed to fetch contacts")) st Hp Hn Hshow).
  - list_case (listed account
      (where_of (query req !! "search") ["accountName"; "industry"])
      "createdAt" show_account _ _
      (fun _ => mret (failed "Failed to fetch accounts")) st Hp Hn Hshow).
  - list_case (listed activityLog (fun _ => true)
      "dateTime" show_activity _ _
      (fun _ => mret (failed "Failed to fetch activities")) st Hp Hn Hshow).
  - list_case (listed activeDeal (fun _ => true)
      "createdAt" show_deal _ _
      (fun _ => mret (failed "Failed to fetch deals")) st Hp Hn Hshow).
  - list_case (listed lead (fun _ => true)
      "createdAt" show_lead _ _
      (fun _ => mret (failed "Failed to fetch leads")) st Hp Hn Hshow).
Qed.

Lemma list_page_witness :
  page_of second_page = 2 /\ limit_of second_page = 1
  /\ showable activities activity_store = true
  /\ exists r ordered shown pg,
       list_handler activities second_page activity_store
         = (Responded r, activity_store)
       /\ status r = 200 /\ data r = Many shown
       /\ ordered ≡ₚ List.filter (matching activities second_page)
                       (activity_store (model_of activities))
       /\ StronglySorted (desc_by (order_key activities)) ordered
       /\ Forall2 (fun row o => show_of activities row = Ret o)
            (take (Z.to_nat (limit_of second_page))
               (drop (Z.to_nat ((page_of second_page - 1)
                                * limit_of second_page)) ordered))
            shown
       /\ Z.of_nat (length shown) <= limit_of second_page
       /\ pagination r = Some pg
       /\ pg_page pg = page_of second_page
       /\ pg_limit pg = limit_of second_page
       /\ pg_total pg
          = Z.of_nat (length (List.filter (matching activities second_page)
                                (activity_store (model_of activities))))
       /\ (pg_totalPages pg - 1) * limit_of second_page < pg_total pg
          <= pg_totalPages pg * limit_of second_page.
Proof.
  split; [reflexivity|]. split; [reflexivity|]. split; [by vm_compute|].
  apply (list_page activities second_page activity_store).
  - by vm_compute.
  - by vm_compute.
  - by vm_compute.
Defined.

(** The list of activities is ordered by the date of the activity, not by
    the time of creation: the activity created first, and dated later, is
    listed first. *)
Lemma activities_not_by_creation_time :
  stored activityLog ["id"; "createdAt"; "dateTime"] activity_store
  = [[VStr "a1"; VDate (Some 1); VDate (Some 20)];
     [VStr "a2"; VDate (Some 2); VDate (Some 10)]]
  /\ sent ["id"; "createdAt"]
       (fst (getActivities (request "" [] []) activity_store))
     = Some (200, [[VStr "a1"; VDate (Some 1)]; [VStr "a2"; VDate (Some 2)]])
  /\ ~ desc_by "createdAt" (activity_row "a1" 1 20) (activity_row "a2" 2 10).
Proof. by vm_compute. Qed.

(** ** The current user's profile *)

(** With a profile in the store, the handler reads the first one and
    writes nothing. *)
Lemma current_profile_reads_only P env req (st : Store) u rest :
  st userProfile = u :: rest ->
  snd (getCurrentUserProfile P env req st) = st.
Proof.
  intros Hst. unfold getCurrentUserProfile, handler, catch.
  unfold mbind, M_bind, mret, M_ret, lift, findFirst. rewrite Hst. simpl.
  by destruct (show_profile u).
Qed.

Lemma id_taken_nil (row : Obj) : id_taken row [] = false.
Proof. unfold id_taken. by destruct (get row "id"). Qed.

(** C6.  Called on a store without profile (and a schema that accepts the
    default data), the current-user endpoint creates exactly one profile,
    which carries the fixed default values, and returns it; called again on
    the store it left, at any time and with any request, it creates nothing
    and returns the same response. *)
Theorem current_profile_created_once P env env' req req' (st : Store) :
  st userProfile = [] ->
  accepts P userProfile default_profile = true ->
  exists r u shown,
    getCurrentUserProfile P env req st = (Responded r, upd userProfile [u] st)
    /\ status r = 200 /\ success r = true /\ data r = One shown
    /\ (forall k v, default_profile !! k = Some v -> u !! k = Some v)
    /\ show_profile u = Ret shown
    /\ getCurrentUserProfile P env' req' (upd userProfile [u] st)
       = (Responded r, upd userProfile [u] st).
Proof.
  intros Hempty Hacc.
  set (u := new_row P env userProfile default_profile).
  assert (forall k v, default_profile !! k = Some v -> u !! k = Some v) as Hu.
  { intros k v Hk. by apply lookup_union_Some_l. }
  assert (exists shown, show_profile u = Ret shown) as [shown Hshow].
  { unfold show_profile, get. rewrite (Hu "role" (VStr "SALES_MANAGER") eq_refl).
    simpl. eauto. }
  exists (json_data (One shown)), u, shown.
  split; [|do 5 (split; [done|])].
  - unfold getCurrentUserProfile. apply handler_catch_ret.
    unfold mbind, M_bind, mret, M_ret, lift, findFirst, create.
    cbv beta. rewrite Hempty, Hacc. cbn [head negb]. cbv beta iota zeta.
    fold u. rewrite ?Hempty, id_taken_nil, Hshow. reflexivity.
  - unfold getCurrentUserProfile. apply handler_catch_ret.
    unfold mbind, M_bind, mret, M_ret, lift, findFirst.
    rewrite upd_same. cbn [head]. by rewrite Hshow.
Qed.

Lemma current_profile_created_once_witness :
  exists r u shown,
    getCurrentUserProfile example_platform example_env (request "" [] [])
      empty_store = (Responded r, upd userProfile [u] empty_store)
    /\ status r = 200 /\ success r = true /\ data r = One shown
    /\ (forall k v, default_profile !! k = Some v -> u !! k = Some v)
    /\ show_profile u = Ret shown
    /\ getCurrentUserProfile example_platform
         {| now := 1700000099000; fresh_id := "c2" |} (request "me" [] [])
         (upd userProfile [u] empty_store)
       = (Responded r, upd userProfile [u] empty_store).
Proof.
  exact (current_profile_created_once example_platform example_env
           {| now := 1700000099000; fresh_id := "c2" |}
           (request "" [] []) (request "me" [] []) empty_store
           eq_refl eq_refl).
Defined.

(** ** Storage form on the write paths *)

(** C7 (the code at the failing inputs).  The storage transform that
    replaces every run of white space maps ["Do Not Call"] to
    ["DO_NOT_CALL"]; the write paths of the account status and geo, of the
    activity type, and of the lead status and rating on update replace the
    first space only, and store a value that still holds a space.
    [createLead] and [updateLead] store different values for the same
    status and rating. *)
Theorem write_paths_replace_first_space_only :
  toStorage "Do Not Call" = "DO_NOT_CALL"
  /\ stored account ["status"; "geo"]
       (after (createAccount example_platform example_env acme) empty_store)
     = [[VStr "DO_NOT CALL"; VStr "NORTH_ AMERICA"]]
  /\ stored activityLog ["activityType"]
       (after (createActivity example_platform example_env follow_up)
          empty_store)
     = [[VStr "FOLLOW_UP CALL"]]
  /\ stored lead ["id"; "status"; "rating"]
       (after (createLead example_platform example_env new_lead) empty_store)
     = [[VStr "c1"; VStr "DO_NOT_CALL"; VStr "VERY_HOT_LEAD"]]
  /\ stored lead ["id"; "status"; "rating"]
       (after (updateLead example_platform example_env same_lead_again)
          (after (createLead example_platform example_env new_lead)
             empty_store))
     = [[VStr "c1"; VStr "DO_NOT CALL"; VStr "VERY_HOT LEAD"]].
Proof. by vm_compute. Qed.
(** ** Pagination parameters *)

Lemma listed_any (m : Model) where_ k (show : Obj -> outcome Obj) (p n : Z)
    msg (st : Store) :
  exists r,
    fst (handler (catch
      (rows ← findMany m where_ ((p - 1) * n) n k;
       total ← count m where_;
       shown ← lift (mapM show rows);
       mret (json_page shown (pagination_of p n total)))
      (fun _ => mret (failed msg))) st) = Responded r
    /\ ((status r = 200 /\ success r = true
         /\ exists pg, pagination r = Some pg
              /\ pg_page pg = p /\ pg_limit pg = n)
        \/ (status r = 500 /\ success r = false)).
Proof.
  unfold handler, catch.
  destruct (findMany m where_ ((p - 1) * n) n k st) as [[rows|e] s] eqn:Hf;
    unfold mbind at 1, M_bind at 1; rewrite Hf; [|simpl; eauto].
  unfold mbind, M_bind, mret, M_ret, lift, count.
  destruct (mapM show rows) as [shown|]; simpl; eauto 10.
Qed.

(** C8.  Every list handler sends a response for every request and every
    store: 200 with the page and limit it used, or the generic 500.  The
    page is 1 and the limit 10 when the query parameter is absent or does
    not parse as a number (or parses to 0); so neither is ever 0. *)
Theorem list_defaults_and_responds (e : Entity) (req : Request) (st : Store) :
  (exists r,
     fst (list_handler e req st) = Responded r
     /\ ((status r = 200 /\ success r = true
          /\ exists pg, pagination r = Some pg
               /\ pg_page pg = page_of req /\ pg_limit pg = limit_of req)
         \/ (status r = 500 /\ success r = false)))
  /\ (query req !! "page" = None -> page_of req = 1)
  /\ (query req !! "limit" = None -> limit_of req = 10)
  /\ (parseInt (query req !! "page") = None -> page_of req = 1)
  /\ (parseInt (query req !! "limit") = None -> limit_of req = 10)
  /\ page_of req ≠ 0 /\ limit_of req ≠ 0.
Proof.
  split.
  - destruct e; apply listed_any.
  - unfold page_of, limit_of, num_or.
    repeat split.
    + by intros ->.
    + by intros ->.
    + by intros ->.
    + by intros ->.
    + destruct (parseInt _) as [z|]; [|done].
      destruct (Z.eqb_spec z 0); done.
    + destruct (parseInt _) as [z|]; [|done].
      destruct (Z.eqb_spec z 0); done.
Qed.

Lemma list_defaults_and_responds_witness :
  page_of bad_page = 1 /\ limit_of bad_page = 10
  /\ exists r,
       fst (list_handler deals bad_page empty_store) = Responded r
       /\ ((status r = 200 /\ success r = true
            /\ exists pg, pagination r = Some pg
                 /\ pg_page pg = page_of bad_page
                 /\ pg_limit pg = limit_of bad_page)
           \/ (status r = 500 /\ success r = false)).
Proof.
  destruct (list_defaults_and_responds deals bad_page empty_store)
    as (H1 & H2 & H3 & H4 & H5 & H6 & H7).
  split; [apply H4; reflexivity|]. split; [apply H3; reflexivity|]. exact H1.
Defined.

(** A negative page makes the store refuse the negative [skip]; the
    handler answers with the generic failure. *)
Example negative_page_is_answered :
  sent [] (fst (getContacts (request "" [("page", "-3")] []) empty_store))
  = Some (500, []).
Proof. by vm_compute. Qed.

(** ** Reports *)

Lemma filter_everything (rows : list Obj) : List.filter everything rows = rows.
Proof. induction rows as [|r rows IH]; simpl; [done|by rewrite IH]. Qed.

Lemma generateReport_runs (env : Env) (req : Request) (st : Store) :
  exists r report,
    generateReport env req st = (Responded r, st)
    /\ status r = 200 /\ success r = true /\ data r = One report
    /\ get report "metrics" = metrics_of st
    /\ get report "reportType" = get (body req) "reportType"
    /\ get report "period" = get (body req) "period"
    /\ get report "salesRep" = get (body req) "salesRep"
    /\ get report "geo" = get (body req) "geo"
    /\ get report "businessLine" = get (body req) "businessLine".
Proof.
  eexists _, _. split.
  - unfold generateReport. apply handler_catch_ret.
    unfold mbind, M_bind, mret, M_ret, count. rewrite !filter_everything.
    reflexivity.
  - do 3 (split; [reflexivity|]). unfold metrics_of.
    repeat split; by get_simpl.
Qed.

(** C9.  A report is answered with 200 and leaves the store alone; its
    metrics are the numbers of all contacts, accounts, deals, activities and
    leads in the store, the same for any two requests whatever their
    period, geo, sales representative and business line; these values of
    the request are copied into the report. *)
Theorem report_counts_ignore_filters (env env' : Env) (req req' : Request)
    (st : Store) :
  exists r report r' report',
    generateReport env req st = (Responded r, st)
    /\ generateReport env' req' st = (Responded r', st)
    /\ status r = 200 /\ success r = true
    /\ data r = One report /\ data r' = One report'
    /\ get report "metrics" = metrics_of st
    /\ get report' "metrics" = get report "metrics"
    /\ get report "reportType" = get (body req) "reportType"
    /\ get report "period" = get (body req) "period"
    /\ get report "salesRep" = get (body req) "salesRep"
    /\ get report "geo" = get (body req) "geo"
    /\ get report "businessLine" = get (body req) "businessLine".
Proof.
  destruct (generateReport_runs env req st)
    as (r & rep & H1 & S1 & S2 & D1 & M1 & E1).
  destruct (generateReport_runs env' req' st)
    as (r' & rep' & H2 & _ & _ & D2 & M2 & _).
  exists r, rep, r', rep'. rewrite M2, M1. repeat split; tauto.
Qed.

(** ** Saving an account in the Accounts view *)

(** C10.  Saving a new account (no account is being edited) whose name and
    industry are filled in calls [addAccount] once, with a payload that
    holds, for every optional field left empty, the fixed default
    (accountRating BRONZE, revenue $0, numberOfEmployees 1-10, accountOwner
    Current User, status PROSPECT, the empty string for city, state,
    country and website), for every field filled in its value, and
    [current-user] as createdBy and updatedBy.  When the name or the
    industry is empty the save is refused: one alert, no store call, the
    state as it was. *)
Theorem save_new_account (ctx : UI.Context) (s : UI.State) :
  (UI.editingAccount s = None ->
   truthy (get (UI.formData s) "accountName") = true ->
   truthy (get (UI.formData s) "industry") = true ->
   exists payload verdict,
     fst (UI.handleSaveAccount ctx s) = [UI.AddAccount payload; UI.Alert verdict]
     /\ get payload "createdBy" = VStr "current-user"
     /\ get payload "updatedBy" = VStr "current-user"
     /\ get payload "accountName" = get (UI.formData s) "accountName"
     /\ get payload "industry" = get (UI.formData s) "industry"
     /\ (forall k d, In (k, d) UI.optional_defaults ->
           get payload k
           = if truthy (get (UI.formData s) k) then get (UI.formData s) k
             else VStr d))
  /\ (truthy (get (UI.formData s) "accountName") = false
      \/ truthy (get (UI.formData s) "industry") = false ->
      UI.handleSaveAccount ctx s
      = ([UI.Alert "Account Name and Industry are required!"], s)).
Proof.
  split.
  - intros Hnew Hname Hind. unfold UI.handleSaveAccount.
    rewrite Hname, Hind, Hnew. cbn [negb orb].
    exists (UI.newAccountData (UI.formData s)).
    destruct (UI.addAccount_throws ctx _); eexists;
      (split; [reflexivity|]); unfold UI.newAccountData;
      (repeat split; [by get_simpl | by get_simpl
        | get_simpl; unfold js_or; by rewrite Hname
        | get_simpl; unfold js_or; by rewrite Hind
        | intros k d Hin; simpl in Hin;
          repeat (destruct Hin as [[= <- <-]|Hin];
                  [by get_simpl|]); done]).
  - unfold UI.handleSaveAccount. by intros [-> | ->]; rewrite ?orb_true_r.
Qed.

Lemma save_new_account_witness :
  (exists payload verdict,
     fst (UI.handleSaveAccount UI.quiet UI.acme_form)
       = [UI.AddAccount payload; UI.Alert verdict]
     /\ get payload "accountRating" = VStr "BRONZE"
     /\ get payload "status" = VStr "PROSPECT"
     /\ get payload "createdBy" = VStr "current-user")
  /\ UI.handleSaveAccount UI.quiet UI.blank_form
     = ([UI.Alert "Account Name and Industry are required!"], UI.blank_form).
Proof.
  split.
  - destruct (proj1 (save_new_account UI.quiet UI.acme_form)
                eq_refl eq_refl eq_refl)
      as (payload & verdict & H1 & H2 & H3 & H4 & H5 & H6).
    exists payload, verdict. split; [exact H1|]. split; [|split].
    + exact (H6 "accountRating" "BRONZE" (or_introl eq_refl)).
    + apply (H6 "status" "PROSPECT"). do 8 right. left. reflexivity.
    + exact H2.
  - exact (proj2 (save_new_account UI.quiet UI.blank_form)
             (or_intror eq_refl)).
Defined.

(** * Further properties of the handlers *)

(** ** Reading by id *)

Lemma get_shape_none (m : Model) (show : Obj -> outcome Obj) msg h i (st : Store) :
  List.find (has_id i) (st m) = None ->
  handler (catch
    (found ← findUnique m i;
     match found with
     | None => mret (not_found msg)
     | Some c =>
         shown ← lift (show c);
         mret (json_data (One shown))
     end) h) st = (Responded (not_found msg), st).
Proof.
  intros Hnone. apply handler_catch_ret.
  unfold mbind, M_bind, mret, M_ret, findUnique. by rewrite Hnone.
Qed.

Lemma get_shape_some (m : Model) (show : Obj -> outcome Obj) msg h i
    (st : Store) row shown :
  List.find (has_id i) (st m) = Some row -> show row = Ret shown ->
  handler (catch
    (found ← findUnique m i;
     match found with
     | None => mret (not_found msg)
     | Some c =>
         shown ← lift (show c);
         mret (json_data (One shown))
     end) h) st = (Responded (json_data (One shown)), st).
Proof.
  intros Hsome Hshow. apply handler_catch_ret.
  unfold mbind, M_bind, mret, M_ret, lift, findUnique.
  by rewrite Hsome, Hshow.
Qed.

Lemma get_shape_store (m : Model) (show : Obj -> outcome Obj) msg
    (R : Response) i (st : Store) :
  snd (handler (catch
    (found ← findUnique m i;
     match found with
     | None => mret (not_found msg)
     | Some c =>
         shown ← lift (show c);
         mret (json_data (One shown))
     end) (fun _ => mret R)) st) = st.
Proof.
  unfold handler, catch, mbind, M_bind, mret, M_ret, lift, findUnique.
  destruct (List.find _ _) as [c|]; [|done]. by destruct (show c).
Qed.

(** X1.  A get-by-id handler answers 404, with [success: false] and a
    message, when no record has the id, and 200 with the display form of
    the first record that has it otherwise; the same holds for the profile
    of a user.  The store is left as it was. *)
Theorem get_by_id_found_or_404 (e : Entity) (req : Request) (st : Store) :
  (List.find (has_id (params_id req)) (st (model_of e)) = None ->
   exists r, get_handler e req st = (Responded r, st)
     /\ status r = 404 /\ success r = false /\ data r = NoData
     /\ is_Some (message r))
  /\ (forall row shown,
        List.find (has_id (params_id req)) (st (model_of e)) = Some row ->
        show_of e row = Ret shown ->
        get_handler e req st = (Responded (json_data (One shown)), st))
  /\ (List.find (has_id (params_id req)) (st userProfile) = None ->
      exists r, getUserProfile req st = (Responded r, st)
        /\ status r = 404 /\ success r = false)
  /\ (forall row shown,
        List.find (has_id (params_id req)) (st userProfile) = Some row ->
        show_profile row = Ret shown ->
        getUserProfile req st = (Responded (json_data (One shown)), st)).
Proof.
  split; [|split; [|split]].
  - intros Hnone. destruct e; simpl in *; eexists;
      (split; [by apply get_shape_none|]); simpl; eauto.
  - intros row shown Hsome Hshow.
    destruct e; simpl in *; by eapply get_shape_some.
  - intros Hnone. eexists. split; [by apply get_shape_none|]. done.
  - intros row shown Hsome Hshow. by eapply get_shape_some.
Qed.

Lemma get_by_id_found_or_404_witness :
  (exists r, get_handler deals (request "d9" [] []) activity_store
             = (Responded r, activity_store)
     /\ status r = 404 /\ success r = false /\ data r = NoData
     /\ is_Some (message r))
  /\ sent ["id"; "activityType"]
       (fst (get_handler activities (request "a2" [] []) activity_store))
     = Some (200, [[VStr "a2"; VStr "CALL"]]).
Proof.
  split.
  - exact (proj1 (get_by_id_found_or_404 deals (request "d9" [] [])
                    activity_store) eq_refl).
  - rewrite (proj1 (proj2 (get_by_id_found_or_404 activities
               (request "a2" [] []) activity_store))
               (activity_row "a2" 2 10)
               (set "activityType" (VStr "CALL") (activity_row "a2" 2 10))
               eq_refl eq_refl).
    reflexivity.
Defined.

(** ** Reads leave the store alone *)

Lemma list_shape_store (m : Model) where_ k (show : Obj -> outcome Obj)
    (p n : Z) (R : Response) (st : Store) :
  snd (handler (catch
    (rows ← findMany m where_ ((p - 1) * n) n k;
     total ← count m where_;
     shown ← lift (mapM show rows);
     mret (json_page shown (pagination_of p n total)))
    (fun _ => mret R)) st) = st.
Proof.
  unfold handler, catch, mbind, M_bind, mret, M_ret, lift, findMany, count.
  destruct ((p - 1) * n <? 0); [done|]. simpl.
  by destruct (mapM show _).
Qed.

(** X2.  No read changes the store, whatever the request and whatever the
    answer: not the get-by-id and list handlers of the five entities, not
    the profile of a user, the report or the download. *)
Theorem reads_leave_the_store (e : Entity) (env : Env) (req : Request)
    (st : Store) :
  snd (get_handler e req st) = st
  /\ snd (list_handler e req st) = st
  /\ snd (getUserProfile req st) = st
  /\ snd (generateReport env req st) = st
  /\ snd (downloadReport req st) = st.
Proof.
  split; [|split; [|split; [|split]]].
  - destruct e; apply get_shape_store.
  - destruct e; apply list_shape_store.
  - apply get_shape_store.
  - destruct (generateReport_runs env req st) as (r & rep & -> & _). done.
  - done.
Qed.

(** ** Updating *)

(** Peel the binds of a handler body that is known to return. *)
Ltac returned_M H :=
  unfold mbind, M_bind, mret, M_ret, lift in H; cbv beta iota in H;
  repeat match type of H with
  | match ?o with Ret _ => _ | Throw _ => _ end = (Ret _, _) =>
      let E := fresh "E" in
      destruct o eqn:E; [|discriminate H]; cbv beta iota in H
  end.

Lemma update_inv P env (m : Model) i (data : Obj) (st : Store) u st' :
  update P env m i data st = (Ret u, st') ->
  exists old,
    List.find (has_id i) (st m) = Some old
    /\ accepts P m data = true
    /\ u = updated_row env data old
    /\ st' = upd m (replaced i u (st m)) st.
Proof.
  unfold update. destruct (List.find _ _) as [old|]; [|done].
  destruct (accepts P m data); [|done]. simpl.
  intros [= <- <-]. by exists old.
Qed.

Lemma update_none P env (m : Model) i (data : Obj) (st : Store) :
  List.find (has_id i) (st m) = None ->
  exists e, update P env m i data st = (Throw e, st).
Proof. unfold update. intros ->. eauto. Qed.

(** What an update handler has done when it answers with success. *)
Lemma updated_inv (e : Entity) P env req (st : Store) r :
  fst (update_handler e P env req st) = Responded r -> status r = 200 ->
  exists dat old shown,
    update_data e (body req) = Ret dat
    /\ List.find (has_id (params_id req)) (st (model_of e)) = Some old
    /\ accepts P (model_of e) dat = true
    /\ after (update_handler e P env req) st
       = upd (model_of e)
           (replaced (params_id req) (updated_row env dat old)
              (st (model_of e))) st
    /\ show_of e (updated_row env dat old) = Ret shown
    /\ data r = One shown.
Proof.
  intros Hrun Hst. unfold after.
  destruct (update_handler e P env req st) as [res st'] eqn:Hc.
  simpl in Hrun |- *. subst res.
  destruct e; simpl in Hc |- *;
    unfold updateContact, updateAccount, updateActivity, updateDeal,
      updateLead in Hc;
    (apply handler_catch_inv in Hc as [Hc|(err & _ & ->)]; [|done]);
    returned_M Hc;
    match type of Hc with
    | match update ?P ?env ?m ?i ?d ?s with _ => _ end = _ =>
        destruct (update P env m i d s) as [[u|err] s1] eqn:Hu; [|done];
        apply update_inv in Hu as (old & Hfind & Hacc & -> & ->)
    end;
    cbv beta iota in Hc;
    match type of Hc with
    | match ?o with Ret _ => _ | Throw _ => _ end = _ =>
        destruct o as [shown|] eqn:Hshow; [|done]
    end;
    injection Hc as <- <-;
    eexists _, old, shown;
    repeat match goal with
    | E : when_truthy _ _ = Ret _ |- _ => rewrite E; clear E
    end;
    unfold mbind, outcome_bind, mret, outcome_ret;
    (split; [reflexivity|]); auto.
Qed.

(** X3.  An update of an id that identifies no record is answered with the
    generic 500 failure and changes nothing, whatever the body; and an
    update handler only ever answers 200 or 500, so a missing record is
    not told apart from any other failure. *)
Theorem update_missing_is_generic_failure (e : Entity) P env (req : Request)
    (st : Store) :
  (List.find (has_id (params_id req)) (st (model_of e)) = None ->
   update_handler e P env req st = (Responded (update_failure e), st))
  /\ (forall r, fst (update_handler e P env req st) = Responded r ->
        (status r = 200 /\ success r = true)
        \/ (r = update_failure e /\ status r = 500 /\ success r = false)).
Proof.
  split.
  - intros Hnone.
    destruct e; simpl in *;
      unfold updateContact, updateAccount, updateActivity, updateDeal,
        updateLead, handler, catch, mbind, M_bind, mret, M_ret, lift, update;
      rewrite Hnone;
      repeat (destruct (when_truthy _ _); cbv beta iota; [|done]); done.
  - intros r.
    destruct e; simpl;
      unfold updateContact, updateAccount, updateActivity, updateDeal,
        updateLead, handler, catch, mbind, M_bind, mret, M_ret, lift;
      repeat (destruct (when_truthy _ _); cbv beta iota;
              [|intros [= <-]; by right]);
      (destruct (update _ _ _ _ _ _) as [[u|err] s]; cbv beta iota;
       [|intros [= <-]; by right]);
      (destruct (_ u) as [shown|]; cbv beta iota; intros [= <-];
       [by left|by right]).
Qed.

Lemma update_missing_is_generic_failure_witness :
  update_handler leads example_platform example_env same_lead_again empty_store
  = (Responded (update_failure leads), empty_store).
Proof.
  exact (proj1 (update_missing_is_generic_failure leads example_platform
                  example_env same_lead_again empty_store) eq_refl).
Defined.

Lemma lookup_set (k k' : string) (v : value) (o : Obj) :
  set k v o !! k'
  = if decide (k = k')
    then match v with VUndef => None | _ => Some v end
    else o !! k'.
Proof.
  unfold set.
  destruct v; case_decide; subst;
    rewrite ?lookup_delete_eq, ?lookup_insert_eq,
            ?lookup_delete_ne, ?lookup_insert_ne by done; done.
Qed.

Lemma when_truthy_absent f (o : Obj) k w :
  o !! k = None -> when_truthy f (get o k) = Ret w -> w = VUndef.
Proof. unfold get. intros ->. by intros [= <-]. Qed.

(** The data of an update hold what the body holds, except for the enum
    fields and the stamp; a key that the body lacks is not in the data. *)
Lemma update_data_keys (e : Entity) (body_ dat : Obj) :
  update_data e body_ = Ret dat ->
  get dat "updatedBy" = VStr "system"
  /\ (forall k, body_ !! k = None -> k ≠ "updatedBy" -> dat !! k = None)
  /\ (forall k, ~ In k (enum_keys e) -> k ≠ "updatedBy" ->
                dat !! k = body_ !! k).
Proof.
  intros H. destruct e; unfold update_data in H; returned H; subst dat;
    (split; [by get_simpl|split]).
  all: intros k Hk Hstamp; rewrite !lookup_set;
       repeat case_decide; subst; try done;
       try (exfalso; apply Hk; simpl; tauto);
       repeat match goal with
       | E : when_truthy _ (get _ _) = Ret _ |- _ =>
           apply (when_truthy_absent _ _ _ _ Hk) in E; subst
       end; done.
Qed.

Lemma length_replaced i row rows : length (replaced i row rows) = length rows.
Proof. unfold replaced. by rewrite length_map. Qed.

Lemma upd_other (m m' : Model) rows (st : Store) :
  m' ≠ m -> upd m rows st m' = st m'.
Proof. intros. unfold upd. by case_decide. Qed.

(** X4.  An update with a body that holds no nested object, when it
    answers 200, rewrites the records that have the id, and nothing else:
    the other records of the table, their order and the other tables stay
    as they were.  The record written is stamped [system] as updater, and
    holds, at every key that the body lacks, what the record held before,
    but for the time of the update. *)
Theorem update_writes_the_body (e : Entity) P env (req : Request)
    (st : Store) r :
  scalar_body (body req) = true ->
  fst (update_handler e P env req st) = Responded r -> status r = 200 ->
  exists old row,
    List.find (has_id (params_id req)) (st (model_of e)) = Some old
    /\ after (update_handler e P env req) st (model_of e)
       = replaced (params_id req) row (st (model_of e))
    /\ length (after (update_handler e P env req) st (model_of e))
       = length (st (model_of e))
    /\ (forall m, m ≠ model_of e ->
          after (update_handler e P env req) st m = st m)
    /\ get row "updatedBy" = VStr "system"
    /\ (forall k, body req !! k = None -> k ≠ "updatedBy" ->
          k ≠ "updatedAt" -> row !! k = old !! k).
Proof.
  intros _ Hrun Hst.
  destruct (updated_inv e P env req st r Hrun Hst)
    as (dat & old & shown & Hdat & Hfind & _ & Hafter & _ & _).
  destruct (update_data_keys e _ _ Hdat) as (Hstamp & Habsent & Hsame).
  exists old, (updated_row env dat old). rewrite Hafter, upd_same.
  split; [done|]. split; [done|]. split; [apply length_replaced|].
  split; [intros m Hm; by apply upd_other|].
  split; [by apply get_union_l|].
  intros k Hk H1 H2. unfold updated_row.
  by rewrite lookup_union_r, lookup_insert_ne by auto.
Qed.

Lemma update_writes_the_body_witness :
  exists old row,
    List.find (has_id "c1") (lead_store lead) = Some old
    /\ after (update_handler leads example_platform example_env
                same_lead_again) lead_store lead
       = replaced "c1" row (lead_store lead)
    /\ get row "updatedBy" = VStr "system"
    /\ row !! "firstName" = old !! "firstName".
Proof.
  edestruct (update_writes_the_body leads example_platform example_env
               same_lead_again lead_store)
    as (old & row & H1 & H2 & H3 & H4 & H5 & H6);
    [reflexivity | vm_compute; reflexivity | reflexivity |].
  exists old, row. split; [exact H1|]. split; [exact H2|].
  split; [exact H5|]. apply H6; [reflexivity|discriminate|discriminate].
Defined.

(** ** Deleting a record that exists *)

Lemma delete_some (m : Model) i (st : Store) old :
  List.find (has_id i) (st m) = Some old ->
  delete_ m i st
  = (Ret old, upd m (List.filter (fun r => negb (has_id i r)) (st m)) st).
Proof. unfold delete_. by intros ->. Qed.

Lemma find_filter_out i (rows : list Obj) :
  List.find (has_id i) (List.filter (fun r => negb (has_id i r)) rows) = None.
Proof.
  induction rows as [|r rows IH]; [done|]. simpl.
  destruct (has_id i r) eqn:E; simpl; [done|]. by rewrite E.
Qed.

(** X5.  When a delete is answered with 200, the id identified a record
    before and identifies none afterwards: reading the id is then answered
    with 404 and deleting it again with the generic 500, and neither
    changes the store. *)
Theorem delete_removes_the_record (e : Entity) (req : Request) (st : Store) r :
  fst (delete_handler e req st) = Responded r -> status r = 200 ->
  is_Some (List.find (has_id (params_id req)) (st (model_of e)))
  /\ List.find (has_id (params_id req))
       (after (delete_handler e req) st (model_of e)) = None
  /\ (exists r', get_handler e req (after (delete_handler e req) st)
                 = (Responded r', after (delete_handler e req) st)
                 /\ status r' = 404 /\ success r' = false)
  /\ (exists r', delete_handler e req (after (delete_handler e req) st)
                 = (Responded r', after (delete_handler e req) st)
                 /\ status r' = 500 /\ success r' = false).
Proof.
  intros Hrun Hst.
  destruct (List.find (has_id (params_id req)) (st (model_of e)))
    as [old|] eqn:Hsome.
  2: { destruct (delete_missing _ _ _ Hsome) as [err Herr].
       assert (exists r0, delete_handler e req st = (Responded r0, st)
                          /\ status r0 = 500) as (r0 & Hr0 & Hs0).
       { destruct e; simpl in *; eexists;
           (split; [eapply handler_catch_throw; unfold mbind, M_bind;
                    by rewrite Herr|reflexivity]). }
       rewrite Hr0 in Hrun. simpl in Hrun. injection Hrun as <-.
       rewrite Hs0 in Hst. done. }
  split; [done|].
  set (st1 := upd (model_of e)
                (List.filter (fun row => negb (has_id (params_id req) row))
                   (st (model_of e))) st).
  assert (List.find (has_id (params_id req)) (st1 (model_of e)) = None)
    as Hgone.
  { unfold st1. rewrite upd_same. apply find_filter_out. }
  destruct (delete_missing _ _ _ Hgone) as [err Herr].
  pose proof (delete_some _ _ _ _ Hsome) as Hdel. fold st1 in Hdel.
  assert (exists r0, delete_handler e req st = (Responded r0, st1))
    as [r0 Hr0].
  { destruct e; simpl in *; eexists; apply handler_catch_ret;
      unfold mbind, M_bind; rewrite Hdel; reflexivity. }
  assert (after (delete_handler e req) st = st1) as ->
    by (unfold after; by rewrite Hr0).
  split; [done|].
  destruct e; simpl in *;
    (split; eexists;
       [split; [by apply get_shape_none|by split]
       |split; [eapply handler_catch_throw; unfold mbind, M_bind;
                by rewrite Herr|by split]]).
Qed.

Lemma delete_removes_the_record_witness :
  stored activityLog ["id"]
    (after (delete_handler activities (request "a1" [] [])) activity_store)
  = [[VStr "a2"]]
  /\ (exists r',
        get_handler activities (request "a1" [] [])
          (after (delete_handler activities (request "a1" [] []))
             activity_store)
        = (Responded r',
           after (delete_handler activities (request "a1" [] []))
             activity_store)
        /\ status r' = 404 /\ success r' = false).
Proof.
  split; [by vm_compute|].
  edestruct (fun r => delete_removes_the_record activities
               (request "a1" [] []) activity_store r)
    as (_ & _ & H & _); [vm_compute; reflexivity | reflexivity |].
  exact H.
Defined.

(** ** Creating *)

(** What a create handler has done when it answers 201. *)
Lemma created_row (e : Entity) P env req (st : Store) r :
  fst (create_handler e P env req st) = Responded r -> status r = 201 ->
  exists dat shown,
    create_data e P (body req) = Ret dat
    /\ accepts P (model_of e) dat = true
    /\ id_taken (new_row P env (model_of e) dat) (st (model_of e)) = false
    /\ after (create_handler e P env req) st
       = upd (model_of e)
           (st (model_of e) ++ [new_row P env (model_of e) dat]) st
    /\ show_of e (new_row P env (model_of e) dat) = Ret shown
    /\ data r = One shown.
Proof.
  intros Hrun Hst. unfold after.
  destruct (create_handler e P env req st) as [res st'] eqn:Hc.
  simpl in Hrun |- *. subst res.
  destruct e; simpl in Hc |- *;
    unfold createContact, createAccount, createActivity, createDeal,
      createLead in Hc;
    (apply created_inv in Hc
       as (dat & shown & Hprep & Hacc & Htaken & -> & Hshow & ->);
       [|done|done]);
    by exists dat, shown.
Qed.

Lemma create_shape_store P env (m : Model) prep (show : Obj -> outcome Obj)
    msg (R : error -> Response) (st : Store) :
  snd (handler (catch
         (data ← lift prep;
          c ← create P env m data;
          shown ← lift (show c);
          mret (json_done 201 shown msg))
         (fun e => mret (R e))) st) = st
  \/ exists c, id_taken c (st m) = false
       /\ snd (handler (catch
                 (data ← lift prep;
                  c ← create P env m data;
                  shown ← lift (show c);
                  mret (json_done 201 shown msg))
                 (fun e => mret (R e))) st)
          = upd m (st m ++ [c]) st.
Proof.
  unfold handler, catch, mbind, M_bind, mret, M_ret, lift, create.
  destruct prep as [dat|]; [|by left].
  destruct (accepts P m dat); simpl; [|by left].
  destruct (id_taken _ _) eqn:Ht; [by left|].
  right. eexists. split; [exact Ht|]. by destruct (show _).
Qed.

(** The store after a create handler, whatever its answer: as it was, or
    with one row more, whose id no other row has. *)
Lemma create_store_cases (e : Entity) P env req (st : Store) :
  after (create_handler e P env req) st = st
  \/ exists c, id_taken c (st (model_of e)) = false
       /\ after (create_handler e P env req) st
          = upd (model_of e) (st (model_of e) ++ [c]) st.
Proof. unfold after. destruct e; apply create_shape_store. Qed.

Lemma filter_out_last i (rows : list Obj) c :
  existsb (has_id i) rows = false -> has_id i c = true ->
  List.filter (fun r => negb (has_id i r)) (rows ++ [c]) = rows.
Proof.
  intros Hrows Hc. rewrite List.filter_app. simpl. rewrite Hc. simpl.
  rewrite app_nil_r. induction rows as [|r rows IH]; [done|].
  simpl in Hrows |- *. apply orb_false_iff in Hrows as [-> Hrows].
  simpl. by rewrite IH.
Qed.

Lemma show_keeps_id (e : Entity) (c shown : Obj) :
  show_of e c = Ret shown -> get shown "id" = get c "id".
Proof.
  intros H. destruct e; simpl in H;
    unfold show_contact, show_account, show_activity, show_deal, show_lead
      in H;
    returned H; subst shown; by get_simpl.
Qed.

(** X6.  Deleting the record that a create has just made from a body
    without nested objects, by the id the create returned, is answered
    with 200 and gives back the store as it was before the create, table
    by table. *)
Theorem create_then_delete_restores (e : Entity) P env (req req' : Request)
    (st : Store) r row i :
  scalar_body (body req) = true ->
  fst (create_handler e P env req st) = Responded r ->
  status r = 201 -> data r = One row -> get row "id" = VStr i ->
  params_id req' = i ->
  exists r',
    fst (delete_handler e req' (after (create_handler e P env req) st))
      = Responded r'
    /\ status r' = 200
    /\ forall m,
         after (delete_handler e req')
           (after (create_handler e P env req) st) m = st m.
Proof.
  intros _ Hrun Hst Hdata Hid Hreq.
  destruct (created_row e P env req st r Hrun Hst)
    as (dat & shown & _ & _ & Htaken & Hafter & Hshow & Hdata').
  rewrite Hdata in Hdata'. injection Hdata' as ->.
  rewrite (show_keeps_id _ _ _ Hshow) in Hid.
  set (c := new_row P env (model_of e) dat) in *.
  pose proof (id_taken_false _ _ _ Hid Htaken) as Hrows.
  pose proof (has_id_true _ _ Hid) as Hc.
  rewrite Hafter. unfold after.
  assert (delete_ (model_of e) i
            (upd (model_of e) (st (model_of e) ++ [c]) st)
          = (Ret c, upd (model_of e) (st (model_of e))
                      (upd (model_of e) (st (model_of e) ++ [c]) st)))
    as Hdel.
  { erewrite delete_some; [|rewrite upd_same; by apply find_app_last].
    by rewrite upd_same, filter_out_last. }
  destruct e; simpl in *;
    unfold deleteContact, deleteAccount, deleteActivity, deleteDeal,
      deleteLead, handler, catch, mbind, M_bind; rewrite Hreq, Hdel;
    (eexists; split; [reflexivity|split; [reflexivity|]]);
    intros m; simpl; unfold upd; by repeat case_decide; subst.
Qed.

Lemma create_then_delete_restores_witness :
  exists r',
    fst (delete_handler contacts (request "c1" [] [])
           (after (create_handler contacts example_platform example_env
                     (jane "ACTIVE")) empty_store)) = Responded r'
    /\ status r' = 200
    /\ forall m,
         after (delete_handler contacts (request "c1" [] []))
           (after (create_handler contacts example_platform example_env
                     (jane "ACTIVE")) empty_store) m = empty_store m.
Proof.
  eapply (create_then_delete_restores contacts example_platform example_env
            (jane "ACTIVE") (request "c1" [] []) empty_store);
    [reflexivity | vm_compute; reflexivity | reflexivity
    | vm_compute; reflexivity | by vm_compute | reflexivity].
Defined.

(** The data of a create carry the stamp; those of contacts, deals and
    leads are built from the columns of the handler alone, those of
    accounts and activities hold whatever else the body holds. *)
Lemma create_data_keys (e : Entity) P (body_ dat : Obj) :
  create_data e P body_ = Ret dat ->
  get dat "createdBy" = VStr "system"
  /\ get dat "updatedBy" = VStr "system"
  /\ match e with
     | contacts => forall k, ~ In k contact_columns -> dat !! k = None
     | deals => forall k, ~ In k deal_columns -> dat !! k = None
     | leads => forall k, ~ In k lead_columns -> dat !! k = None
     | _ => forall k, ~ In k (enum_keys e) -> k ≠ "createdBy" ->
                      k ≠ "updatedBy" -> dat !! k = body_ !! k
     end.
Proof.
  intros H.
  destruct e; unfold create_data, contactData, accountData, activityData,
    dealData, leadData in H; returned H; subst dat;
    (split; [by get_simpl|split; [by get_simpl|]]).
  all: intros k Hk; intros; rewrite !lookup_set;
       repeat case_decide; subst; try done;
       exfalso; apply Hk; simpl; tauto.
Qed.

(** X7.  A create from a body without nested objects that answers 201 has
    added exactly one record, at the end of the table of its entity, and
    touched nothing else; the record is stamped [system] as creator and
    updater, whatever the body says; and when the body holds no [id], the
    record has the generated id, which no record of the table had. *)
Theorem create_appends_one_stamped_row (e : Entity) P env (req : Request)
    (st : Store) r :
  scalar_body (body req) = true ->
  fst (create_handler e P env req st) = Responded r -> status r = 201 ->
  exists c,
    after (create_handler e P env req) st (model_of e)
      = (st (model_of e) ++ [c])%list
    /\ (forall m, m ≠ model_of e ->
          after (create_handler e P env req) st m = st m)
    /\ get c "createdBy" = VStr "system"
    /\ get c "updatedBy" = VStr "system"
    /\ (body req !! "id" = None ->
          get c "id" = VStr (fresh_id env)
          /\ existsb (has_id (fresh_id env)) (st (model_of e)) = false).
Proof.
  intros _ Hrun Hst.
  destruct (created_row e P env req st r Hrun Hst)
    as (dat & shown & Hdat & _ & Htaken & Hafter & _ & _).
  destruct (create_data_keys e P _ _ Hdat) as (Hc & Hu & Hkeys).
  exists (new_row P env (model_of e) dat). rewrite Hafter, upd_same.
  split; [done|]. split; [intros m Hm; by apply upd_other|].
  split; [by apply get_union_l|]. split; [by apply get_union_l|].
  intros Hnoid.
  assert (dat !! "id" = None) as Hid.
  { destruct e; simpl in Hkeys;
      first [ rewrite Hkeys; [done| |done|done]
            | apply Hkeys ];
      simpl; intros H;
      repeat (destruct H as [H|H]; [discriminate H|]); exact H. }
  assert (get (new_row P env (model_of e) dat) "id" = VStr (fresh_id env))
    as Hget.
  { unfold new_row, get. by rewrite lookup_union_r, lookup_insert_eq. }
  split; [done|]. unfold id_taken in Htaken. by rewrite Hget in Htaken.
Qed.

Lemma create_appends_one_stamped_row_witness :
  exists c,
    after (create_handler leads example_platform example_env
             (request "" [] [("name", VStr "Ann Lee");
                             ("createdBy", VStr "mallory")]))
      empty_store (model_of leads) = [c]
    /\ get c "createdBy" = VStr "system"
    /\ get c "id" = VStr "c1".
Proof.
  edestruct (create_appends_one_stamped_row leads example_platform
               example_env
               (request "" [] [("name", VStr "Ann Lee");
                               ("createdBy", VStr "mallory")]) empty_store)
    as (c & H1 & H2 & H3 & H4 & H5);
    [reflexivity | vm_compute; reflexivity | reflexivity |].
  exists c. split; [exact H1|]. split; [exact H3|].
  exact (proj1 (H5 eq_refl)).
Defined.

(** X8.  What of the body reaches the store through a create handler that
    picks its columns ([createContact], [createDeal], [createLead]), when
    it answers 201: only the columns of the handler do.  At any other key
    the new record holds what the store generates or defaults, as if the
    body were empty. *)
Theorem create_takes_from_the_body (e : Entity) P env (req : Request)
    (st : Store) r cols :
  scalar_body (body req) = true ->
  listed_columns e = Some cols ->
  fst (create_handler e P env req st) = Responded r -> status r = 201 ->
  exists c,
    after (create_handler e P env req) st (model_of e)
      = (st (model_of e) ++ [c])%list
    /\ forall k, ~ In k cols ->
         c !! k = new_row P env (model_of e) ∅ !! k.
Proof.
  intros _ Hcols Hrun Hst.
  destruct (created_row e P env req st r Hrun Hst)
    as (dat & shown & Hdat & _ & Htaken & Hafter & _ & _).
  destruct (create_data_keys e P _ _ Hdat) as (_ & _ & Hkeys).
  exists (new_row P env (model_of e) dat). rewrite Hafter, upd_same.
  split; [done|].
  destruct e; simpl in *; try discriminate Hcols;
    injection Hcols as <-; unfold new_row;
    intros k Hk; by rewrite !lookup_union_r by (by apply Hkeys || done).
Qed.

Lemma create_takes_from_the_body_witness :
  exists c,
    after (create_handler leads example_platform example_env
             (request "" [] [("name", VStr "Ann Lee");
                             ("isAdmin", VBool true)]))
      empty_store (model_of leads) = [c]
    /\ c !! "isAdmin" = None.
Proof.
  edestruct (create_takes_from_the_body leads example_platform example_env
               (request "" [] [("name", VStr "Ann Lee");
                               ("isAdmin", VBool true)]) empty_store)
    as (c & H1 & H2);
    [reflexivity | reflexivity | vm_compute; reflexivity | reflexivity |].
  exists c. split; [exact H1|]. rewrite H2; [reflexivity|].
  simpl. intros H. repeat (destruct H as [H|H]; [discriminate H|]). exact H.
Defined.

(** ** Ids stay distinct *)

Lemma has_id_spec i (r : Obj) : has_id i r = true <-> get r "id" = VStr i.
Proof.
  unfold has_id. destruct (get r "id") as [| | | |s| |]; try (split; done).
  rewrite String.eqb_eq. split; congruence.
Qed.

Lemma ids_distinct_app_last (rows : list Obj) c :
  ids_distinct rows = true -> id_taken c rows = false ->
  ids_distinct (rows ++ [c]) = true.
Proof.
  induction rows as [|r rows IH]; simpl; intros Hd Hc.
  - by rewrite id_taken_nil.
  - apply andb_true_iff in Hd as [Hr Hd]. apply negb_true_iff in Hr.
    assert (id_taken c rows = false) as Hc'.
    { unfold id_taken in *. destruct (get c "id"); try done.
      simpl in Hc. by apply orb_false_iff in Hc as [_ ?]. }
    rewrite (IH Hd Hc'), andb_true_r, negb_true_iff.
    unfold id_taken in *.
    destruct (get r "id") as [| | | |i| |] eqn:Er; try done.
    rewrite existsb_app, Hr. simpl. rewrite orb_false_r.
    destruct (has_id i c) eqn:Ei; [|done].
    apply has_id_spec in Ei. rewrite Ei in Hc. simpl in Hc.
    apply orb_false_iff in Hc as [Hc _].
    unfold has_id in Hc. rewrite Er, String.eqb_refl in Hc. done.
Qed.

Lemma existsb_filter_false {A} (f p : A -> bool) l :
  existsb f l = false -> existsb f (List.filter p l) = false.
Proof.
  induction l as [|x l IH]; simpl; [done|].
  intros H. apply orb_false_iff in H as [Hx Hl].
  destruct (p x); simpl; rewrite ?Hx; auto.
Qed.

Lemma ids_distinct_filter (p : Obj -> bool) rows :
  ids_distinct rows = true -> ids_distinct (List.filter p rows) = true.
Proof.
  induction rows as [|r rows IH]; simpl; [done|].
  intros Hd. apply andb_true_iff in Hd as [Hr Hd].
  destruct (p r); simpl; [|auto].
  rewrite (IH Hd), andb_true_r. apply negb_true_iff in Hr.
  apply negb_true_iff. unfold id_taken in *.
  destruct (get r "id"); try done. by apply existsb_filter_false.
Qed.

Lemma ids_distinct_same_ids (f : Obj -> Obj) rows :
  (forall r, get (f r) "id" = get r "id") ->
  ids_distinct (List.map f rows) = ids_distinct rows.
Proof.
  intros Hf. induction rows as [|r rows IH]; simpl; [done|].
  rewrite IH. f_equal. f_equal. unfold id_taken. rewrite Hf.
  destruct (get r "id") as [| | | |i| |]; try done.
  assert (forall x, has_id i (f x) = has_id i x) as Hh.
  { intros x. unfold has_id. by rewrite Hf. }
  clear IH. induction rows as [|x rows IHr]; simpl; [done|].
  by rewrite Hh, IHr.
Qed.

Lemma delete_store_cases (e : Entity) (req : Request) (st : Store) :
  after (delete_handler e req) st = st
  \/ after (delete_handler e req) st
     = upd (model_of e)
         (List.filter (fun r => negb (has_id (params_id req) r))
            (st (model_of e))) st.
Proof.
  unfold after.
  destruct (List.find (has_id (params_id req)) (st (model_of e)))
    as [old|] eqn:Hfind.
  - right. pose proof (delete_some _ _ _ _ Hfind) as Hdel.
    destruct e; simpl in *;
      unfold deleteContact, deleteAccount, deleteActivity, deleteDeal,
        deleteLead, handler, catch, mbind, M_bind; by rewrite Hdel.
  - left. destruct (delete_missing _ _ _ Hfind) as [err Hdel].
    destruct e; simpl in *;
      unfold deleteContact, deleteAccount, deleteActivity, deleteDeal,
        deleteLead, handler, catch, mbind, M_bind; by rewrite Hdel.
Qed.

(** An update handler prepares its data, updates and shows the record. *)
Lemma update_handler_shape (e : Entity) P env (req : Request) (st : Store) :
  update_handler e P env req st
  = handler (catch
      (dat ← lift (update_data e (body req));
       u ← update P env (model_of e) (params_id req) dat;
       shown ← lift (show_of e u);
       mret (json_done 200 shown (update_message e)))
      (fun _ => mret (update_failure e))) st.
Proof.
  destruct e; simpl;
    unfold updateContact, updateAccount, updateActivity, updateDeal,
      updateLead, handler, catch, mbind, M_bind, mret, M_ret, lift,
      outcome_bind, outcome_ret;
    repeat match goal with
    | |- context [when_truthy ?f ?v] => destruct (when_truthy f v)
    end; reflexivity.
Qed.

Lemma update_shape_store P env (m : Model) i prep (show : Obj -> outcome Obj)
    msg (R : error -> Response) (st : Store) :
  snd (handler (catch
         (dat ← lift prep;
          u ← update P env m i dat;
          shown ← lift (show u);
          mret (json_done 200 shown msg))
         (fun e => mret (R e))) st) = st
  \/ exists dat old,
       prep = Ret dat /\ List.find (has_id i) (st m) = Some old
       /\ snd (handler (catch
                 (dat ← lift prep;
                  u ← update P env m i dat;
                  shown ← lift (show u);
                  mret (json_done 200 shown msg))
                 (fun e => mret (R e))) st)
          = upd m (replaced i (updated_row env dat old) (st m)) st.
Proof.
  unfold handler, catch, mbind, M_bind, mret, M_ret, lift, update.
  destruct prep as [dat|]; [|by left].
  destruct (List.find _ _) as [old|]; [|by left].
  destruct (accepts P m dat); simpl; [|by left].
  right. exists dat, old. split; [done|]. split; [done|].
  by destruct (show _).
Qed.

Lemma update_store_cases (e : Entity) P env (req : Request) (st : Store) :
  after (update_handler e P env req) st = st
  \/ exists dat old,
       update_data e (body req) = Ret dat
       /\ List.find (has_id (params_id req)) (st (model_of e)) = Some old
       /\ after (update_handler e P env req) st
          = upd (model_of e)
              (replaced (params_id req) (updated_row env dat old)
                 (st (model_of e))) st.
Proof.
  unfold after. rewrite update_handler_shape. apply update_shape_store.
Qed.

(** X9.  If no two records of a table have the same id, this is still so
    after any create and any delete, whatever the request and the answer,
    and after any update whose body does not name the id. *)
Theorem ids_stay_distinct (e : Entity) P env (req : Request) (st : Store)
    (m : Model) :
  ids_distinct (st m) = true ->
  ids_distinct (after (create_handler e P env req) st m) = true
  /\ ids_distinct (after (delete_handler e req) st m) = true
  /\ (body req !! "id" = None ->
      ids_distinct (after (update_handler e P env req) st m) = true).
Proof.
  intros Hd. split; [|split].
  - destruct (create_store_cases e P env req st) as [->|(c & Hc & ->)];
      [done|].
    unfold upd. case_decide; subst; [|done]. by apply ids_distinct_app_last.
  - destruct (delete_store_cases e req st) as [->| ->]; [done|].
    unfold upd. case_decide; subst; [|done]. by apply ids_distinct_filter.
  - intros Hid.
    destruct (update_store_cases e P env req st)
      as [->|(dat & old & Hdat & Hfind & ->)]; [done|].
    unfold upd. case_decide; subst; [|done].
    unfold replaced. rewrite ids_distinct_same_ids; [done|].
    intros r0. destruct (has_id (params_id req) r0) eqn:Hr; [|done].
    apply has_id_spec in Hr. rewrite Hr.
    destruct (update_data_keys e _ _ Hdat) as (_ & Habsent & _).
    apply find_some in Hfind as [_ Hold]. apply has_id_spec in Hold.
    unfold updated_row, get.
    rewrite lookup_union_r, lookup_insert_ne by (by apply Habsent || done).
    exact Hold.
Qed.

Lemma ids_stay_distinct_witness :
  ids_distinct (lead_store lead) = true
  /\ ids_distinct (after (create_handler leads example_platform
                            {| now := 1700000000001; fresh_id := "c2" |}
                            new_lead) lead_store lead) = true
  /\ ids_distinct (after (update_handler leads example_platform example_env
                            same_lead_again) lead_store lead) = true.
Proof.
  split; [by vm_compute|].
  destruct (ids_stay_distinct leads example_platform
              {| now := 1700000000001; fresh_id := "c2" |} new_lead
              lead_store lead) as (H1 & _ & _); [by vm_compute|].
  destruct (ids_stay_distinct leads example_platform example_env
              same_lead_again lead_store lead) as (_ & _ & H3);
    [by vm_compute|].
  split; [exact H1|]. apply H3. reflexivity.
Defined.

(** ** The size of a page *)

Lemma list_handler_shape (e : Entity) (req : Request) (st : Store) :
  list_handler e req st
  = handler (catch
      (rows ← findMany (model_of e) (matching e req)
                ((page_of req - 1) * limit_of req) (limit_of req)
                (order_key e);
       total ← count (model_of e) (matching e req);
       shown ← lift (mapM (show_of e) rows);
       mret (json_page shown
               (pagination_of (page_of req) (limit_of req) total)))
      (fun _ => mret (list_failure e))) st.
Proof. by destruct e. Qed.

Lemma showable_In (e : Entity) (st : Store) :
  showable e st = true ->
  forall row, In row (st (model_of e)) -> exists o, show_of e row = Ret o.
Proof.
  intros Hall row Hin. unfold showable in Hall.
  rewrite forallb_forall in Hall. specialize (Hall row Hin).
  destruct (show_of e row); [eauto|done].
Qed.

(** X10.  The number of items on a page.  For a positive page [p] and
    limit [n], on a store whose rows can be shown, a list handler answers
    200 with exactly [min n (max 0 (total - (p - 1) * n))] items, where
    [total] is the number of matching records: full pages, then the rest,
    then, past the last page, no item at all. *)
Theorem list_page_size (e : Entity) (req : Request) (st : Store) :
  1 <= page_of req -> 1 <= limit_of req -> showable e st = true ->
  exists r shown,
    list_handler e req st = (Responded r, st)
    /\ status r = 200 /\ data r = Many shown
    /\ Z.of_nat (length shown)
       = Z.min (limit_of req)
           (Z.max 0
              (Z.of_nat (length (List.filter (matching e req)
                                   (st (model_of e))))
               - (page_of req - 1) * limit_of req)).
Proof.
  intros Hp Hn Hall.
  destruct (listed (model_of e) (matching e req) (order_key e) (show_of e)
              (page_of req) (limit_of req)
              (fun _ => mret (list_failure e)) st Hp Hn
              (showable_In e st Hall)) as (shown & Hrun & HF).
  eexists _, shown. rewrite list_handler_shape.
  split; [exact Hrun|]. split; [done|]. split; [done|].
  rewrite <- (Forall2_length _ _ _ HF), length_take, length_drop.
  rewrite (Permutation_length (merge_sort_Permutation _ _)).
  assert (0 <= (page_of req - 1) * limit_of req) by nia.
  lia.
Qed.

Lemma list_page_size_witness :
  exists r shown,
    list_handler activities second_page activity_store
    = (Responded r, activity_store)
    /\ status r = 200 /\ data r = Many shown
    /\ Z.of_nat (length shown)
       = Z.min (limit_of second_page)
           (Z.max 0
              (Z.of_nat (length (List.filter (matching activities second_page)
                                   (activity_store (model_of activities))))
               - (page_of second_page - 1) * limit_of second_page)).
Proof.
  apply (list_page_size activities second_page activity_store);
    by vm_compute.
Defined.

(** ** Searching *)

Lemma prefixb_spec p s : prefixb p s = true <-> exists b, s = p ++ b.
Proof.
  revert s. induction p as [|c p IH]; intros s; simpl.
  - split; [eauto|done].
  - destruct s as [|d s]; [split; [done|by intros [b Hb]]|].
    rewrite andb_true_iff, Ascii.eqb_eq, IH. split.
    + intros [-> [b ->]]. by exists b.
    + intros [b [= -> ->]]. eauto.
Qed.

Lemma substringb_spec p s :
  substringb p s = true <-> exists a b, s = a ++ p ++ b.
Proof.
  induction s as [|d s IH].
  - simpl. rewrite orb_false_r, prefixb_spec. split.
    + intros [b Hb]. by exists "", b.
    + intros (a & b & H). destruct a; [by exists b|done].
  - simpl. rewrite orb_true_iff, prefixb_spec, IH. split.
    + intros [[b Hb]|(a & b & ->)]; [by exists "", b|by exists (String d a), b].
    + intros (a & b & H). destruct a as [|c a]; [left; by exists b|].
      right. injection H as -> ->. by exists a, b.
Qed.

Lemma lower_upper_char c : lower_char (upper_char c) = lower_char c.
Proof. by destruct c as [[] [] [] [] [] [] [] []]. Qed.

Lemma lower_lower_char c : lower_char (lower_char c) = lower_char c.
Proof. by destruct c as [[] [] [] [] [] [] [] []]. Qed.

Lemma toLowerCase_toUpperCase s : toLowerCase (toUpperCase s) = toLowerCase s.
Proof.
  unfold toLowerCase, toUpperCase.
  induction s as [|c s IH]; simpl; [done|]. by rewrite lower_upper_char, IH.
Qed.

Lemma toLowerCase_idemp s : toLowerCase (toLowerCase s) = toLowerCase s.
Proof.
  unfold toLowerCase.
  induction s as [|c s IH]; simpl; [done|]. by rewrite lower_lower_char, IH.
Qed.

Lemma toUpperCase_empty s : toUpperCase s = "" <-> s = "".
Proof. by destruct s. Qed.

(** X11.  The search filter of the contact and account lists.  Without a
    search term, or with the empty one, every record matches.  With a term
    that holds none of the characters [_], [%] and backslash, which the
    database reads as wildcards or escapes, a record matches exactly when
    one of the searched fields holds a string that contains the term, both
    taken in lower case; a field that holds no string does not count. *)
Theorem search_is_substring_match (search : option string) (ks : list string)
    (r : Obj) :
  (search = None \/ search = Some "" -> where_of search ks r = true)
  /\ (forall s, search = Some s -> s ≠ "" ->
        any_char is_wildcard s = false ->
        (where_of search ks r = true <->
         exists k v a b,
           In k ks /\ get r k = VStr v
           /\ toLowerCase v = a ++ toLowerCase s ++ b)).
Proof.
  split.
  - by intros [-> | ->].
  - intros s -> Hs _. unfold where_of.
    destruct (String.eqb_spec s ""); [done|].
    rewrite existsb_exists. split.
    + intros (k & Hk & Hf). unfold field_contains in Hf.
      destruct (get r k) as [| | | |v| |] eqn:Ev; try done.
      apply substringb_spec in Hf as (a & b & Hab). by exists k, v, a, b.
    + intros (k & v & a & b & Hk & Ev & Hab). exists k. split; [done|].
      unfold field_contains. rewrite Ev. apply substringb_spec. eauto.
Qed.

Lemma search_is_substring_match_witness :
  where_of (Some "acme") ["accountName"; "industry"]
    (list_to_map [("accountName", VStr "Acme Corp")]) = true.
Proof.
  apply (proj2 (search_is_substring_match (Some "acme")
                  ["accountName"; "industry"]
                  (list_to_map [("accountName", VStr "Acme Corp")]))
           "acme" eq_refl); [discriminate|reflexivity|].
  exists "accountName", "Acme Corp", "", " corp".
  split; [by left|]. split; reflexivity.
Defined.

(** X12.  The search does not look at the case: putting the term in upper
    or in lower case changes nothing for any record, and neither does the
    case of the text in the searched field. *)
Theorem search_ignores_case (s : string) (ks : list string) (r : Obj) :
  where_of (Some (toUpperCase s)) ks r = where_of (Some s) ks r
  /\ where_of (Some (toLowerCase s)) ks r = where_of (Some s) ks r
  /\ forall k v,
       field_contains k s (<[k := VStr (toUpperCase v)]> r)
       = field_contains k s (<[k := VStr v]> r).
Proof.
  assert (forall s1 s2, toLowerCase s1 = toLowerCase s2 ->
            existsb (fun k => field_contains k s1 r) ks
            = existsb (fun k => field_contains k s2 r) ks) as Hext.
  { intros s1 s2 H12. induction ks as [|k ks' IH]; simpl; [done|].
    rewrite IH. f_equal. unfold field_contains, contains_insensitive.
    by rewrite H12. }
  split; [|split].
  - unfold where_of.
    destruct (String.eqb_spec s "") as [->|Hs]; [done|].
    destruct (String.eqb_spec (toUpperCase s) "") as [H|_];
      [by destruct s|].
    apply Hext, toLowerCase_toUpperCase.
  - unfold where_of.
    destruct (String.eqb_spec s "") as [->|Hs]; [done|].
    destruct (String.eqb_spec (toLowerCase s) "") as [H|_];
      [by destruct s|].
    apply Hext, toLowerCase_idemp.
  - intros k v. unfold field_contains, get.
    rewrite !lookup_insert_eq. simpl. unfold contains_insensitive.
    by rewrite toLowerCase_toUpperCase.
Qed.

(** ** Normal forms of the enum transforms *)

Lemma upper_char_facts c :
  upper_char (upper_char c) = upper_char c
  /\ is_space (upper_char c) = is_space c
  /\ is_lower (upper_char c) = false
  /\ Ascii.eqb (upper_char c) "_" = Ascii.eqb c "_"
  /\ Ascii.eqb (upper_char c) " " = Ascii.eqb c " ".
Proof. by destruct c as [[] [] [] [] [] [] [] []]. Qed.

Lemma toUpperCase_idemp s : toUpperCase (toUpperCase s) = toUpperCase s.
Proof.
  unfold toUpperCase. induction s as [|c s IH]; simpl; [done|].
  by rewrite (proj1 (upper_char_facts c)), IH.
Qed.

Lemma replace_ws_go_upper b s :
  replace_ws_go b (toUpperCase s) = toUpperCase (replace_ws_go b s).
Proof.
  unfold toUpperCase. revert b. induction s as [|c s IH]; intros b; [done|].
  simpl. destruct (upper_char_facts c) as (_ & -> & _).
  destruct (is_space c); [destruct b|]; simpl; by rewrite IH.
Qed.

Lemma replace_first_upper (a b : ascii) s :
  (forall c, Ascii.eqb (upper_char c) a = Ascii.eqb c a) ->
  upper_char b = b ->
  replace_first a b (toUpperCase s) = toUpperCase (replace_first a b s).
Proof.
  intros Ha Hb. unfold toUpperCase.
  induction s as [|c s IH]; [done|]. simpl. rewrite Ha.
  destruct (Ascii.eqb c a); simpl; by rewrite ?Hb, ?IH.
Qed.

Lemma replace_all_upper s :
  replace_all "_" " " (toUpperCase s) = toUpperCase (replace_all "_" " " s).
Proof.
  unfold toUpperCase. induction s as [|c s IH]; [done|]. simpl.
  destruct (upper_char_facts c) as (_ & _ & _ & -> & _).
  rewrite IH. by destruct (Ascii.eqb c "_").
Qed.

Lemma replace_ws_go_no_space b s :
  any_char is_space (replace_ws_go b s) = false.
Proof.
  revert b. induction s as [|c s IH]; intros b; [done|]. simpl.
  destruct (is_space c) eqn:Ec; [destruct b|]; simpl; by rewrite ?Ec, ?IH.
Qed.

Lemma replace_ws_go_fixed b s :
  any_char is_space s = false -> replace_ws_go b s = s.
Proof.
  revert b. induction s as [|c s IH]; intros b; [done|]. simpl.
  intros H. apply orb_false_iff in H as [-> H]. by rewrite IH.
Qed.

Lemma any_char_upper (p : ascii -> bool) s :
  (forall c, p (upper_char c) = p c) ->
  any_char p (toUpperCase s) = any_char p s.
Proof.
  intros Hp. unfold toUpperCase.
  induction s as [|c s IH]; simpl; [done|]. by rewrite Hp, IH.
Qed.

Lemma toStorage_no_space s : any_char is_space (toStorage s) = false.
Proof.
  unfold toStorage, replace_ws_runs.
  rewrite any_char_upper by apply upper_char_facts.
  apply replace_ws_go_no_space.
Qed.

Lemma includes_any c s : includes c s = any_char (fun d => Ascii.eqb d c) s.
Proof. induction s as [|d s IH]; simpl; [done|]. by rewrite IH. Qed.

(** X13.  The storage form written with the global replacement is a normal
    form: it holds no white space and no lower-case letter, and storing it
    again changes nothing.  The display form read with the global
    replacement holds no underscore, has the length of the stored value,
    and displaying it again changes nothing. *)
Theorem enum_normal_forms (s : string) :
  any_char is_space (toStorage s) = false
  /\ any_char is_lower (toStorage s) = false
  /\ toStorage (toStorage s) = toStorage s
  /\ includes "_" (toDisplay s) = false
  /\ String.length (toDisplay s) = String.length s
  /\ toDisplay (toDisplay s) = toDisplay s.
Proof.
  split; [apply toStorage_no_space|]. split; [|split; [|split; [|split]]].
  - unfold toStorage, toUpperCase.
    induction (replace_ws_runs s) as [|c r IH]; simpl; [done|].
    by rewrite (proj1 (proj2 (proj2 (upper_char_facts c)))), IH.
  - pose proof (toStorage_no_space s) as Hs. unfold toStorage at 1.
    unfold replace_ws_runs. rewrite (replace_ws_go_fixed _ _ Hs).
    unfold toStorage. apply toUpperCase_idemp.
  - unfold toDisplay. induction s as [|c s IH]; simpl; [done|].
    rewrite IH. by destruct (Ascii.eqb c "_") eqn:E; simpl; rewrite ?E.
  - unfold toDisplay. induction s as [|c s IH]; simpl; [done|]. by rewrite IH.
  - unfold toDisplay. induction s as [|c s IH]; simpl; [done|].
    rewrite IH. by destruct (Ascii.eqb c "_") eqn:E; simpl; rewrite ?E.
Qed.

(** ** Reading a field and writing it back *)

Lemma replace_first_back_space s :
  replace_first " " "_" (replace_first "_" " " (replace_first " " "_" s))
  = replace_first " " "_" s.
Proof.
  induction s as [|c s IH]; [done|]. simpl.
  destruct (Ascii.eqb_spec c " ") as [->|Hc]; [done|]. simpl.
  destruct (Ascii.eqb_spec c "_") as [->|Hu]; [done|]. simpl.
  apply Ascii.eqb_neq in Hc. by rewrite Hc, IH.
Qed.

Lemma replace_first_back s :
  any_char is_space s = false ->
  replace_first " " "_" (replace_first "_" " " s) = s.
Proof.
  induction s as [|c s IH]; [done|]. simpl. intros H.
  apply orb_false_iff in H as [Hc H].
  destruct (Ascii.eqb_spec c "_") as [->|Hu]; [done|]. simpl.
  destruct (Ascii.eqb_spec c " ") as [->|_]; [done|]. by rewrite IH.
Qed.

Lemma replace_ws_back s :
  any_char is_space s = false ->
  replace_ws_go false (replace_first "_" " " s) = s.
Proof.
  induction s as [|c s IH]; [done|]. simpl. intros H.
  apply orb_false_iff in H as [Hc H].
  destruct (Ascii.eqb_spec c "_") as [->|Hu].
  - simpl. by rewrite replace_ws_go_fixed.
  - simpl. by rewrite Hc, IH.
Qed.

Lemma replace_ws_all_back b s :
  includes "_" s = false ->
  replace_ws_go b (replace_all "_" " " (replace_ws_go b s))
  = replace_ws_go b s.
Proof.
  revert b. induction s as [|c s IH]; intros b; [done|]. simpl. intros H.
  apply orb_false_iff in H as [Hc H].
  destruct (is_space c) eqn:Es.
  - destruct b; simpl; by rewrite IH.
  - simpl. rewrite Hc, Es. by rewrite IH.
Qed.

(** Reading a stored value and storing what was read gives the stored
    value again, for every field and the transforms its handlers use. *)
Lemma field_edit_cycle (f : EnumField) d :
  includes "_" d = false ->
  update_toStorage f (read_toDisplay f (create_toStorage f d))
  = create_toStorage f d.
Proof.
  intros Hd.
  assert (toStorage (toDisplay (toStorage d)) = toStorage d) as GGG.
  { unfold toStorage, toDisplay, replace_ws_runs.
    rewrite replace_all_upper, replace_ws_go_upper, toUpperCase_idemp.
    by rewrite replace_ws_all_back. }
  assert (toStorage_first (toDisplay_first (toStorage_first d))
          = toStorage_first d) as FFF.
  { unfold toStorage_first, toDisplay_first.
    rewrite !replace_first_upper, toUpperCase_idemp
      by (done || intros c; apply upper_char_facts).
    by rewrite replace_first_back_space. }
  assert (any_char is_space (replace_ws_go false d) = false) as Hns
    by apply replace_ws_go_no_space.
  assert (toStorage_first (toDisplay_first (toStorage d)) = toStorage d)
    as GFF.
  { unfold toStorage_first, toDisplay_first, toStorage, replace_ws_runs.
    rewrite !replace_first_upper, toUpperCase_idemp
      by (done || intros c; apply upper_char_facts).
    by rewrite replace_first_back. }
  assert (toStorage (toDisplay_first (toStorage d)) = toStorage d) as GFG.
  { unfold toDisplay_first, toStorage, replace_ws_runs.
    rewrite !replace_first_upper, replace_ws_go_upper, toUpperCase_idemp
      by (done || intros c; apply upper_char_facts).
    by rewrite replace_ws_back. }
  by destruct f.
Qed.

Lemma shown_nonempty (f : EnumField) x : x ≠ "" -> read_toDisplay f x ≠ "".
Proof.
  destruct x as [|c r]; [done|]. intros _.
  destruct f; simpl; unfold toDisplay, toDisplay_first; simpl;
    by destruct (Ascii.eqb c "_").
Qed.

Lemma created_nonempty (f : EnumField) d : d ≠ "" -> create_toStorage f d ≠ "".
Proof. intros H. destruct (stored_nonempty d H). by destruct f. Qed.

(** What becomes of an enum field in an update that answers 200: the
    field is stored in the form the update handler gives it and sent in
    the form the read transform gives to the stored value. *)
Lemma updated_field (f : EnumField) P env req st r v :
  v ≠ "" ->
  get (body req) (field_key f) = VStr v ->
  fst (update_handler (field_entity f) P env req st) = Responded r ->
  status r = 200 ->
  exists old row shown,
    List.find (has_id (params_id req)) (st (model_of (field_entity f)))
      = Some old
    /\ after (update_handler (field_entity f) P env req) st
         (model_of (field_entity f))
       = replaced (params_id req) row (st (model_of (field_entity f)))
    /\ get row (field_key f) = VStr (update_toStorage f v)
    /\ data r = One shown
    /\ get shown (field_key f)
       = VStr (read_toDisplay f (update_toStorage f v)).
Proof.
  intros Hne Hb Hrun Hst.
  destruct (updated_inv _ P env req st r Hrun Hst)
    as (dat & old & shown & Hdat & Hfind & _ & Hafter & Hshow & Hdata).
  exists old, (updated_row env dat old), shown.
  rewrite Hafter, upd_same. split; [done|]. split; [done|].
  destruct (stored_nonempty v Hne) as [N1 N2].
  assert (get (updated_row env dat old) (field_key f)
          = VStr (update_toStorage f v)) as Hk.
  { apply get_union_l; [|done].
    destruct f; simpl in Hb |- *;
      cbv beta iota delta [field_entity update_data] in Hdat;
      rewrite Hb in Hdat; rewrite when_truthy_str in Hdat by done;
      returned Hdat; subst dat; by get_simpl. }
  split; [done|]. split; [done|].
  destruct f; simpl in Hshow, Hk |- *;
    unfold show_contact, show_account, show_activity, show_deal, show_lead
      in Hshow;
    rewrite Hk in Hshow;
    rewrite ?when_truthy_str in Hshow by done;
    cbn [call opt_call] in Hshow; returned Hshow;
    rewrite <- Hshow; by get_simpl.
Qed.

(** X14.  Editing a record without touching an enum field keeps the stored
    value: when the field was created from a value without underscore,
    and an update that answers 200 submits the field as the read handlers
    show it, the update stores the value that the create stored and shows
    the value that was submitted. *)
Theorem edit_cycle_keeps_enum_field (f : EnumField) P env req st r d :
  d ≠ "" -> includes "_" d = false ->
  get (body req) (field_key f)
    = VStr (read_toDisplay f (create_toStorage f d)) ->
  fst (update_handler (field_entity f) P env req st) = Responded r ->
  status r = 200 ->
  exists old row shown,
    List.find (has_id (params_id req)) (st (model_of (field_entity f)))
      = Some old
    /\ after (update_handler (field_entity f) P env req) st
         (model_of (field_entity f))
       = replaced (params_id req) row (st (model_of (field_entity f)))
    /\ get row (field_key f) = VStr (create_toStorage f d)
    /\ data r = One shown
    /\ get shown (field_key f)
       = VStr (read_toDisplay f (create_toStorage f d)).
Proof.
  intros Hne Hd Hb Hrun Hst.
  destruct (updated_field f P env req st r _
              (shown_nonempty f _ (created_nonempty f d Hne)) Hb Hrun Hst)
    as (old & row & shown & H1 & H2 & H3 & H4 & H5).
  rewrite (field_edit_cycle f d Hd) in H3, H5. by exists old, row, shown.
Qed.

Lemma edit_cycle_keeps_enum_field_witness :
  exists row shown,
    after (update_handler (field_entity lead_status) example_platform
             example_env (request "c1" [] [("status", VStr "DO NOT_CALL")]))
      lead_store lead
      = replaced "c1" row (lead_store lead)
    /\ get row "status" = VStr "DO_NOT_CALL"
    /\ get shown "status" = VStr "DO NOT_CALL".
Proof.
  edestruct (fun r => edit_cycle_keeps_enum_field lead_status
               example_platform example_env
               (request "c1" [] [("status", VStr "DO NOT_CALL")])
               lead_store r "Do Not Call")
    as (old & row & shown & H1 & H2 & H3 & H4 & H5);
    [discriminate | reflexivity | reflexivity | vm_compute; reflexivity
    | reflexivity |].
  exists row, shown. split; [exact H2|]. split; [exact H3|exact H5].
Defined.

(** ** The reverse lookup in an enum mapping *)

Lemma mapping_get_In (m : list (string * string)) k s :
  mapping_get m k = VStr s -> In (k, s) m.
Proof.
  induction m as [|[k' s'] m IH]; simpl; [done|].
  destruct (String.eqb_spec k' k) as [->|_]; [intros [= ->]; by left|].
  intros H. right. by apply IH.
Qed.

Lemma In_mapping_get (m : list (string * string)) k s :
  NoDup (List.map fst m) -> In (k, s) m -> mapping_get m k = VStr s.
Proof.
  induction m as [|[k' s'] m IH]; simpl; [done|].
  intros Hnd [[= -> ->]|Hin]; [by rewrite String.eqb_refl|].
  apply NoDup_cons in Hnd as [Hk' Hnd].
  destruct (String.eqb_spec k' k) as [->|_]; [|by apply IH].
  destruct Hk'. apply list_elem_of_In, List.in_map_iff. by exists (k, s).
Qed.

Lemma find_value_first (m : list (string * string)) k s :
  NoDup (List.map snd m) -> In (k, s) m ->
  List.find (fun kv => strict_eq_str (snd kv) (VStr s)) m = Some (k, s).
Proof.
  induction m as [|[k' s'] m IH]; simpl; [done|].
  intros Hnd Hin. apply NoDup_cons in Hnd as [Hs' Hnd].
  destruct Hin as [[= -> ->]|Hin]; [by rewrite String.eqb_refl|].
  destruct (String.eqb_spec s' s) as [->|_]; [|by apply IH].
  destruct Hs'. apply list_elem_of_In, List.in_map_iff. by exists (k, s).
Qed.

(** X15.  The reverse lookup of an enum mapping.  A falsy value gives
    [undefined] and a truthy value never does.  A result that is not the
    value itself is a key under which the mapping holds the value.  When
    no two keys hold the same string, a string that the mapping holds
    under a key that is not empty is mapped back to that key. *)
Theorem mapEnumValue_reverse_lookup (enumMapping : list (string * string))
    (v : value) :
  NoDup (List.map fst enumMapping) ->
  (truthy v = false -> mapEnumValue v enumMapping = VUndef)
  /\ (truthy v = true -> truthy (mapEnumValue v enumMapping) = true)
  /\ (forall r, mapEnumValue v enumMapping = r -> r ≠ v -> truthy v = true ->
        exists k, r = VStr k /\ mapping_get enumMapping k = v)
  /\ (forall k s, NoDup (List.map snd enumMapping) ->
        mapping_get enumMapping k = VStr s -> k ≠ "" -> s ≠ "" ->
        mapEnumValue (VStr s) enumMapping = VStr k).
Proof.
  intros Hkeys. unfold mapEnumValue, js_or. split; [by intros ->|].
  split; [|split].
  - intros Hv. rewrite Hv. simpl.
    destruct (List.find _ enumMapping) as [kv|]; simpl; [|done].
    destruct (String.eqb (fst kv) "") eqn:E; simpl; [done|]. by rewrite E.
  - intros r Hr Hne Hv. rewrite Hv in Hr. simpl in Hr.
    destruct (List.find _ enumMapping) as [[k s]|] eqn:Hfind; simpl in Hr;
      [|congruence].
    destruct (String.eqb k ""); simpl in Hr; [congruence|].
    apply List.find_some in Hfind as [Hin Heq]. simpl in Heq.
    destruct v as [| | | |s'| |]; try done. simpl in Heq.
    apply String.eqb_eq in Heq as <-.
    exists k. split; [done|]. by apply In_mapping_get.
  - intros k s Hvals Hget Hk Hs. apply mapping_get_In in Hget.
    rewrite (find_value_first _ _ _ Hvals Hget). simpl.
    destruct (String.eqb_spec s "") as [|_]; [done|]. simpl.
    by destruct (String.eqb_spec k "").
Qed.

Lemma mapEnumValue_reverse_lookup_witness :
  mapEnumValue (VStr "Hot Lead") [("HOT_LEAD", "Hot Lead"); ("COLD", "Cold")]
  = VStr "HOT_LEAD".
Proof.
  refine (proj2 (proj2 (proj2 (mapEnumValue_reverse_lookup
            [("HOT_LEAD", "Hot Lead"); ("COLD", "Cold")] (VStr "Hot Lead") _)))
          "HOT_LEAD" "Hot Lead" _ _ _ _);
    try discriminate; try reflexivity;
    apply (bool_decide_unpack _); vm_compute; reflexivity.
Defined.

(** ** Updating a user profile *)

(** What [updateUserProfile] has done when it answers with success. *)
Lemma profile_updated_inv P env req (st : Store) r :
  fst (updateUserProfile P env req st) = Responded r -> status r = 200 ->
  exists dat old shown,
    profileData (body req) = Ret dat
    /\ List.find (has_id (params_id req)) (st userProfile) = Some old
    /\ after (updateUserProfile P env req) st
       = upd userProfile
           (replaced (params_id req) (updated_row env dat old)
              (st userProfile)) st
    /\ show_profile (updated_row env dat old) = Ret shown
    /\ data r = One shown.
Proof.
  intros Hrun Hst. unfold after.
  destruct (updateUserProfile P env req st) as [res st'] eqn:Hc.
  simpl in Hrun |- *. subst res. unfold updateUserProfile in Hc.
  apply handler_catch_inv in Hc as [Hc|(err & _ & ->)]; [|done].
  returned_M Hc.
  match type of Hc with
  | match update ?P ?env ?m ?i ?d ?s with _ => _ end = _ =>
      destruct (update P env m i d s) as [[u|err] s1] eqn:Hu; [|done];
      apply update_inv in Hu as (old & Hfind & Hacc & -> & ->)
  end.
  cbv beta iota in Hc.
  match type of Hc with
  | match ?o with Ret _ => _ | Throw _ => _ end = _ =>
      destruct o as [shown|] eqn:Hshow; [|done]
  end.
  injection Hc as <- <-. by eexists _, old, shown.
Qed.

(** X16.  [updateCurrentUserProfile] answers 404 and changes nothing when
    there is no profile, and otherwise does what [updateUserProfile] does
    for the id of the first profile and the same body. *)
Theorem update_current_is_update_of_first P env (req : Request) (st : Store) :
  (st userProfile = [] ->
     updateCurrentUserProfile P env req st
     = (Responded (not_found "User profile not found"), st))
  /\ (forall u i req',
        head (st userProfile) = Some u -> get u "id" = VStr i ->
        params_id req' = i -> body req' = body req ->
        updateCurrentUserProfile P env req st
        = updateUserProfile P env req' st).
Proof.
  split.
  - intros Hnil. unfold updateCurrentUserProfile, handler, catch, findFirst.
    unfold mbind, M_bind. by rewrite Hnil.
  - intros u i req' Hhead Hid Hp Hb.
    unfold updateCurrentUserProfile, updateUserProfile, handler, catch,
      findFirst, row_id, lift.
    unfold mbind, M_bind. rewrite Hhead, Hid, Hp, Hb. reflexivity.
Qed.

Lemma update_current_is_update_of_first_witness :
  updateCurrentUserProfile example_platform example_env flag_at_top_level
    empty_store
  = (Responded (not_found "User profile not found"), empty_store)
  /\ updateCurrentUserProfile example_platform example_env
       (request "" [] [("role", VStr "Sales Rep")]) profile_store
     = updateUserProfile example_platform example_env
         (request "u1" [] [("role", VStr "Sales Rep")]) profile_store
  /\ sent ["id"; "role"]
       (fst (updateCurrentUserProfile example_platform example_env
               (request "" [] [("role", VStr "Sales Rep")]) profile_store))
     = Some (200, [[VStr "u1"; VStr "SALES REP"]]).
Proof.
  split; [|split; [|by vm_compute]].
  - exact (proj1 (update_current_is_update_of_first example_platform
                    example_env flag_at_top_level empty_store) eq_refl).
  - eapply (proj2 (update_current_is_update_of_first example_platform
                     example_env
                     (request "" [] [("role", VStr "Sales Rep")])
                     profile_store));
      [reflexivity | vm_compute; reflexivity | reflexivity | reflexivity].
Defined.

Lemma scalar_body_get (o : Obj) k :
  scalar_body o = true -> is_scalar (get o k) = true.
Proof.
  unfold scalar_body, get. intros H.
  destruct (o !! k) as [v|] eqn:E; [|done]. simpl.
  rewrite forallb_forall in H.
  apply (H (k, v)). by apply list_elem_of_In, elem_of_map_to_list.
Qed.

(** X17.  A profile update does not take the notification flags from the
    top level of the body.  When the body holds no nested object, and so
    no [notifications] object, and the update answers 200, each of the
    three flags keeps its stored value, also when the body names the flag
    at top level, and the response shows the stored value inside
    [notifications]. *)
Theorem profile_update_flags P env (req : Request) (st : Store) r k :
  scalar_body (body req) = true ->
  fst (updateUserProfile P env req st) = Responded r -> status r = 200 ->
  In k ["emailNotifications"; "smsNotifications"; "pushNotifications"] ->
  exists old row shown,
    List.find (has_id (params_id req)) (st userProfile) = Some old
    /\ after (updateUserProfile P env req) st userProfile
       = replaced (params_id req) row (st userProfile)
    /\ row !! k = old !! k
    /\ data r = One shown
    /\ opt_member (get shown "notifications") k = get old k.
Proof.
  intros Hscalar Hrun Hst Hk.
  destruct (profile_updated_inv P env req st r Hrun Hst)
    as (dat & old & shown & Hdat & Hfind & Hafter & Hshow & Hdata).
  exists old, (updated_row env dat old), shown.
  rewrite Hafter, upd_same. do 2 (split; [done|]).
  assert (opt_member (get (body req) "notifications") k = VUndef) as Hu.
  { pose proof (scalar_body_get _ "notifications" Hscalar) as Hn.
    by destruct (get (body req) "notifications"). }
  unfold profileData in Hdat. returned Hdat.
  unfold show_profile in Hshow. returned Hshow.
  assert (updated_row env dat old !! k = old !! k) as Hrow.
  { unfold updated_row. rewrite lookup_union_r, lookup_insert_ne; [done| |].
    - destruct Hk as [<-|[<-|[<-|[]]]]; discriminate.
    - subst dat.
      destruct Hk as [<-|[<-|[<-|[]]]];
        rewrite ?Hu, !lookup_set; repeat case_decide; try done;
        rewrite ?Hu; done. }
  split; [done|]. split; [done|].
  rewrite <- Hshow. rewrite get_set_eq.
  destruct Hk as [<-|[<-|[<-|[]]]]; cbn [opt_member field_get];
    rewrite ?String.eqb_refl;
    repeat match goal with
    | |- context [String.eqb ?a ?b] =>
        change (String.eqb a b) with false; cbv iota
    end;
    unfold get; by rewrite Hrow.
Qed.

Lemma profile_update_flags_witness :
  exists row,
    after (updateUserProfile example_platform example_env flag_at_top_level)
      profile_store userProfile
    = replaced "u1" row (profile_store userProfile)
    /\ row !! "emailNotifications" = Some (VBool true).
Proof.
  edestruct (fun r => profile_update_flags example_platform example_env
               flag_at_top_level profile_store r "emailNotifications")
    as (old & row & shown & H1 & H2 & H3 & H4 & H5);
    [reflexivity | vm_compute; reflexivity | reflexivity | by left |].
  exists row. split; [exact H2|]. rewrite H3.
  apply (f_equal (fun o => o ≫= (.!! "emailNotifications"))) in H1.
  vm_compute in H1. symmetry. exact H1.
Defined.

(** ** The Accounts view *)

(** X18.  Saving while an account is being edited: with both required
    fields filled in, the view calls [updateAccount] with the id of the
    edited account and the whole form, and never [addAccount]; when the
    call returns it reports success and closes the dialog, and when the
    call throws it reports the error and keeps the dialog and the form. *)
Theorem save_edited_account (ctx : UI.Context) (s : UI.State) (acc : Obj) :
  UI.editingAccount s = Some acc ->
  truthy (get (UI.formData s) "accountName") = true ->
  truthy (get (UI.formData s) "industry") = true ->
  exists verdict,
    fst (UI.handleSaveAccount ctx s)
      = [UI.UpdateAccount (get acc "id") (UI.formData s); UI.Alert verdict]
    /\ (UI.updateAccount_throws ctx (get acc "id") (UI.formData s) = false ->
          verdict = "Account updated successfully!"
          /\ snd (UI.handleSaveAccount ctx s) = UI.closed)
    /\ (UI.updateAccount_throws ctx (get acc "id") (UI.formData s) = true ->
          verdict = "Error saving account. Please try again."
          /\ snd (UI.handleSaveAccount ctx s) = s)
    /\ (forall a s0, s = View.handleEditAccount a s0 ->
          acc = a /\ UI.formData s = a).
Proof.
  intros He Hn Hi. unfold UI.handleSaveAccount. rewrite Hn, Hi, He.
  cbn [negb orb].
  destruct (UI.updateAccount_throws ctx _ _); eexists;
    (split; [reflexivity|]); (split; [done|]); (split; [done|]);
    intros a s0 ->; simpl in He; by injection He as ->.
Qed.

Lemma save_edited_account_witness :
  fst (UI.handleSaveAccount UI.quiet
         (View.handleEditAccount (UI.formData UI.acme_form) UI.closed))
  = [UI.UpdateAccount VUndef (UI.formData UI.acme_form);
     UI.Alert "Account updated successfully!"]
  /\ snd (UI.handleSaveAccount UI.quiet
            (View.handleEditAccount (UI.formData UI.acme_form) UI.closed))
     = UI.closed.
Proof.
  destruct (save_edited_account UI.quiet
              (View.handleEditAccount (UI.formData UI.acme_form) UI.closed)
              (UI.formData UI.acme_form) eq_refl eq_refl eq_refl)
    as (verdict & H1 & H2 & _).
  destruct (H2 eq_refl) as [-> H3]. split; [exact H1|exact H3].
Defined.

(** X19.  Every run of [handleSaveAccount] makes at most one call to the
    store, then shows exactly one alert, and leaves the state as it was
    unless the alert reports success, in which case the dialog is closed,
    the form is empty and no account is being edited. *)
Theorem save_account_alerts_once (ctx : UI.Context) (s : UI.State) :
  exists calls msg,
    fst (UI.handleSaveAccount ctx s) = (calls ++ [UI.Alert msg])%list
    /\ (length calls <= 1)%nat
    /\ (forall m, ~ In (UI.Alert m) calls)
    /\ snd (UI.handleSaveAccount ctx s)
       = if String.eqb msg "Account updated successfully!"
            || String.eqb msg "Account created successfully!"
         then UI.closed else s.
Proof.
  unfold UI.handleSaveAccount.
  destruct (negb _ || negb _).
  - exists [], "Account Name and Industry are required!". simpl.
    repeat split; auto.
  - destruct (UI.editingAccount s) as [acc|].
    + destruct (UI.updateAccount_throws ctx _ _);
        eexists [_], _; simpl; (split; [reflexivity|]);
        (split; [lia|]); (split; [|done]); by intros m [|[]].
    + destruct (UI.addAccount_throws ctx _);
        eexists [_], _; simpl; (split; [reflexivity|]);
        (split; [lia|]); (split; [|done]); by intros m [|[]].
Qed.

Lemma lower_char_facts c :
  Ascii.eqb (lower_char c) "_" = Ascii.eqb c "_"
  /\ Ascii.eqb (lower_char c) " " = Ascii.eqb c " ".
Proof. by destruct c as [[] [] [] [] [] [] [] []]. Qed.

Lemma includes_toLowerCase (c : ascii) s :
  (forall d, Ascii.eqb (lower_char d) c = Ascii.eqb d c) ->
  includes c (toLowerCase s) = includes c s.
Proof.
  intros Hc. unfold toLowerCase.
  induction s as [|d s IH]; simpl; [done|]. by rewrite Hc, IH.
Qed.

Lemma display_first_underscore x :
  includes "_" (toDisplay_first x) = true ->
  includes " " (toDisplay_first x) = true.
Proof.
  unfold toDisplay_first. induction x as [|c x IH]; simpl; [done|].
  destruct (Ascii.eqb c "_") eqn:E; simpl; [done|]. rewrite E. simpl.
  intros H. rewrite (IH H). apply orb_true_r.
Qed.

(** The lower-case form of a status that a read handler shows is no
    filter type with an underscore and without a space. *)
Lemma shown_status_lower x (filterType : string) :
  includes "_" filterType = true -> includes " " filterType = false ->
  String.eqb (toLowerCase (toDisplay_first x)) filterType = false.
Proof.
  intros Hu Hs. apply String.eqb_neq. intros <-.
  rewrite includes_toLowerCase in Hu, Hs by apply lower_char_facts.
  apply display_first_underscore in Hu. congruence.
Qed.

Lemma truthy_str s : s ≠ "" -> truthy (VStr s) = true.
Proof. intros H. unfold truthy. by destruct (String.eqb_spec s ""). Qed.

Lemma type_colour_of_shown x :
  View.getTypeColor (toDisplay_first x) ≠ View.getTypeColor "active_deal"
  /\ View.getTypeColor (toDisplay_first x) ≠ View.getTypeColor "do_not_call".
Proof.
  unfold View.getTypeColor at 1 3.
  rewrite (shown_status_lower x "active_deal"),
    (shown_status_lower x "do_not_call") by done.
  cbv zeta.
  destruct (String.eqb (toLowerCase (toDisplay_first x)) "suspect");
    [|destruct (String.eqb (toLowerCase (toDisplay_first x)) "prospect")];
    split; intros H; apply (proj2 (String.eqb_eq _ _)) in H;
    vm_compute in H; discriminate H.
Qed.

(** X20.  A row in the form that the account read handlers send is kept
    by no filter whose type holds an underscore and no space, such as
    [active_deal] and [do_not_call], and its status badge never has the
    colour of one of these two. *)
Theorem shown_status_misses_underscore_filters (a shown : Obj)
    (filterType : string) :
  show_account a = Ret shown ->
  includes "_" filterType = true -> includes " " filterType = false ->
  View.matchesFilter filterType shown = Ret false
  /\ (forall c, View.typeBadge shown = Ret c ->
        c ≠ View.getTypeColor "active_deal"
        /\ c ≠ View.getTypeColor "do_not_call").
Proof.
  intros Hshow Hu Hs.
  assert (get shown "status" = VUndef
          \/ exists x, get shown "status" = VStr (toDisplay_first x)
                       /\ toDisplay_first x ≠ "") as Hst.
  { unfold show_account in Hshow. returned Hshow. subst shown. get_simpl.
    unfold when_truthy in E0. destruct (truthy (get a "status")) eqn:Ht.
    - destruct (get a "status") as [| | | |x| |]; try done.
      unfold call in E0. apply Ret_inj in E0. subst. right. exists x.
      split; [done|]. apply (shown_nonempty account_status x).
      unfold truthy in Ht. by destruct (String.eqb_spec x "").
    - apply Ret_inj in E0. subst. by left. }
  unfold View.matchesFilter, View.typeBadge.
  assert (String.eqb filterType "all" = false) as ->.
  { apply String.eqb_neq. by intros ->. }
  destruct Hst as [->|(x & -> & Hne)].
  - split; [done|]. unfold js_or. cbn [truthy].
    intros c H. apply Ret_inj in H. subst c.
    split; intros H; apply (proj2 (String.eqb_eq _ _)) in H;
      vm_compute in H; discriminate H.
  - rewrite js_or_str, truthy_str by done.
    rewrite shown_status_lower by done. split; [done|].
    intros c H. apply Ret_inj in H. subst c. apply type_colour_of_shown.
Qed.

Lemma shown_status_misses_underscore_filters_witness :
  View.matchesFilter "active_deal"
    (set "status" (VStr "ACTIVE DEAL") ∅) = Ret false.
Proof.
  refine (proj1 (shown_status_misses_underscore_filters
                  (set "status" (VStr "ACTIVE_DEAL") ∅)
                  (set "status" (VStr "ACTIVE DEAL") ∅)
                  "active_deal" _ _ _));
    [vm_compute; reflexivity | reflexivity | reflexivity].
Defined.

(** ** Listing after a create *)

Lemma matching_no_search (e : Entity) (req : Request) (row : Obj) :
  query req !! "search" = None -> matching e req row = true.
Proof. intros H. destruct e; simpl; by rewrite ?H. Qed.

Lemma length_filter_all {A} (f : A -> bool) (l : list A) :
  (forall x, f x = true) -> length (List.filter f l) = length l.
Proof.
  intros Hf. induction l as [|a l IH]; simpl; [done|].
  rewrite Hf. simpl. by rewrite IH.
Qed.

(** X21.  A created record is counted by the next list request: after a
    create from a body without nested objects that answers 201, a list
    request without search, answered 200 before the create with the number
    of records of the entity as total, is answered 200 after it with that
    total plus one. *)
Theorem created_record_is_counted (e : Entity) P env (req lreq : Request)
    (st : Store) r :
  scalar_body (body req) = true ->
  fst (create_handler e P env req st) = Responded r -> status r = 201 ->
  1 <= page_of lreq -> 1 <= limit_of lreq -> showable e st = true ->
  query lreq !! "search" = None ->
  exists r0 r1 pg0 pg1,
    fst (list_handler e lreq st) = Responded r0
    /\ status r0 = 200 /\ pagination r0 = Some pg0
    /\ pg_total pg0 = Z.of_nat (length (st (model_of e)))
    /\ fst (list_handler e lreq (after (create_handler e P env req) st))
       = Responded r1
    /\ status r1 = 200 /\ pagination r1 = Some pg1
    /\ pg_total pg1 = pg_total pg0 + 1.
Proof.
  intros _ Hrun Hst Hp Hn Hall Hsearch.
  destruct (created_row e P env req st r Hrun Hst)
    as (dat & shown & _ & _ & _ & Hafter & Hshow & _).
  destruct (listed (model_of e) (matching e lreq) (order_key e) (show_of e)
              (page_of lreq) (limit_of lreq)
              (fun _ => mret (list_failure e)) st Hp Hn
              (showable_In e st Hall)) as (l0 & H0 & _).
  destruct (listed (model_of e) (matching e lreq) (order_key e) (show_of e)
              (page_of lreq) (limit_of lreq)
              (fun _ => mret (list_failure e))
              (after (create_handler e P env req) st) Hp Hn)
    as (l1 & H1 & _).
  { rewrite Hafter, upd_same. intros row Hin.
    apply in_app_or in Hin as [Hin|[<-|[]]]; [|eauto].
    by apply (showable_In e st Hall). }
  rewrite !list_handler_shape, H0, H1. eexists _, _, _, _.
  do 3 (split; [reflexivity|]).
  split; [|do 3 (split; [reflexivity|])]; simpl.
  - by rewrite length_filter_all by (intros; by apply matching_no_search).
  - rewrite !length_filter_all by (intros; by apply matching_no_search).
    rewrite Hafter, upd_same, length_app. simpl. lia.
Qed.

Lemma created_record_is_counted_witness :
  exists r1 pg1,
    fst (list_handler leads (request "" [] []) lead_store) = Responded r1
    /\ pagination r1 = Some pg1 /\ pg_total pg1 = 1.
Proof.
  edestruct (created_record_is_counted leads example_platform example_env
               new_lead (request "" [] []) empty_store)
    as (r0 & r1 & pg0 & pg1 & H1 & H2 & H3 & H4 & H5 & H6 & H7 & H8);
    [reflexivity | vm_compute; reflexivity | reflexivity | by vm_compute
    | by vm_compute | reflexivity | reflexivity |].
  exists r1, pg1. split; [exact H5|]. split; [exact H7|].
  rewrite H8, H4. reflexivity.
Defined.

(** ** Filtering the accounts of the view *)

Lemma filterM_filter (p : Obj -> outcome bool) (f : Obj -> bool)
    (l : list Obj) kept :
  View.filterM p l = Ret kept ->
  (forall a b, In a l -> p a = Ret b -> b = f a) ->
  kept = List.filter f l.
Proof.
  revert kept. induction l as [|a l IH]; intros kept H Hp; simpl in H |- *.
  - by apply Ret_inj in H.
  - returned H. subst kept.
    rewrite <- (Hp a _ (or_introl eq_refl) E).
    rewrite <- (IH _ eq_refl); [done|].
    intros a' b' Hin. apply Hp. by right.
Qed.

(** X22.  The filter of the view.  With the type [all] every account is
    kept and nothing is thrown.  With another type, when the filter
    returns, it keeps, in order, exactly the accounts whose status is a
    string, not empty, that is the type when put in lower case; so a type
    with an upper-case letter keeps no account. *)
Theorem filtered_accounts_by_status (filterType : string)
    (accounts_ : list Obj) :
  View.filteredAccounts "all" accounts_ = Ret accounts_
  /\ (forall kept,
        View.filteredAccounts filterType accounts_ = Ret kept ->
        filterType ≠ "all" ->
        kept = List.filter
                 (fun a => match get a "status" with
                           | VStr s => negb (String.eqb s "")
                                       && String.eqb (toLowerCase s) filterType
                           | _ => false
                           end) accounts_
        /\ (toLowerCase filterType ≠ filterType -> kept = [])).
Proof.
  split.
  - unfold View.filteredAccounts.
    induction accounts_ as [|a l IH]; simpl; [done|].
    unfold mbind, outcome_bind in IH |- *. by rewrite IH.
  - intros kept H Hne. unfold View.filteredAccounts in H.
    apply (filterM_filter _
             (fun a => match get a "status" with
                       | VStr s => negb (String.eqb s "")
                                   && String.eqb (toLowerCase s) filterType
                       | _ => false
                       end)) in H.
    + split; [done|]. intros Hup. subst kept.
      induction accounts_ as [|a l IH]; simpl; [done|].
      destruct (get a "status") as [| | | |s| |]; try done.
      destruct (String.eqb_spec (toLowerCase s) filterType) as [Heq|_];
        [|by rewrite andb_false_r].
      destruct Hup. by rewrite <- Heq, toLowerCase_idemp.
    + intros a b _. unfold View.matchesFilter.
      apply String.eqb_neq in Hne. rewrite Hne.
      destruct (get a "status") as [| |[]|n|s| |]; unfold truthy;
        try (intros E; by apply Ret_inj in E); try done.
      * destruct (negb (n =? 0)); [done|]. intros E; by apply Ret_inj in E.
      * destruct (String.eqb s ""); simpl; intros E; by apply Ret_inj in E.
Qed.

Lemma filtered_accounts_by_status_witness :
  View.filteredAccounts "Prospect"
    [set "status" (VStr "PROSPECT") ∅; set "status" (VStr "prospect") ∅]
  = Ret [].
Proof.
  destruct (View.filteredAccounts "Prospect"
              [set "status" (VStr "PROSPECT") ∅;
               set "status" (VStr "prospect") ∅]) as [kept|err] eqn:E;
    [|by vm_compute in E].
  f_equal.
  refine (proj2 (proj2 (filtered_accounts_by_status "Prospect" _) kept E _) _);
    discriminate.
Defined.

(** ** The current profile *)

Lemma show_profile_keeps_id (u shown : Obj) :
  show_profile u = Ret shown -> get shown "id" = get u "id".
Proof.
  intros H. unfold show_profile in H. returned H. subst shown. by get_simpl.
Qed.

(** What [getCurrentUserProfile] has done when it answers 200: the
    profile it shows is the first of the table afterwards. *)
Lemma current_profile_inv P env req (st : Store) r :
  fst (getCurrentUserProfile P env req st) = Responded r -> status r = 200 ->
  exists u rest shown,
    after (getCurrentUserProfile P env req) st userProfile = u :: rest
    /\ show_profile u = Ret shown
    /\ r = json_data (One shown).
Proof.
  intros Hrun Hst. unfold after.
  destruct (getCurrentUserProfile P env req st) as [res st'] eqn:Hc.
  simpl in Hrun |- *. subst res. unfold getCurrentUserProfile in Hc.
  apply handler_catch_inv in Hc as [Hc|(err & _ & ->)]; [|done].
  unfold mbind, M_bind, mret, M_ret, lift, findFirst, create in Hc.
  cbv beta in Hc.
  destruct (st userProfile) as [|u rest] eqn:Hrows; cbn [head] in Hc.
  - cbv beta iota zeta in Hc.
    destruct (negb (accepts P userProfile default_profile)); [done|].
    rewrite Hrows, id_taken_nil in Hc.
    destruct (show_profile _) as [shown|] eqn:Hshow; [|done].
    injection Hc as <- <-. rewrite upd_same. by eexists _, [], shown.
  - destruct (show_profile u) as [shown|] eqn:Hshow; [|done].
    injection Hc as <- <-. rewrite Hrows. by exists u, rest, shown.
Qed.

(** X23.  The current profile can be fetched and updated.  After
    [getCurrentUserProfile] answered 200 with a profile, [getUserProfile]
    for the id of that profile gives the same answer, and
    [updateCurrentUserProfile] answers 200 or 500, never 404. *)
Theorem current_profile_is_reachable P env (req req1 req2 : Request)
    (st : Store) r shown i :
  fst (getCurrentUserProfile P env req st) = Responded r -> status r = 200 ->
  data r = One shown -> get shown "id" = VStr i -> params_id req1 = i ->
  fst (getUserProfile req1 (after (getCurrentUserProfile P env req) st))
  = Responded r
  /\ exists r2,
       fst (updateCurrentUserProfile P env req2
              (after (getCurrentUserProfile P env req) st)) = Responded r2
       /\ (status r2 = 200 \/ status r2 = 500).
Proof.
  intros Hrun Hst Hdata Hid Hp.
  destruct (current_profile_inv P env req st r Hrun Hst)
    as (u & rest & shown' & Hrows & Hshow & ->).
  simpl in Hdata. injection Hdata as ->.
  rewrite (show_profile_keeps_id _ _ Hshow) in Hid.
  set (st' := after (getCurrentUserProfile P env req) st) in *.
  split.
  - unfold getUserProfile. erewrite get_shape_some; [reflexivity| |exact Hshow].
    rewrite Hrows, Hp. simpl. unfold has_id. rewrite Hid.
    by rewrite String.eqb_refl.
  - unfold updateCurrentUserProfile.
    match goal with
    | |- context [handler (catch ?b ?h)] =>
        destruct (handler_catch_responds b
                    (fun _ => failed "Failed to update user profile") st')
          as (r2 & Hr2 & Hcase)
    end.
    exists r2. split; [exact Hr2|].
    destruct Hcase as [Hret|[e ->]]; [|by right]. left.
    unfold mbind, M_bind, mret, M_ret, lift, findFirst in Hret.
    rewrite Hrows in Hret. cbn [head] in Hret. cbv beta iota in Hret.
    destruct (row_id u); [|done]. cbv beta iota in Hret.
    destruct (profileData (body req2)); [|done]. cbv beta iota in Hret.
    destruct (update P env userProfile _ _ st') as [[u2|] s2]; [|done].
    cbv beta iota in Hret.
    destruct (show_profile u2); [|done]. cbn [fst] in Hret.
    by injection Hret as <-.
Qed.

Lemma current_profile_is_reachable_witness :
  exists r,
    fst (getUserProfile (request "c1" [] [])
           (after (getCurrentUserProfile example_platform example_env
                     (request "" [] [])) empty_store)) = Responded r
    /\ status r = 200.
Proof.
  edestruct (fun r shown => current_profile_is_reachable example_platform
               example_env (request "" [] []) (request "c1" [] [])
               (request "" [] []) empty_store r shown "c1") as [H1 _];
    [vm_compute; reflexivity | reflexivity | reflexivity
    | vm_compute; reflexivity | reflexivity |].
  eexists. split; [exact H1|reflexivity].
Defined.
